(** * ReviewMaestro payment backend: a shallow embedding of [app.py]

    The Flask views of [app.py] are embedded as functions in a small
    trace-and-exception monad.  Python values (decoded JSON bodies, SDK
    objects, decoded webhook events) are elements of one [value] type.
    The billing provider's SDK and the interpreter's own message texts are
    interfaces ([StripeSDK], [PyRuntime]); the views are written against
    them exactly as the source calls them.  The server's start-up block and
    the provisioning script [setup_stripe_products.py] follow, the script
    in a monad of its own whose trace records what it prints. *)

From Stdlib Require Import String Ascii List ZArith Floats DecimalString.
Import ListNotations.
Open Scope string_scope.
Set Warnings "-register-all".

(* ===================================================================== *)
(** ** Python values *)
(* ===================================================================== *)

Inductive value : Type :=
| VNone
| VBool (b : bool)
| VInt (n : Z)
| VFloat (x : float)
| VStr (s : string)
| VList (items : list value)
| VDict (kvs : list (string * value)).

(** [bool(v)]: the truth value Python gives an object in [if] / [not]. *)
Definition truthy (v : value) : bool :=
  match v with
  | VNone => false
  | VBool b => b
  | VInt n => negb (Z.eqb n 0)
  | VFloat x => negb (PrimFloat.eqb x 0%float)
  | VStr s => negb (String.eqb s "")
  | VList l => match l with [] => false | _ :: _ => true end
  | VDict kvs => match kvs with [] => false | _ :: _ => true end
  end.

(** [os.getenv] yields [None] or a string. *)
Definition of_optional (o : option string) : value :=
  match o with
  | None => VNone
  | Some s => VStr s
  end.

(** [v == 'literal'] for a string literal on the right. *)
Definition py_eq_str (v : value) (s : string) : bool :=
  match v with
  | VStr t => String.eqb t s
  | _ => false
  end.

(** First binding of a key in a dict's items. *)
Fixpoint assoc {A : Type} (k : string) (kvs : list (string * A)) : option A :=
  match kvs with
  | [] => None
  | (k', v) :: rest => if String.eqb k' k then Some v else assoc k rest
  end.

Definition has_key {A : Type} (k : string) (kvs : list (string * A)) : bool :=
  match assoc k kvs with
  | Some _ => true
  | None => false
  end.

(** [needle in hay] on two strings: substring test. *)
Fixpoint str_contains (needle hay : string) : bool :=
  if String.prefix needle hay then true
  else match hay with
       | EmptyString => false
       | String _ rest => str_contains needle rest
       end.

(* ===================================================================== *)
(** ** Exceptions *)
(* ===================================================================== *)

(** The provider's error classes, all subclasses of [stripe.error.StripeError];
    [OtherStripeError] stands for the base class and the subclasses the
    source never names. *)
Inductive stripe_error : Type :=
| CardError
| RateLimitError
| InvalidRequestError
| AuthenticationError
| APIConnectionError
| SignatureVerificationError
| OtherStripeError.

Inductive exn : Type :=
| StripeError (kind : stripe_error) (text : string) (user_message : option string)
| KeyError (key_repr : string)
| ValueError (text : string)
| TypeError (text : string)
| AttributeError (text : string)
| IndexError (text : string)
| OtherException (text : string).

(** [repr] of a string key.  Every key this program subscripts with is a
    plain identifier, whose repr is the key between single quotes. *)
Definition quote (k : string) : string := "'" ++ k ++ "'".

(** [str(e)].  A [KeyError] prints the repr of its key. *)
Definition exn_str (e : exn) : string :=
  match e with
  | StripeError _ text _ => text
  | KeyError r => r
  | ValueError text => text
  | TypeError text => text
  | AttributeError text => text
  | IndexError text => text
  | OtherException text => text
  end.

Definition is_stripe_error (e : exn) : bool :=
  match e with
  | StripeError _ _ _ => true
  | _ => false
  end.

(** What the interpreter was doing when it raised a [TypeError],
    [AttributeError] or [IndexError] of its own. *)
Inductive fault : Type :=
| NotSubscriptable
| BadIndexType
| NotIterable
| IndexOutOfRange
| NoAttribute (name : string).

(** The interpreter: how it prints a value that is not a string, and the
    text of the errors it raises itself. *)
Class PyRuntime : Type := {
  py_repr : value -> string;
  fault_text : fault -> value -> string
}.

(* ===================================================================== *)
(** ** Effects: log lines, SDK calls, handler invocations *)
(* ===================================================================== *)

Inductive level : Type := INFO | ERROR.

Inductive handler : Type :=
| h_subscription_created
| h_subscription_updated
| h_subscription_deleted
| h_payment_succeeded
| h_payment_failed
| h_trial_will_end.

Inductive effect : Type :=
| Log (lvl : level) (msg : string)
| SdkCall (api : string) (args : value)
| Invoke (h : handler) (arg : value).

Inductive result (A : Type) : Type :=
| Ok (a : A)
| Raise (e : exn).
Arguments Ok {A} a.
Arguments Raise {A} e.

(** A computation: the effects it performed, in order, and how it ended. *)
Definition M (A : Type) : Type := (list effect * result A)%type.

Definition ret {A : Type} (a : A) : M A := ([], Ok a).

Definition raise {A : Type} (e : exn) : M A := ([], Raise e).

Definition bind {A B : Type} (m : M A) (f : A -> M B) : M B :=
  match m with
  | (t, Ok a) => let (t', r) := f a in ((t ++ t')%list, r)
  | (t, Raise e) => (t, Raise e)
  end.

(** [try: m except Exception as e: h e]. *)
Definition catch {A : Type} (m : M A) (h : exn -> M A) : M A :=
  match m with
  | (t, Raise e) => let (t', r) := h e in ((t ++ t')%list, r)
  | (t, Ok a) => (t, Ok a)
  end.

Definition lift {A : Type} (r : result A) : M A := ([], r).

Definition log (lvl : level) (msg : string) : M unit := ([Log lvl msg], Ok tt).

Definition sdk_call {A : Type} (api : string) (args : value) (r : result A) : M A :=
  ([SdkCall api args], r).

Declare Scope py_scope.
Delimit Scope py_scope with py.
Notation "x <- m ;; k" := (bind m (fun x => k))
  (at level 61, m at next level, right associativity) : py_scope.
Notation "m ;;; k" := (bind m (fun _ => k))
  (at level 61, right associativity) : py_scope.
Open Scope py_scope.

(** Projections of a trace. *)
Fixpoint invocations (t : list effect) : list (handler * value) :=
  match t with
  | [] => []
  | Invoke h a :: rest => (h, a) :: invocations rest
  | _ :: rest => invocations rest
  end.

Fixpoint sdk_calls (t : list effect) : list (string * value) :=
  match t with
  | [] => []
  | SdkCall api a :: rest => (api, a) :: sdk_calls rest
  | _ :: rest => sdk_calls rest
  end.

Fixpoint log_lines (t : list effect) : list (level * string) :=
  match t with
  | [] => []
  | Log l m :: rest => (l, m) :: log_lines rest
  | _ :: rest => log_lines rest
  end.

(* ===================================================================== *)
(** ** HTTP responses *)
(* ===================================================================== *)

Inductive body : Type :=
| Text (s : string)
| Json (v : value).

Record response : Type := mkResponse { status : Z; payload_of : body }.

(** [jsonify(d)] alone is a 200; [x, code] sets the status. *)
Definition jsonify (v : value) : response := mkResponse 200 (Json v).
Definition jsonify_with (v : value) (code : Z) : response := mkResponse code (Json v).
Definition text_with (s : string) (code : Z) : response := mkResponse code (Text s).

Definition error_body (msg : string) : value := VDict [("error", VStr msg)].

(* ===================================================================== *)
(** ** The provider SDK *)
(* ===================================================================== *)

(** The calls the source makes into the [stripe] package.  Keyword
    arguments travel as a dict; SDK objects come back as values that the
    source reads by attribute ([sdk_getattr]) or by subscript. *)
Class StripeSDK : Type := {
  Customer_create : value -> result value;
  Subscription_create : value -> result value;
  Subscription_list : value -> result value;
  Webhook_construct_event : value -> value -> value -> result value;
  sdk_getattr : value -> string -> result value
}.

(** Process environment, as [os.getenv] sees it. *)
Definition environ : Type := string -> option string.

(* ===================================================================== *)
(** ** Interpreter operations the views use *)
(* ===================================================================== *)

(** Where a [return] inside a [try] or a loop leaves the view early. *)
Inductive flow (A : Type) : Type :=
| Return (r : response)
| Continue (a : A).
Arguments Return {A} r.
Arguments Continue {A} a.

Section Interpreter.
Context {rt : PyRuntime}.

(** What an f-string field or [str()] prints. *)
Definition py_str (v : value) : string :=
  match v with
  | VStr s => s
  | _ => py_repr v
  end.

(** [v[k]] with a string key. *)
Definition getitem (v : value) (k : string) : M value :=
  match v with
  | VDict kvs =>
      match assoc k kvs with
      | Some x => ret x
      | None => raise (KeyError (quote k))
      end
  | VStr _ | VList _ => raise (TypeError (fault_text BadIndexType v))
  | _ => raise (TypeError (fault_text NotSubscriptable v))
  end.

(** [v[0]]. *)
Definition first_item (v : value) : M value :=
  match v with
  | VList (x :: _) => ret x
  | VList [] => raise (IndexError (fault_text IndexOutOfRange v))
  | VStr (String c _) => ret (VStr (String c EmptyString))
  | VStr EmptyString => raise (IndexError (fault_text IndexOutOfRange v))
  | VDict _ => raise (KeyError "0")
  | _ => raise (TypeError (fault_text NotSubscriptable v))
  end.

(** [k in v] with a string on the left. *)
Definition contains (v : value) (k : string) : M bool :=
  match v with
  | VDict kvs => ret (has_key k kvs)
  | VList l => ret (existsb (fun x => py_eq_str x k) l)
  | VStr s => ret (str_contains k s)
  | _ => raise (TypeError (fault_text NotIterable v))
  end.

(** [v.get(k, default)], a method of dicts only. *)
Definition get_method (v : value) (k : string) (default : value) : M value :=
  match v with
  | VDict kvs =>
      match assoc k kvs with
      | Some x => ret x
      | None => ret default
      end
  | _ => raise (AttributeError (fault_text (NoAttribute "get") v))
  end.

End Interpreter.

(* ===================================================================== *)
(** ** The views of [app.py] *)
(* ===================================================================== *)

(** What the webhook view reads from the request: [get_data(as_text=True)]
    and [headers.get('Stripe-Signature')]. *)
Record webhook_request : Type := {
  get_data : string;
  stripe_signature : option string
}.

(** What the JSON views read from the request: the outcome of
    [request.get_json()], a decoded body or the exception it raised. *)
Record json_request : Type := { get_json : result value }.

Section Views.
Context {rt : PyRuntime} {sdk : StripeSDK}.
Variable getenv : environ.

Definition getattr (o : value) (name : string) : M value :=
  lift (sdk_getattr o name).

(** The module-level price table, filled from the environment. *)
Definition PRICE_IDS : list (string * value) :=
  [ ("starter_monthly", of_optional (getenv "STRIPE_STARTER_MONTHLY_PRICE_ID"));
    ("starter_yearly", of_optional (getenv "STRIPE_STARTER_YEARLY_PRICE_ID"));
    ("professional_monthly", of_optional (getenv "STRIPE_PROFESSIONAL_MONTHLY_PRICE_ID"));
    ("professional_yearly", of_optional (getenv "STRIPE_PROFESSIONAL_YEARLY_PRICE_ID")) ].

(** [d.get(k)] on the price table. *)
Definition table_get (d : list (string * value)) (k : string) : value :=
  match assoc k d with
  | Some v => v
  | None => VNone
  end.

(** *** Webhook handlers *)

Definition handle_subscription_created (subscription : value) : M unit :=
  i <- getitem subscription "id" ;;
  log INFO ("Subscription created: " ++ py_str i).

Definition handle_subscription_updated (subscription : value) : M unit :=
  i <- getitem subscription "id" ;;
  s <- getitem subscription "status" ;;
  log INFO ("Subscription updated: " ++ py_str i ++ " - Status: " ++ py_str s).

Definition handle_subscription_deleted (subscription : value) : M unit :=
  i <- getitem subscription "id" ;;
  log INFO ("Subscription cancelled: " ++ py_str i).

Definition handle_payment_succeeded (invoice : value) : M unit :=
  i <- getitem invoice "id" ;;
  a <- getitem invoice "amount_paid" ;;
  log INFO ("Payment succeeded: " ++ py_str i ++ " - Amount: " ++ py_str a).

Definition handle_payment_failed (invoice : value) : M unit :=
  i <- getitem invoice "id" ;;
  c <- getitem invoice "customer" ;;
  log INFO ("Payment failed: " ++ py_str i ++ " - Customer: " ++ py_str c).

Definition handle_trial_will_end (subscription : value) : M unit :=
  i <- getitem subscription "id" ;;
  log INFO ("Trial ending soon for subscription: " ++ py_str i).

Definition handler_body (h : handler) : value -> M unit :=
  match h with
  | h_subscription_created => handle_subscription_created
  | h_subscription_updated => handle_subscription_updated
  | h_subscription_deleted => handle_subscription_deleted
  | h_payment_succeeded => handle_payment_succeeded
  | h_payment_failed => handle_payment_failed
  | h_trial_will_end => handle_trial_will_end
  end.

(** A call of a handler: the call is recorded, then the body runs. *)
Definition call (h : handler) (arg : value) : M unit :=
  bind (([Invoke h arg], Ok tt) : M unit) (fun _ => handler_body h arg).

(** The [if] / [elif] chain of [stripe_webhook]. *)
Definition dispatch (event_type data_object : value) : M unit :=
  if py_eq_str event_type "customer.subscription.created" then
    call h_subscription_created data_object
  else if py_eq_str event_type "customer.subscription.updated" then
    call h_subscription_updated data_object
  else if py_eq_str event_type "customer.subscription.deleted" then
    call h_subscription_deleted data_object
  else if py_eq_str event_type "invoice.payment_succeeded" then
    call h_payment_succeeded data_object
  else if py_eq_str event_type "invoice.payment_failed" then
    call h_payment_failed data_object
  else if py_eq_str event_type "customer.subscription.trial_will_end" then
    call h_trial_will_end data_object
  else
    log INFO ("Unhandled event type: " ++ py_str event_type).

(** *** [stripe_webhook] *)

Definition construct_event (payload sig_header endpoint_secret : value) : M value :=
  sdk_call "Webhook.construct_event"
    (VList [payload; sig_header; endpoint_secret])
    (Webhook_construct_event payload sig_header endpoint_secret).

Definition success_ack : response := jsonify (VDict [("status", VStr "success")]).

(** The part of [stripe_webhook] under its comment [# Handle the event]. *)
Definition handle_event (event : value) : M response :=
  event_type <- getitem event "type" ;;
  data <- getitem event "data" ;;
  data_object <- getitem data "object" ;;
  log INFO ("Received webhook event: " ++ py_str event_type) ;;;
  handled <-
    catch
      (dispatch event_type data_object ;;; ret (Continue tt))
      (fun e =>
         log ERROR ("Error handling webhook " ++ py_str event_type
                    ++ ": " ++ exn_str e) ;;;
         ret (Return (text_with ("Error handling webhook: " ++ exn_str e) 500))) ;;
  match handled with
  | Return r => ret r
  | Continue _ => ret success_ack
  end.

Definition stripe_webhook (req : webhook_request) : M response :=
  let payload := VStr (get_data req) in
  let sig_header := of_optional (stripe_signature req) in
  let endpoint_secret := of_optional (getenv "STRIPE_WEBHOOK_SECRET") in
  if negb (truthy endpoint_secret) then
    log ERROR "Webhook secret not configured" ;;;
    ret (text_with "Webhook secret not configured" 400)
  else
    verified <-
      catch
        (event <- construct_event payload sig_header endpoint_secret ;;
         ret (Continue event))
        (fun e =>
           match e with
           | ValueError _ =>
               log ERROR ("Invalid payload: " ++ exn_str e) ;;;
               ret (Return (text_with "Invalid payload" 400))
           | StripeError SignatureVerificationError _ _ =>
               log ERROR ("Invalid signature: " ++ exn_str e) ;;;
               ret (Return (text_with "Invalid signature" 400))
           | _ => raise e
           end) ;;
    match verified with
    | Return r => ret r
    | Continue event => handle_event event
    end.

(** *** [create_subscription] *)

Definition required_fields : list string :=
  ["email"; "name"; "plan"; "billing_cycle"; "payment_method_id"].

(** The [for field in required_fields] loop, with its early [return]. *)
Fixpoint check_required (fields : list string) (data : value) : M (flow unit) :=
  match fields with
  | [] => ret (Continue tt)
  | field :: rest =>
      present <- contains data field ;;
      if negb present then
        ret (Return (jsonify_with (error_body ("Missing required field: " ++ field)) 400))
      else check_required rest data
  end.

Definition customer_kwargs (email name pm pm' plan cycle company : value) : value :=
  VDict [ ("email", email);
          ("name", name);
          ("payment_method", pm);
          ("invoice_settings", VDict [("default_payment_method", pm')]);
          ("metadata", VDict [ ("plan", plan);
                               ("billing_cycle", cycle);
                               ("source", VStr "reviewmaestro_saas");
                               ("company", company) ]) ].

Definition subscription_kwargs (customer_id price_id plan cycle : value) : value :=
  VDict [ ("customer", customer_id);
          ("items", VList [VDict [("price", price_id)]]);
          ("trial_period_days", VInt 14);
          ("expand", VList [VStr "latest_invoice.payment_intent"]);
          ("metadata", VDict [("plan", plan); ("billing_cycle", cycle)]) ].

(** The body of the [try]. *)
Definition create_subscription_try (req : json_request) : M response :=
  data <- lift (get_json req) ;;
  checked <- check_required required_fields data ;;
  match checked with
  | Return r => ret r
  | Continue _ =>
      plan <- getitem data "plan" ;;
      cycle <- getitem data "billing_cycle" ;;
      let plan_key := py_str plan ++ "_" ++ py_str cycle in
      let price_id := table_get PRICE_IDS plan_key in
      if negb (truthy price_id) then
        ret (jsonify_with
               (error_body ("Invalid plan or billing cycle: " ++ plan_key)) 400)
      else
        email <- getitem data "email" ;;
        name <- getitem data "name" ;;
        pm <- getitem data "payment_method_id" ;;
        pm' <- getitem data "payment_method_id" ;;
        mplan <- getitem data "plan" ;;
        mcycle <- getitem data "billing_cycle" ;;
        company <- get_method data "company" (VStr "") ;;
        let ckw := customer_kwargs email name pm pm' mplan mcycle company in
        customer <- sdk_call "Customer.create" ckw (Customer_create ckw) ;;
        cid <- getattr customer "id" ;;
        lemail <- getitem data "email" ;;
        log INFO ("Customer created: " ++ py_str cid ++ " for " ++ py_str lemail) ;;;
        scid <- getattr customer "id" ;;
        splan <- getitem data "plan" ;;
        scycle <- getitem data "billing_cycle" ;;
        let skw := subscription_kwargs scid price_id splan scycle in
        subscription <- sdk_call "Subscription.create" skw (Subscription_create skw) ;;
        lsid <- getattr subscription "id" ;;
        lcid <- getattr customer "id" ;;
        log INFO ("Subscription created: " ++ py_str lsid
                  ++ " for customer " ++ py_str lcid) ;;;
        rsid <- getattr subscription "id" ;;
        rcid <- getattr customer "id" ;;
        inv <- getattr subscription "latest_invoice" ;;
        intent <- getattr inv "payment_intent" ;;
        secret <-
          (if truthy intent then
             inv' <- getattr subscription "latest_invoice" ;;
             intent' <- getattr inv' "payment_intent" ;;
             getattr intent' "client_secret"
           else ret VNone) ;;
        trial_end <- getattr subscription "trial_end" ;;
        st <- getattr subscription "status" ;;
        ret (jsonify (VDict [ ("subscription_id", rsid);
                              ("customer_id", rcid);
                              ("client_secret", secret);
                              ("trial_end", trial_end);
                              ("status", st) ]))
  end.

(** The [except] clauses, in source order. *)
Definition create_subscription_except (e : exn) : M response :=
  match e with
  | StripeError CardError _ user_message =>
      log ERROR ("Card error: " ++ exn_str e) ;;;
      ret (jsonify_with
             (error_body ("Card error: " ++ py_str (of_optional user_message))) 400)
  | StripeError RateLimitError _ _ =>
      log ERROR ("Rate limit error: " ++ exn_str e) ;;;
      ret (jsonify_with (error_body "Too many requests. Please try again later.") 429)
  | StripeError InvalidRequestError _ _ =>
      log ERROR ("Invalid request: " ++ exn_str e) ;;;
      ret (jsonify_with (error_body ("Invalid request: " ++ exn_str e)) 400)
  | StripeError AuthenticationError _ _ =>
      log ERROR ("Authentication error: " ++ exn_str e) ;;;
      ret (jsonify_with (error_body "Authentication failed. Please contact support.") 401)
  | StripeError APIConnectionError _ _ =>
      log ERROR ("Network error: " ++ exn_str e) ;;;
      ret (jsonify_with (error_body "Network error. Please try again.") 503)
  | StripeError _ _ _ =>
      log ERROR ("Stripe error: " ++ exn_str e) ;;;
      ret (jsonify_with (error_body ("Payment processing error: " ++ exn_str e)) 400)
  | _ =>
      log ERROR ("Unexpected error: " ++ exn_str e) ;;;
      ret (jsonify_with
             (error_body "An unexpected error occurred. Please try again.") 500)
  end.

Definition create_subscription (req : json_request) : M response :=
  catch (create_subscription_try req) create_subscription_except.

(** *** [get_subscription_status] *)

Definition list_kwargs (customer_id : string) : value :=
  VDict [("customer", VStr customer_id); ("status", VStr "all"); ("limit", VInt 10)].

Definition get_subscription_status_try (customer_id : string) : M response :=
  let kw := list_kwargs customer_id in
  subscriptions <- sdk_call "Subscription.list" kw (Subscription_list kw) ;;
  found <- getattr subscriptions "data" ;;
  if negb (truthy found) then
    ret (jsonify (VDict [("status", VStr "no_subscription")]))
  else
    found' <- getattr subscriptions "data" ;;
    subscription <- first_item found' ;;
    sid <- getattr subscription "id" ;;
    st <- getattr subscription "status" ;;
    pstart <- getattr subscription "current_period_start" ;;
    pend <- getattr subscription "current_period_end" ;;
    trial_end <- getattr subscription "trial_end" ;;
    cancel <- getattr subscription "cancel_at_period_end" ;;
    its <- getattr subscription "items" ;;
    itd <- getattr its "data" ;;
    plan <-
      (if truthy itd then
         its' <- getattr subscription "items" ;;
         itd' <- getattr its' "data" ;;
         item <- first_item itd' ;;
         price <- getattr item "price" ;;
         getattr price "nickname"
       else ret VNone) ;;
    ret (jsonify (VDict [ ("subscription_id", sid);
                          ("status", st);
                          ("current_period_start", pstart);
                          ("current_period_end", pend);
                          ("trial_end", trial_end);
                          ("cancel_at_period_end", cancel);
                          ("plan", plan) ])).

Definition get_subscription_status_except (e : exn) : M response :=
  match e with
  | StripeError _ _ _ =>
      log ERROR ("Stripe error: " ++ exn_str e) ;;;
      ret (jsonify_with (error_body ("Stripe error: " ++ exn_str e)) 400)
  | _ =>
      log ERROR ("Unexpected error: " ++ exn_str e) ;;;
      ret (jsonify_with (error_body "An unexpected error occurred") 500)
  end.

Definition get_subscription_status (customer_id : string) : M response :=
  catch (get_subscription_status_try customer_id) get_subscription_status_except.

End Views.

Arguments stripe_webhook {rt sdk} getenv req.
Arguments handle_event {rt} event.
Arguments dispatch {rt} event_type data_object.
Arguments handler_body {rt} h _.
Arguments create_subscription {rt sdk} getenv req.
Arguments create_subscription_try {rt sdk} getenv req.
Arguments get_subscription_status {rt sdk} customer_id.

(** Whether [not endpoint_secret] is false for this environment. *)
Definition secret_configured (getenv : environ) : bool :=
  truthy (of_optional (getenv "STRIPE_WEBHOOK_SECRET")).

(** The arguments [stripe_webhook] hands to the SDK for a delivery, and the
    SDK's verdict on them. *)
Definition verification_args (getenv : environ) (req : webhook_request) : value :=
  VList [ VStr (get_data req);
          of_optional (stripe_signature req);
          of_optional (getenv "STRIPE_WEBHOOK_SECRET") ].

Definition verification {sdk : StripeSDK} (getenv : environ) (req : webhook_request)
  : result value :=
  Webhook_construct_event (VStr (get_data req))
    (of_optional (stripe_signature req))
    (of_optional (getenv "STRIPE_WEBHOOK_SECRET")).

(** What the relay answers once a handler, or the default arm, has run. *)
Definition after_dispatch {rt : PyRuntime} (ty : value) (r : result unit) : list effect * response :=
  match r with
  | Ok _ => ([], success_ack)
  | Raise e =>
      ([Log ERROR ("Error handling webhook " ++ py_str ty ++ ": " ++ exn_str e)],
       text_with ("Error handling webhook: " ++ exn_str e) 500)
  end.

(** [event['type']] and [event['data']['object']] of a decoded event. *)
Definition event_type_of (event : value) : option value :=
  match event with
  | VDict kvs => assoc "type" kvs
  | _ => None
  end.

Definition data_object_of (event : value) : option value :=
  match event with
  | VDict kvs =>
      match assoc "data" kvs with
      | Some (VDict d) => assoc "object" d
      | _ => None
      end
  | _ => None
  end.

(* ===================================================================== *)
(** ** The specification's vocabulary *)
(* ===================================================================== *)

(** The six event types the specification lists, each with its handler. *)
Definition recognized_types : list (string * handler) :=
  [ ("customer.subscription.created", h_subscription_created);
    ("customer.subscription.updated", h_subscription_updated);
    ("customer.subscription.deleted", h_subscription_deleted);
    ("invoice.payment_succeeded", h_payment_succeeded);
    ("invoice.payment_failed", h_payment_failed);
    ("customer.subscription.trial_will_end", h_trial_will_end) ].

Definition recognized (event_type : value) : option handler :=
  match event_type with
  | VStr s => assoc s recognized_types
  | _ => None
  end.

(** The two authentication failures and the message each is answered with. *)
Definition rejection_message (e : exn) : option string :=
  match e with
  | ValueError _ => Some "Invalid payload"
  | StripeError SignatureVerificationError _ _ => Some "Invalid signature"
  | _ => None
  end.

(** The relay's classes of outcome; [Unhandled] is an exception leaving the
    view. *)
Inductive classification : Type :=
| SecretMissing
| InvalidPayload
| InvalidSignature
| UnknownTypeAcknowledged
| HandlerError
| Success
| Unhandled.

Definition classify (o : M response) : classification :=
  match o with
  | (_, Raise _) => Unhandled
  | (t, Ok r) =>
      match payload_of r with
      | Text s =>
          if String.eqb s "Webhook secret not configured" then SecretMissing
          else if String.eqb s "Invalid payload" then InvalidPayload
          else if String.eqb s "Invalid signature" then InvalidSignature
          else HandlerError
      | Json _ =>
          match invocations t with
          | [] => UnknownTypeAcknowledged
          | _ :: _ => Success
          end
      end
  end.

(** The status the specification assigns to each error category of
    create-subscription. *)
Definition expected_status (e : exn) : Z :=
  match e with
  | StripeError CardError _ _ => 400
  | StripeError RateLimitError _ _ => 429
  | StripeError InvalidRequestError _ _ => 400
  | StripeError AuthenticationError _ _ => 401
  | StripeError APIConnectionError _ _ => 503
  | StripeError _ _ _ => 400
  | _ => 500
  end.

Definition generic_failure : response :=
  jsonify_with (error_body "An unexpected error occurred. Please try again.") 500.

(** The field-level 400 of create-subscription. *)
Definition missing_field_response (field : string) : response :=
  jsonify_with (error_body ("Missing required field: " ++ field)) 400.

(** The first required field a JSON object lacks. *)
Definition first_missing (kvs : list (string * value)) : option string :=
  find (fun f => negb (has_key f kvs)) required_fields.

(** A decoded body that is neither object, array nor string. *)
Definition scalar (v : value) : bool :=
  match v with
  | VNone | VBool _ | VInt _ | VFloat _ => true
  | VStr _ | VList _ | VDict _ => false
  end.

(** Python's [in] on a string or an array, which never raises. *)
Definition member (field : string) (v : value) : bool :=
  match v with
  | VStr s => str_contains field s
  | VList l => existsb (fun x => py_eq_str x field) l
  | _ => false
  end.

Definition first_absent (v : value) : option string :=
  find (fun f => negb (member f v)) required_fields.

(* ===================================================================== *)
(** ** A test double of the interpreter and of the provider *)
(* ===================================================================== *)

Definition demo_repr (v : value) : string :=
  match v with
  | VNone => "None"
  | VBool true => "True"
  | VBool false => "False"
  | VInt n => NilZero.string_of_int (Z.to_int n)
  | VFloat _ => "<float>"
  | VStr s => quote s
  | VList _ => "[...]"
  | VDict _ => "{...}"
  end.

Definition demo_type_name (v : value) : string :=
  match v with
  | VNone => "NoneType"
  | VBool _ => "bool"
  | VInt _ => "int"
  | VFloat _ => "float"
  | VStr _ => "str"
  | VList _ => "list"
  | VDict _ => "dict"
  end.

Definition demo_fault_text (f : fault) (v : value) : string :=
  match f with
  | NotSubscriptable => quote (demo_type_name v) ++ " object is not subscriptable"
  | BadIndexType => demo_type_name v ++ " indices must be integers"
  | NotIterable => "argument of type " ++ quote (demo_type_name v) ++ " is not iterable"
  | IndexOutOfRange => demo_type_name v ++ " index out of range"
  | NoAttribute name =>
      quote (demo_type_name v) ++ " object has no attribute " ++ quote name
  end.

#[local] Instance demo_runtime : PyRuntime :=
  {| py_repr := demo_repr; fault_text := demo_fault_text |}.

Definition demo_object (fields : list (string * value)) : value := VDict fields.

(** The SDK's objects are dicts with attribute access added on top: a name
    that is a method of [dict] resolves to that method, not to the field of
    the same name; any other name resolves to the value under that key. *)
Definition dict_methods : list string :=
  [ "clear"; "copy"; "fromkeys"; "get"; "items"; "keys"; "pop"; "popitem";
    "setdefault"; "update"; "values" ].

(** Stands for a bound method: an object with none of the attributes the
    views read. *)
Definition bound_method (name : string) : value :=
  VStr ("<built-in method " ++ name ++ ">").

Definition demo_getattr (o : value) (name : string) : result value :=
  match o with
  | VDict kvs =>
      if existsb (String.eqb name) dict_methods then Ok (bound_method name)
      else
        match assoc name kvs with
        | Some v => Ok v
        | None => Raise (AttributeError name)
        end
  | _ => Raise (AttributeError name)
  end.

Definition demo_event (ty : string) (obj : value) : value :=
  VDict [("type", VStr ty); ("data", VDict [("object", obj)])].

(** Payloads the double can decode. *)
Definition demo_payloads : list (string * value) :=
  [ ("payment-failed",
     demo_event "invoice.payment_failed"
       (VDict [("id", VStr "in_1"); ("customer", VStr "cus_1")]));
    ("created-without-id", demo_event "customer.subscription.created" (VDict []));
    ("charge-refunded", demo_event "charge.refunded" (VDict [("id", VStr "ch_1")])) ].

(** A signature verifies when it is the secret prefixed by [signed:]. *)
Definition demo_construct_event (payload sig_header secret : value) : result value :=
  match payload, sig_header, secret with
  | VStr p, VStr s, VStr k =>
      if String.eqb s ("signed:" ++ k) then
        match assoc p demo_payloads with
        | Some ev => Ok ev
        | None => Raise (ValueError "Expecting value: line 1 column 1 (char 0)")
        end
      else
        Raise (StripeError SignatureVerificationError
                 "No signatures found matching the expected signature for payload"
                 None)
  | _, _, _ =>
      Raise (StripeError SignatureVerificationError
               "Unable to extract timestamp and signatures from header" None)
  end.

Definition demo_customer_create (kwargs : value) : result value :=
  match kwargs with
  | VDict kvs =>
      if py_eq_str (table_get kvs "email") "declined@example.com" then
        Raise (StripeError CardError "Request req_1: Your card was declined."
                 (Some "Your card was declined."))
      else Ok (demo_object [("id", VStr "cus_1")])
  | _ => Raise (StripeError InvalidRequestError "Invalid arguments" None)
  end.

Definition demo_subscription_create (kwargs : value) : result value :=
  Ok (demo_object [ ("id", VStr "sub_1");
                    ("latest_invoice", demo_object [("payment_intent", VNone)]);
                    ("trial_end", VInt 1700000000);
                    ("status", VStr "trialing") ]).

Definition demo_bare_subscription : value :=
  demo_object [ ("id", VStr "sub_2");
                ("status", VStr "active");
                ("current_period_start", VInt 1700000000);
                ("current_period_end", VInt 1702592000);
                ("trial_end", VNone);
                ("cancel_at_period_end", VBool false);
                ("items", demo_object [("data", VList [])]) ].

Definition demo_subscription_list (kwargs : value) : result value :=
  match kwargs with
  | VDict kvs =>
      if py_eq_str (table_get kvs "customer") "cus_bare" then
        Ok (demo_object [("data", VList [demo_bare_subscription])])
      else Ok (demo_object [("data", VList [])])
  | _ => Raise (StripeError InvalidRequestError "Invalid arguments" None)
  end.

#[local] Instance demo_sdk : StripeSDK :=
  {| Customer_create := demo_customer_create;
     Subscription_create := demo_subscription_create;
     Subscription_list := demo_subscription_list;
     Webhook_construct_event := demo_construct_event;
     sdk_getattr := demo_getattr |}.

(** A second provider: same verification, every other call fails. *)
Definition down_sdk : StripeSDK :=
  {| Customer_create := fun _ => Raise (StripeError APIConnectionError "down" None);
     Subscription_create := fun _ => Raise (StripeError APIConnectionError "down" None);
     Subscription_list := fun _ => Raise (StripeError APIConnectionError "down" None);
     Webhook_construct_event := demo_construct_event;
     sdk_getattr := fun _ name => Raise (AttributeError name) |}.

Definition demo_env : environ :=
  fun name =>
    if String.eqb name "STRIPE_WEBHOOK_SECRET" then Some "whsec_1"
    else if String.eqb name "STRIPE_STARTER_MONTHLY_PRICE_ID" then Some "price_sm"
    else if String.eqb name "STRIPE_PROFESSIONAL_YEARLY_PRICE_ID" then Some "price_py"
    else None.

Definition bare_env : environ := fun _ => None.

Definition signed (payload : string) : webhook_request :=
  {| get_data := payload; stripe_signature := Some "signed:whsec_1" |}.

Definition order (email plan cycle : string) : json_request :=
  {| get_json :=
       Ok (VDict [ ("email", VStr email);
                   ("name", VStr "Ada");
                   ("plan", VStr plan);
                   ("billing_cycle", VStr cycle);
                   ("payment_method_id", VStr "pm_1") ]) |}.


(** An environment that shares only the webhook secret with [demo_env]. *)
Definition other_env : environ :=
  fun name => if String.eqb name "STRIPE_WEBHOOK_SECRET" then Some "whsec_1" else None.

Definition unsigned (payload : string) : webhook_request :=
  {| get_data := payload; stripe_signature := None |}.

(* ===================================================================== *)
(** ** The rest of [app.py]: portal sessions, public configuration, start-up *)
(* ===================================================================== *)

(** The calls into the [stripe] package made outside the three views above. *)
Class StripeAdmin : Type := {
  Portal_Session_create : value -> result value;
  Account_retrieve : result value;
  Product_create : value -> result value;
  Price_create : value -> result value
}.

(** Two builtins whose full behaviour belongs to the interpreter: [int] on a
    string and [str.upper]. *)
Class PyBuiltins : Type := {
  py_int : string -> result Z;
  py_upper : string -> string
}.

(** [s.rstrip(c)] for a one-character set: drop every trailing [c]. *)
Fixpoint rstrip (c : ascii) (s : string) : string :=
  match s with
  | EmptyString => EmptyString
  | String a rest =>
      match rstrip c rest with
      | EmptyString => if Ascii.eqb a c then EmptyString else String a EmptyString
      | String b r => String a (String b r)
      end
  end.

(** [s * n]. *)
Fixpoint str_mul (s : string) (n : nat) : string :=
  match n with
  | O => EmptyString
  | S k => s ++ str_mul s k
  end.

Definition slash : ascii := ascii_of_nat 47.

(** [get_config], given [request.host_url]. *)
Definition get_config (getenv : environ) (host_url : string) : response :=
  jsonify (VDict [ ("stripe_publishable_key",
                    of_optional (getenv "STRIPE_PUBLISHABLE_KEY"));
                   ("api_url", VStr (rstrip slash host_url)) ]).

(** [repr] of a list of strings made of plain identifiers. *)
Definition repr_names (l : list string) : string :=
  "[" ++ String.concat ", " (map quote l) ++ "]".

(** How the [__main__] block of [app.py] ends: [exit(code)] or [app.run]. *)
Inductive process_end : Type :=
| Exit (code : Z)
| Serve (host : string) (port : Z) (debug : bool).

Section Startup.
Context {rt : PyRuntime} {sdk : StripeSDK} {admin : StripeAdmin} {bi : PyBuiltins}.
Variable getenv : environ.

(** *** [create_portal_session] *)

Definition default_return_url : string :=
  "https://lcherouri.github.io/reviewmaestro-saas/".

Definition portal_kwargs (customer return_url : value) : value :=
  VDict [("customer", customer); ("return_url", return_url)].

Definition create_portal_session_try (req : json_request) : M response :=
  data <- lift (get_json req) ;;
  present <- contains data "customer_id" ;;
  if negb present then
    ret (jsonify_with (error_body "Missing customer_id") 400)
  else
    customer <- getitem data "customer_id" ;;
    return_url <- get_method data "return_url" (VStr default_return_url) ;;
    let kw := portal_kwargs customer return_url in
    session <- sdk_call "billing_portal.Session.create" kw (Portal_Session_create kw) ;;
    lcustomer <- getitem data "customer_id" ;;
    log INFO ("Portal session created for customer: " ++ py_str lcustomer) ;;;
    url <- lift (sdk_getattr session "url") ;;
    ret (jsonify (VDict [("url", url)])).

Definition create_portal_session_except (e : exn) : M response :=
  match e with
  | StripeError _ _ _ =>
      log ERROR ("Stripe error: " ++ exn_str e) ;;;
      ret (jsonify_with (error_body ("Stripe error: " ++ exn_str e)) 400)
  | _ =>
      log ERROR ("Unexpected error: " ++ exn_str e) ;;;
      ret (jsonify_with (error_body "An unexpected error occurred") 500)
  end.

Definition create_portal_session (req : json_request) : M response :=
  catch (create_portal_session_try req) create_portal_session_except.

(** *** The [__main__] block *)

Definition required_env_vars : list string :=
  ["STRIPE_SECRET_KEY"; "STRIPE_PUBLISHABLE_KEY"].

Definition missing_vars : list string :=
  filter (fun var => negb (truthy (of_optional (getenv var)))) required_env_vars.

(** [for var in missing_vars: logger.error(f"  {var}")]. *)
Fixpoint log_each (vars : list string) : M unit :=
  match vars with
  | [] => ret tt
  | var :: rest => log ERROR ("  " ++ var) ;;; log_each rest
  end.

(** [int(os.getenv('PORT', 5000))]. *)
Definition read_port : result Z :=
  match getenv "PORT" with
  | None => Ok 5000%Z
  | Some s => py_int s
  end.

Definition app_main : M process_end :=
  match missing_vars with
  | _ :: _ =>
      log ERROR ("Missing required environment variables: " ++ repr_names missing_vars) ;;;
      log ERROR "Please set the following environment variables:" ;;;
      log_each missing_vars ;;;
      ret (Exit 1)
  | [] =>
      validated <-
        catch
          (_ <- sdk_call "Account.retrieve" (VDict []) Account_retrieve ;;
           log INFO "Stripe configuration validated successfully" ;;;
           ret true)
          (fun e =>
             match e with
             | StripeError AuthenticationError _ _ =>
                 log ERROR "Invalid Stripe API key" ;;;
                 ret false
             | _ =>
                 log ERROR ("Error validating Stripe configuration: " ++ exn_str e) ;;;
                 ret false
             end) ;;
      if negb validated then ret (Exit 1)
      else
        port <- lift read_port ;;
        let debug := py_eq_str (of_optional (getenv "FLASK_ENV")) "development" in
        log INFO ("Starting ReviewMaestro Payment API on port " ++ py_str (VInt port)) ;;;
        log INFO "CORS enabled for: https://lcherouri.github.io" ;;;
        ret (Serve "0.0.0.0" port debug)
  end.

End Startup.

Arguments create_portal_session {rt sdk admin} req.
Arguments create_portal_session_try {rt sdk admin} req.
Arguments app_main {rt admin bi} getenv.

(* ===================================================================== *)
(** ** [setup_stripe_products.py] *)
(* ===================================================================== *)

(** The script prints instead of logging.  Printed text is kept as the
    UTF-8 bytes of the source's literals. *)
Inductive output : Type :=
| Print (line : string)
| Api (api : string) (args : value).

Definition script (A : Type) : Type := (list output * result A)%type.

Definition sret {A : Type} (a : A) : script A := ([], Ok a).

Definition sbind {A B : Type} (m : script A) (f : A -> script B) : script B :=
  match m with
  | (t, Ok a) => let (t', r) := f a in ((t ++ t')%list, r)
  | (t, Raise e) => (t, Raise e)
  end.

Definition scatch {A : Type} (m : script A) (h : exn -> script A) : script A :=
  match m with
  | (t, Raise e) => let (t', r) := h e in ((t ++ t')%list, r)
  | (t, Ok a) => (t, Ok a)
  end.

Definition slift {A : Type} (r : result A) : script A := ([], r).

Definition print (line : string) : script unit := ([Print line], Ok tt).

Definition api {A : Type} (name : string) (args : value) (r : result A) : script A :=
  ([Api name args], r).

Declare Scope script_scope.
Delimit Scope script_scope with script.
Notation "x <~ m ;; k" := (sbind m (fun x => k))
  (at level 61, m at next level, right associativity) : script_scope.
Notation "m ~;; k" := (sbind m (fun _ => k))
  (at level 61, right associativity) : script_scope.
Open Scope script_scope.

Fixpoint api_calls (t : list output) : list (string * value) :=
  match t with
  | [] => []
  | Api name a :: rest => (name, a) :: api_calls rest
  | Print _ :: rest => api_calls rest
  end.

Fixpoint printed (t : list output) : list string :=
  match t with
  | [] => []
  | Print line :: rest => line :: printed rest
  | Api _ _ :: rest => printed rest
  end.

Definition nl : string := String (ascii_of_nat 10) EmptyString.

(** How the script's [__main__] block ends: [exit(code)], or by running off
    its last line. *)
Inductive script_end : Type :=
| Exited (code : Z)
| Completed.

Section SetupScript.
Context {rt : PyRuntime} {sdk : StripeSDK} {admin : StripeAdmin} {bi : PyBuiltins}.
Variable getenv : environ.

Definition attr (o : value) (name : string) : script value :=
  slift (sdk_getattr o name).

Definition product_kwargs (name description plan_type features : string) : value :=
  VDict [ ("name", VStr name);
          ("description", VStr description);
          ("metadata", VDict [ ("plan_type", VStr plan_type);
                               ("features", VStr features) ]) ].

Definition price_kwargs (product : value) (unit_amount : Z)
    (interval nickname plan billing : string) : value :=
  VDict [ ("product", product);
          ("unit_amount", VInt unit_amount);
          ("currency", VStr "usd");
          ("recurring", VDict [("interval", VStr interval)]);
          ("nickname", VStr nickname);
          ("metadata", VDict [("plan", VStr plan); ("billing", VStr billing)]) ].

Definition starter_product_kwargs : value :=
  product_kwargs "ReviewMaestro Starter"
    "Perfect for single restaurants - Up to 100 reviews/month with AI analysis and response generation"
    "starter"
    "100 reviews/month, AI sentiment analysis, Basic response templates, Email support".

Definition professional_product_kwargs : value :=
  product_kwargs "ReviewMaestro Professional"
    "For growing restaurants - Up to 1,000 reviews/month with advanced features and priority support"
    "professional"
    "1,000 reviews/month, Advanced AI analysis, Custom response generation, Priority support, Analytics dashboard".

Definition create_price (kw : value) : script value :=
  api "Price.create" kw (Price_create kw).

(** The body of the [try] of [create_products_and_prices]. *)
Definition create_products_and_prices_try : script value :=
  print "📦 Creating Starter Plan product..." ~;;
  starter_product <~
    api "Product.create" starter_product_kwargs (Product_create starter_product_kwargs) ;;
  i <~ attr starter_product "id" ;;
  print ("✅ Starter product created: " ++ py_str i) ~;;
  print "📦 Creating Professional Plan product..." ~;;
  professional_product <~
    api "Product.create" professional_product_kwargs
      (Product_create professional_product_kwargs) ;;
  i <~ attr professional_product "id" ;;
  print ("✅ Professional product created: " ++ py_str i) ~;;
  print "💰 Creating Starter Plan prices..." ~;;
  p <~ attr starter_product "id" ;;
  starter_monthly <~
    create_price (price_kwargs p 1900 "month" "Starter Monthly" "starter" "monthly") ;;
  i <~ attr starter_monthly "id" ;;
  print ("✅ Starter Monthly price created: " ++ py_str i) ~;;
  p <~ attr starter_product "id" ;;
  starter_yearly <~
    create_price (price_kwargs p 15600 "year" "Starter Yearly" "starter" "yearly") ;;
  i <~ attr starter_yearly "id" ;;
  print ("✅ Starter Yearly price created: " ++ py_str i) ~;;
  print "💰 Creating Professional Plan prices..." ~;;
  p <~ attr professional_product "id" ;;
  professional_monthly <~
    create_price
      (price_kwargs p 9900 "month" "Professional Monthly" "professional" "monthly") ;;
  i <~ attr professional_monthly "id" ;;
  print ("✅ Professional Monthly price created: " ++ py_str i) ~;;
  p <~ attr professional_product "id" ;;
  professional_yearly <~
    create_price
      (price_kwargs p 82800 "year" "Professional Yearly" "professional" "yearly") ;;
  i <~ attr professional_yearly "id" ;;
  print ("✅ Professional Yearly price created: " ++ py_str i) ~;;
  print (nl ++ str_mul "=" 60) ~;;
  print "🎉 SUCCESS! All products and prices created!" ~;;
  print (str_mul "=" 60) ~;;
  print (nl ++ "📋 ENVIRONMENT VARIABLES TO SET:") ~;;
  print "Copy these to your deployment environment:" ~;;
  print (str_mul "-" 40) ~;;
  i <~ attr starter_monthly "id" ;;
  print ("STRIPE_STARTER_MONTHLY_PRICE_ID=" ++ py_str i) ~;;
  i <~ attr starter_yearly "id" ;;
  print ("STRIPE_STARTER_YEARLY_PRICE_ID=" ++ py_str i) ~;;
  i <~ attr professional_monthly "id" ;;
  print ("STRIPE_PROFESSIONAL_MONTHLY_PRICE_ID=" ++ py_str i) ~;;
  i <~ attr professional_yearly "id" ;;
  print ("STRIPE_PROFESSIONAL_YEARLY_PRICE_ID=" ++ py_str i) ~;;
  print (nl ++ "📊 PRICING SUMMARY:") ~;;
  print (str_mul "-" 40) ~;;
  print "Starter Plan:" ~;;
  i <~ attr starter_monthly "id" ;;
  print ("  Monthly: $19.00/month (" ++ py_str i ++ ")") ~;;
  i <~ attr starter_yearly "id" ;;
  print ("  Yearly:  $156.00/year (" ++ py_str i ++ ") - 30% savings!") ~;;
  print (nl ++ "Professional Plan:") ~;;
  i <~ attr professional_monthly "id" ;;
  print ("  Monthly: $99.00/month (" ++ py_str i ++ ")") ~;;
  i <~ attr professional_yearly "id" ;;
  print ("  Yearly:  $828.00/year (" ++ py_str i ++ ") - 30% savings!") ~;;
  print (nl ++ "🔗 NEXT STEPS:") ~;;
  print (str_mul "-" 40) ~;;
  print "1. Copy the price IDs above to your environment variables" ~;;
  print "2. Deploy your backend with these environment variables" ~;;
  print "3. Test the payment flow with test cards" ~;;
  print "4. Switch to live mode when ready!" ~;;
  sm <~ attr starter_monthly "id" ;;
  sy <~ attr starter_yearly "id" ;;
  pm <~ attr professional_monthly "id" ;;
  py <~ attr professional_yearly "id" ;;
  sret (VDict [ ("starter_monthly", sm);
                ("starter_yearly", sy);
                ("professional_monthly", pm);
                ("professional_yearly", py) ]).

Definition create_products_and_prices_except (e : exn) : script value :=
  match e with
  | StripeError _ _ _ =>
      print ("❌ Stripe error: " ++ exn_str e) ~;; sret VNone
  | _ =>
      print ("❌ Unexpected error: " ++ exn_str e) ~;; sret VNone
  end.

Definition create_products_and_prices : script value :=
  print "🚀 Setting up Stripe products for ReviewMaestro SaaS..." ~;;
  print (str_mul "=" 60) ~;;
  scatch create_products_and_prices_try create_products_and_prices_except.

(** [v.upper()], a method of strings. *)
Definition upper_method (v : value) : script value :=
  match v with
  | VStr s => sret (VStr (py_upper s))
  | _ => slift (Raise (AttributeError (fault_text (NoAttribute "upper") v)))
  end.

Definition verify_stripe_connection : script bool :=
  scatch
    (account <~ api "Account.retrieve" (VDict []) Account_retrieve ;;
     display_name <~ attr account "display_name" ;;
     shown <~ (if truthy display_name then sret display_name else attr account "id") ;;
     print ("✅ Connected to Stripe account: " ++ py_str shown) ~;;
     email <~ attr account "email" ;;
     print ("📧 Account email: " ++ py_str email) ~;;
     country <~ attr account "country" ;;
     print ("🌍 Country: " ++ py_str country) ~;;
     currency <~ attr account "default_currency" ;;
     upper <~ upper_method currency ;;
     print ("💰 Currency: " ++ py_str upper) ~;;
     sret true)
    (fun e =>
       match e with
       | StripeError AuthenticationError _ _ =>
           print "❌ Invalid Stripe API key. Please check your STRIPE_SECRET_KEY." ~;;
           sret false
       | _ =>
           print ("❌ Error connecting to Stripe: " ++ exn_str e) ~;;
           sret false
       end).

Definition setup_main : script script_end :=
  print "🔑 ReviewMaestro Stripe Setup" ~;;
  print (str_mul "=" 60) ~;;
  if negb (truthy (of_optional (getenv "STRIPE_SECRET_KEY"))) then
    print "❌ STRIPE_SECRET_KEY environment variable not set!" ~;;
    print "Please set your Stripe secret key and try again." ~;;
    sret (Exited 1)
  else
    connected <~ verify_stripe_connection ;;
    if negb connected then sret (Exited 1)
    else
      print (nl ++ str_mul "=" 60) ~;;
      price_ids <~ create_products_and_prices ;;
      if truthy price_ids then
        print (nl ++ "✅ Setup complete! Your ReviewMaestro SaaS is ready for payments!") ~;;
        sret Completed
      else
        print (nl ++ "❌ Setup failed. Please check the errors above and try again.") ~;;
        sret (Exited 1).

End SetupScript.

Arguments create_products_and_prices {rt sdk admin}.
Arguments create_products_and_prices_try {rt sdk admin}.
Arguments verify_stripe_connection {rt sdk admin bi}.
Arguments setup_main {rt sdk admin bi} getenv.

(* ===================================================================== *)
(** ** Test doubles for the rest of the SDK *)
(* ===================================================================== *)

Definition demo_upper_char (c : ascii) : ascii :=
  let n := nat_of_ascii c in
  if (Nat.leb 97 n && Nat.leb n 122)%bool then ascii_of_nat (n - 32) else c.

Fixpoint demo_upper (s : string) : string :=
  match s with
  | EmptyString => EmptyString
  | String c rest => String (demo_upper_char c) (demo_upper rest)
  end.

Definition demo_int (s : string) : result Z :=
  if String.eqb s "8080" then Ok 8080%Z
  else Raise (ValueError ("invalid literal for int() with base 10: " ++ quote s)).

#[local] Instance demo_builtins : PyBuiltins :=
  {| py_int := demo_int; py_upper := demo_upper |}.

Definition demo_account : value :=
  demo_object [ ("id", VStr "acct_1");
                ("display_name", VNone);
                ("email", VStr "owner@example.com");
                ("country", VStr "US");
                ("default_currency", VStr "usd") ].

Definition demo_portal_create (kwargs : value) : result value :=
  match kwargs with
  | VDict kvs =>
      if py_eq_str (table_get kvs "customer") "cus_gone" then
        Raise (StripeError InvalidRequestError "No such customer: 'cus_gone'" None)
      else Ok (demo_object [("url", VStr "https://billing.example/session/1")])
  | _ => Raise (StripeError InvalidRequestError "Invalid arguments" None)
  end.

(** Products are named after their plan type, prices after plan and billing. *)
Definition demo_product_create (kwargs : value) : result value :=
  match kwargs with
  | VDict kvs =>
      match table_get kvs "metadata" with
      | VDict md =>
          match table_get md "plan_type" with
          | VStr p => Ok (demo_object [("id", VStr ("prod_" ++ p))])
          | _ => Raise (StripeError InvalidRequestError "Invalid metadata" None)
          end
      | _ => Raise (StripeError InvalidRequestError "Invalid metadata" None)
      end
  | _ => Raise (StripeError InvalidRequestError "Invalid arguments" None)
  end.

Definition demo_price_create (kwargs : value) : result value :=
  match kwargs with
  | VDict kvs =>
      match table_get kvs "metadata" with
      | VDict md =>
          match table_get md "plan", table_get md "billing" with
          | VStr p, VStr b => Ok (demo_object [("id", VStr ("price_" ++ p ++ "_" ++ b))])
          | _, _ => Raise (StripeError InvalidRequestError "Invalid metadata" None)
          end
      | _ => Raise (StripeError InvalidRequestError "Invalid metadata" None)
      end
  | _ => Raise (StripeError InvalidRequestError "Invalid arguments" None)
  end.

#[local] Instance demo_admin : StripeAdmin :=
  {| Portal_Session_create := demo_portal_create;
     Account_retrieve := Ok demo_account;
     Product_create := demo_product_create;
     Price_create := demo_price_create |}.

(** A provider that refuses the API key. *)
Definition locked_admin : StripeAdmin :=
  {| Portal_Session_create :=
       fun _ => Raise (StripeError AuthenticationError "Invalid API Key provided" None);
     Account_retrieve :=
       Raise (StripeError AuthenticationError "Invalid API Key provided" None);
     Product_create :=
       fun _ => Raise (StripeError AuthenticationError "Invalid API Key provided" None);
     Price_create :=
       fun _ => Raise (StripeError AuthenticationError "Invalid API Key provided" None) |}.

Definition live_env : environ :=
  fun name =>
    if String.eqb name "STRIPE_SECRET_KEY" then Some "sk_1"
    else if String.eqb name "STRIPE_PUBLISHABLE_KEY" then Some "pk_1"
    else if String.eqb name "PORT" then Some "8080"
    else if String.eqb name "FLASK_ENV" then Some "development"
    else None.

Definition half_env : environ :=
  fun name => if String.eqb name "STRIPE_SECRET_KEY" then Some "sk_1" else None.

Definition portal_request (customer : string) : json_request :=
  {| get_json := Ok (VDict [("customer_id", VStr customer)]) |}.

(** A provider whose verification accepts everything and decodes to an
    empty event. *)
Definition hollow_sdk : StripeSDK :=
  {| Customer_create := demo_customer_create;
     Subscription_create := demo_subscription_create;
     Subscription_list := demo_subscription_list;
     Webhook_construct_event := fun _ _ _ => Ok (VDict []);
     sdk_getattr := demo_getattr |}.

(** The keys each handler subscripts its argument with, in order. *)
Definition handler_keys (h : handler) : list string :=
  match h with
  | h_subscription_created => ["id"]
  | h_subscription_updated => ["id"; "status"]
  | h_subscription_deleted => ["id"]
  | h_payment_succeeded => ["id"; "amount_paid"]
  | h_payment_failed => ["id"; "customer"]
  | h_trial_will_end => ["id"]
  end.

(** The first of a handler's keys that a data object lacks. *)
Definition first_missing_key (h : handler) (kvs : list (string * value)) : option string :=
  find (fun k => negb (has_key k kvs)) (handler_keys h).

(** Postcondition of a computation: what holds of its value when it
    returns rather than raises. *)
Definition post {A : Type} (m : M A) (P : A -> Prop) : Prop :=
  match snd m with
  | Ok a => P a
  | Raise _ => True
  end.

(** A computation that makes no SDK call. *)
Definition quiet {A : Type} (m : M A) : Prop := sdk_calls (fst m) = [].

(** The environment variable behind each key of the price table. *)
Definition price_env_vars : list (string * string) :=
  [ ("starter_monthly", "STRIPE_STARTER_MONTHLY_PRICE_ID");
    ("starter_yearly", "STRIPE_STARTER_YEARLY_PRICE_ID");
    ("professional_monthly", "STRIPE_PROFESSIONAL_MONTHLY_PRICE_ID");
    ("professional_yearly", "STRIPE_PROFESSIONAL_YEARLY_PRICE_ID") ].

(** The company recorded with the customer: the body's, or the empty
    string. *)
Definition company_of (kvs : list (string * value)) : value :=
  match assoc "company" kvs with
  | Some c => c
  | None => VStr ""
  end.

(** A provider that creates customers but refuses every subscription. *)
Definition stingy_sdk : StripeSDK :=
  {| Customer_create := demo_customer_create;
     Subscription_create :=
       fun _ => Raise (StripeError RateLimitError "Too many requests" None);
     Subscription_list := demo_subscription_list;
     Webhook_construct_event := demo_construct_event;
     sdk_getattr := demo_getattr |}.

(** The return URL handed to the portal: the body's, or the default. *)
Definition return_url_of (kvs : list (string * value)) : value :=
  match assoc "return_url" kvs with
  | Some u => u
  | None => VStr default_return_url
  end.

(** The answer of the two-armed [except] chain shared by the portal and the
    status views. *)
Definition two_armed_answer (e : exn) : response :=
  if is_stripe_error e
  then jsonify_with (error_body ("Stripe error: " ++ exn_str e)) 400
  else jsonify_with (error_body "An unexpected error occurred") 500.

(** An environment with both keys and a port that is not a number. *)
Definition badport_env : environ :=
  fun name =>
    if String.eqb name "STRIPE_SECRET_KEY" then Some "sk_1"
    else if String.eqb name "STRIPE_PUBLISHABLE_KEY" then Some "pk_1"
    else if String.eqb name "PORT" then Some "http"
    else None.

(** The line [app_main] logs when the connectivity check fails. *)
Definition validation_failure_line (e : exn) : string :=
  match e with
  | StripeError AuthenticationError _ _ => "Invalid Stripe API key"
  | _ => "Error validating Stripe configuration: " ++ exn_str e
  end.

(** The SDK entry points of the provisioning, in source order. *)
Definition setup_call_names : list string :=
  [ "Product.create"; "Product.create";
    "Price.create"; "Price.create"; "Price.create"; "Price.create" ].

(** The line [verify_stripe_connection] prints when it fails. *)
Definition connection_failure_line (e : exn) : string :=
  match e with
  | StripeError AuthenticationError _ _ =>
      "❌ Invalid Stripe API key. Please check your STRIPE_SECRET_KEY."
  | _ => "❌ Error connecting to Stripe: " ++ exn_str e
  end.

(** An account without a default currency. *)
Definition demo_cashless_account : value :=
  demo_object [ ("id", VStr "acct_2");
                ("display_name", VStr "Maestro");
                ("email", VStr "owner@example.com");
                ("country", VStr "US");
                ("default_currency", VNone) ].

Definition cashless_admin : StripeAdmin :=
  {| Portal_Session_create := demo_portal_create;
     Account_retrieve := Ok demo_cashless_account;
     Product_create := demo_product_create;
     Price_create := demo_price_create |}.

(** A provider on which prices cannot be created. *)
Definition priceless_admin : StripeAdmin :=
  {| Portal_Session_create := demo_portal_create;
     Account_retrieve := Ok demo_account;
     Product_create := demo_product_create;
     Price_create :=
       fun _ => Raise (StripeError InvalidRequestError "Invalid currency: usd" None) |}.

(** The environment the script's output asks for, on the test double. *)
Definition provisioned_env : environ :=
  fun name =>
    if String.eqb name "STRIPE_STARTER_MONTHLY_PRICE_ID"
    then Some "price_starter_monthly"
    else if String.eqb name "STRIPE_STARTER_YEARLY_PRICE_ID"
    then Some "price_starter_yearly"
    else if String.eqb name "STRIPE_PROFESSIONAL_MONTHLY_PRICE_ID"
    then Some "price_professional_monthly"
    else if String.eqb name "STRIPE_PROFESSIONAL_YEARLY_PRICE_ID"
    then Some "price_professional_yearly"
    else None.

(** A provider whose verification accepts everything and decodes to an
    event that has a type but no data. *)
Definition dataless_sdk : StripeSDK :=
  {| Customer_create := demo_customer_create;
     Subscription_create := demo_subscription_create;
     Subscription_list := demo_subscription_list;
     Webhook_construct_event :=
       fun _ _ _ => Ok (VDict [("type", VStr "charge.refunded")]);
     sdk_getattr := demo_getattr |}.

(** A provider whose verification, besides the signature, checks the
    delivery's timestamp against its clock with the tolerance of 300
    seconds, as a replay protection does.  The double knows one delivery
    time, 1000. *)
Definition clock_construct_event (now : Z) (payload sig_header secret : value)
  : result value :=
  match payload, sig_header, secret with
  | VStr p, VStr s, VStr k =>
      if String.eqb s ("t=1000,v1=signed:" ++ k) then
        if (Z.abs (now - 1000) <=? 300)%Z then
          match assoc p demo_payloads with
          | Some ev => Ok ev
          | None => Raise (ValueError "Expecting value: line 1 column 1 (char 0)")
          end
        else
          Raise (StripeError SignatureVerificationError
                   "Timestamp outside the tolerance zone" None)
      else
        Raise (StripeError SignatureVerificationError
                 "No signatures found matching the expected signature for payload"
                 None)
  | _, _, _ =>
      Raise (StripeError SignatureVerificationError
               "Unable to extract timestamp and signatures from header" None)
  end.

Definition clock_sdk (now : Z) : StripeSDK :=
  {| Customer_create := demo_customer_create;
     Subscription_create := demo_subscription_create;
     Subscription_list := demo_subscription_list;
     Webhook_construct_event := clock_construct_event now;
     sdk_getattr := demo_getattr |}.

Definition stamped (payload : string) : webhook_request :=
  {| get_data := payload; stripe_signature := Some "t=1000,v1=signed:whsec_1" |}.

(** The class of a delivery, read off whether a secret is configured and
    the verdict of the provider's verification. *)
Definition relay_class {rt : PyRuntime} (configured : bool) (verdict : result value)
  : classification :=
  if negb configured then SecretMissing
  else
    match verdict with
    | Raise (ValueError _) => InvalidPayload
    | Raise (StripeError SignatureVerificationError _ _) => InvalidSignature
    | Raise _ => Unhandled
    | Ok event =>
        match event_type_of event, data_object_of event with
        | Some ty, Some obj =>
            match recognized ty with
            | None => UnknownTypeAcknowledged
            | Some h =>
                match snd (handler_body h obj) with
                | Ok _ => Success
                | Raise _ => HandlerError
                end
            end
        | _, _ => Unhandled
        end
    end.

(** An account with neither a display name nor a default currency. *)
Definition demo_nameless_account : value :=
  demo_object [ ("id", VStr "acct_3");
                ("display_name", VNone);
                ("email", VStr "owner@example.com");
                ("country", VStr "US");
                ("default_currency", VNone) ].

Definition nameless_admin : StripeAdmin :=
  {| Portal_Session_create := demo_portal_create;
     Account_retrieve := Ok demo_nameless_account;
     Product_create := demo_product_create;
     Price_create := demo_price_create |}.

(* ===================================================================== *)
(** ** Traces and interpreter operations *)
(* ===================================================================== *)

Lemma invocations_app (t u : list effect) :
  invocations (t ++ u) = (invocations t ++ invocations u)%list.
Proof.
  induction t as [|[l m|api a|h a] t IH]; simpl; rewrite ?IH; reflexivity.
Qed.

Lemma log_lines_app (t u : list effect) :
  log_lines (t ++ u) = (log_lines t ++ log_lines u)%list.
Proof.
  induction t as [|[l m|api a|h a] t IH]; simpl; rewrite ?IH; reflexivity.
Qed.

Lemma bind_ret {A B : Type} (a : A) (f : A -> M B) : bind (ret a) f = f a.
Proof. unfold bind, ret. destruct (f a) as [t r]. reflexivity. Qed.

Section InterpreterFacts.
Context {rt : PyRuntime}.

(** Subscripting performs no effect: it yields a value or raises. *)
Lemma getitem_cases (v : value) (k : string) :
  (exists x, getitem v k = ret x) \/ (exists e, getitem v k = raise e).
Proof.
  destruct v; simpl; try (right; eexists; reflexivity).
  destruct (assoc k kvs); [left | right]; eexists; reflexivity.
Qed.

Lemma getitem_dict (kvs : list (string * value)) (k : string) (x : value) :
  assoc k kvs = Some x -> getitem (VDict kvs) k = ret x.
Proof. intros H. simpl. rewrite H. reflexivity. Qed.

Lemma getitem_ret_inv (v : value) (k : string) (x : value) :
  getitem v k = ret x -> exists kvs, v = VDict kvs /\ assoc k kvs = Some x.
Proof.
  destruct v; simpl; try discriminate.
  destruct (assoc k kvs) eqn:E; [|discriminate].
  intros H. injection H as ->. eauto.
Qed.

Lemma event_type_getitem (event ty : value) :
  event_type_of event = Some ty <-> getitem event "type" = ret ty.
Proof.
  split.
  - destruct event; simpl; try discriminate. intros ->. reflexivity.
  - intros H. apply getitem_ret_inv in H as (kvs & -> & H). exact H.
Qed.

Lemma data_object_getitem (event obj : value) :
  data_object_of event = Some obj <->
  exists data, getitem event "data" = ret data /\ getitem data "object" = ret obj.
Proof.
  split.
  - destruct event; simpl; try discriminate.
    destruct (assoc "data" kvs) as [[| | | | | |d]|] eqn:E; try discriminate.
    intros H. exists (VDict d). split; [reflexivity|].
    simpl. rewrite H. reflexivity.
  - intros (data & H1 & H2).
    apply getitem_ret_inv in H1 as (kvs & -> & H1).
    apply getitem_ret_inv in H2 as (d & -> & H2).
    simpl. rewrite H1. exact H2.
Qed.

(** The handler bodies only log or raise: they call nobody. *)
Lemma handler_body_quiet (h : handler) (obj : value) :
  invocations (fst (handler_body h obj)) = [] /\
  sdk_calls (fst (handler_body h obj)) = [].
Proof.
  destruct h; simpl;
    unfold handle_subscription_created, handle_subscription_updated,
      handle_subscription_deleted, handle_payment_succeeded,
      handle_payment_failed, handle_trial_will_end;
    destruct obj; simpl; auto;
    repeat match goal with
           | |- context [assoc ?k ?l] => destruct (assoc k l); simpl; auto
           end.
Qed.

Lemma call_trace (h : handler) (obj : value) :
  call h obj = (Invoke h obj :: fst (handler_body h obj), snd (handler_body h obj)).
Proof.
  unfold call, bind. destruct (handler_body h obj) as [t r]. reflexivity.
Qed.

(** The [if] / [elif] chain agrees with the table of recognized types. *)
Lemma dispatch_recognized (ty obj : value) (h : handler) :
  recognized ty = Some h -> dispatch ty obj = call h obj.
Proof.
  destruct ty; try discriminate.
  unfold recognized, recognized_types, dispatch, py_eq_str; cbn [assoc].
  repeat match goal with
         | |- context [String.eqb ?a s] =>
             rewrite (String.eqb_sym a s); destruct (String.eqb s a); cbv iota
         end;
    intros H; try discriminate; injection H as <-; reflexivity.
Qed.

Lemma dispatch_unrecognized (ty obj : value) :
  recognized ty = None ->
  dispatch ty obj = log INFO ("Unhandled event type: " ++ py_str ty).
Proof.
  destruct ty; try reflexivity.
  unfold recognized, recognized_types, dispatch, py_eq_str; cbn [assoc].
  repeat match goal with
         | |- context [String.eqb ?a s] =>
             rewrite (String.eqb_sym a s); destruct (String.eqb s a); cbv iota
         end;
    intros H; try discriminate; reflexivity.
Qed.

End InterpreterFacts.

(* ===================================================================== *)
(** ** The webhook relay *)
(* ===================================================================== *)

Section WebhookFacts.
Context {rt : PyRuntime} {sdk : StripeSDK}.
Variable env : environ.
Variable req : webhook_request.

Lemma stripe_webhook_unconfigured :
  secret_configured env = false ->
  stripe_webhook env req =
    ([Log ERROR "Webhook secret not configured"],
     Ok (text_with "Webhook secret not configured" 400)).
Proof.
  unfold stripe_webhook, secret_configured. intros H. rewrite H. reflexivity.
Qed.

Lemma stripe_webhook_verified (event : value) :
  secret_configured env = true ->
  verification env req = Ok event ->
  stripe_webhook env req =
    (SdkCall "Webhook.construct_event" (verification_args env req)
       :: fst (handle_event event),
     snd (handle_event event)).
Proof.
  unfold stripe_webhook, secret_configured, verification, construct_event.
  intros H1 H2. rewrite H1, H2. cbn [negb].
  unfold sdk_call, catch, bind, ret.
  destruct (handle_event event) as [t r]. reflexivity.
Qed.

Lemma stripe_webhook_rejected (e : exn) (msg : string) :
  secret_configured env = true ->
  verification env req = Raise e ->
  rejection_message e = Some msg ->
  stripe_webhook env req =
    ([ SdkCall "Webhook.construct_event" (verification_args env req);
       Log ERROR (msg ++ ": " ++ exn_str e) ],
     Ok (text_with msg 400)).
Proof.
  unfold stripe_webhook, secret_configured, verification, construct_event.
  intros H1 H2 H3. rewrite H1, H2. cbn [negb].
  destruct e as [[] text um| | | | | |]; simpl in H3; try discriminate;
    injection H3 as <-; reflexivity.
Qed.

Lemma stripe_webhook_propagates (e : exn) :
  secret_configured env = true ->
  verification env req = Raise e ->
  rejection_message e = None ->
  stripe_webhook env req =
    ([SdkCall "Webhook.construct_event" (verification_args env req)], Raise e).
Proof.
  unfold stripe_webhook, secret_configured, verification, construct_event.
  intros H1 H2 H3. rewrite H1, H2. cbn [negb].
  destruct e as [[] text um| | | | | |]; simpl in H3; try discriminate;
    reflexivity.
Qed.

End WebhookFacts.

Section HandleEventFacts.
Context {rt : PyRuntime}.

Lemma handle_event_shape (event ty obj : value) :
  event_type_of event = Some ty ->
  data_object_of event = Some obj ->
  handle_event event =
    (Log INFO ("Received webhook event: " ++ py_str ty)
       :: (fst (dispatch ty obj) ++ fst (after_dispatch ty (snd (dispatch ty obj))))%list,
     Ok (snd (after_dispatch ty (snd (dispatch ty obj))))).
Proof.
  intros Hty Hobj.
  apply event_type_getitem in Hty.
  apply data_object_getitem in Hobj as (data & Hd & Ho).
  unfold handle_event. rewrite Hty, bind_ret, Hd, bind_ret, Ho, bind_ret.
  destruct (dispatch ty obj) as [t [[]|e]]; simpl;
    rewrite ?app_nil_r; reflexivity.
Qed.

Lemma handle_event_malformed (event : value) :
  event_type_of event = None \/ data_object_of event = None ->
  exists e, handle_event event = ([], Raise e).
Proof.
  intros H. unfold handle_event.
  destruct (getitem_cases event "type") as [[ty Hty]|[e He]];
    [|rewrite He; eexists; reflexivity].
  rewrite Hty, bind_ret.
  destruct (getitem_cases event "data") as [[data Hd]|[e He]];
    [|rewrite He; eexists; reflexivity].
  rewrite Hd, bind_ret.
  destruct (getitem_cases data "object") as [[obj Ho]|[e He]];
    [|rewrite He; eexists; reflexivity].
  exfalso. destruct H as [H|H].
  - apply event_type_getitem in Hty. congruence.
  - assert (data_object_of event = Some obj) by (apply data_object_getitem; eauto).
    congruence.
Qed.

(** Who the dispatch chain calls, and with what. *)
Lemma dispatch_invocations (ty obj : value) :
  invocations (fst (dispatch ty obj)) =
    match recognized ty with
    | Some h => [(h, obj)]
    | None => []
    end.
Proof.
  destruct (recognized ty) as [h|] eqn:E.
  - rewrite (dispatch_recognized ty obj h E), call_trace. simpl.
    now rewrite (proj1 (handler_body_quiet h obj)).
  - rewrite (dispatch_unrecognized ty obj E). reflexivity.
Qed.

End HandleEventFacts.

Lemma after_dispatch_quiet {rt : PyRuntime} (ty : value) (r : result unit) :
  invocations (fst (after_dispatch ty r)) = [].
Proof. destruct r; reflexivity. Qed.

(** Invocations of a whole delivery, by cases on the verdict. *)
Lemma stripe_webhook_invocations {rt : PyRuntime} {sdk : StripeSDK}
    (env : environ) (req : webhook_request) :
  invocations (fst (stripe_webhook env req)) =
    if secret_configured env then
      match verification env req with
      | Ok event =>
          match event_type_of event, data_object_of event with
          | Some ty, Some obj =>
              match recognized ty with
              | Some h => [(h, obj)]
              | None => []
              end
          | _, _ => []
          end
      | Raise _ => []
      end
    else [].
Proof.
  destruct (secret_configured env) eqn:Hs.
  - destruct (verification env req) as [event|e] eqn:Hv.
    + rewrite (stripe_webhook_verified env req event Hs Hv). simpl.
      destruct (event_type_of event) as [ty|] eqn:Hty.
      * destruct (data_object_of event) as [obj|] eqn:Hobj.
        -- rewrite (handle_event_shape event ty obj Hty Hobj). simpl.
           now rewrite invocations_app, dispatch_invocations,
             after_dispatch_quiet, app_nil_r.
        -- destruct (handle_event_malformed event (or_intror Hobj)) as [e ->].
           reflexivity.
      * destruct (handle_event_malformed event (or_introl Hty)) as [e ->].
        reflexivity.
    + destruct (rejection_message e) as [msg|] eqn:Hm.
      * now rewrite (stripe_webhook_rejected env req e msg Hs Hv Hm).
      * now rewrite (stripe_webhook_propagates env req e Hs Hv Hm).
  - now rewrite (stripe_webhook_unconfigured env req Hs).
Qed.

(** C1.  A delivery whose body does not parse ([ValueError]) or whose
    signature does not verify ([SignatureVerificationError]) under the
    configured secret is answered 400 with 'Invalid payload', respectively
    'Invalid signature', and no handler is invoked.  Conversely a handler is
    only ever invoked on the data object of an event that the SDK verified
    against the configured secret. *)
Theorem webhook_rejects_unauthenticated {rt : PyRuntime} {sdk : StripeSDK}
    (env : environ) (req : webhook_request) :
  (forall e msg,
      secret_configured env = true ->
      verification env req = Raise e ->
      rejection_message e = Some msg ->
      exists t, stripe_webhook env req = (t, Ok (text_with msg 400)) /\
                invocations t = []) /\
  (forall h obj,
      In (h, obj) (invocations (fst (stripe_webhook env req))) ->
      secret_configured env = true /\
      exists event ty,
        verification env req = Ok event /\
        event_type_of event = Some ty /\
        recognized ty = Some h /\
        data_object_of event = Some obj).
Proof.
  split.
  - intros e msg Hs Hv Hm.
    rewrite (stripe_webhook_rejected env req e msg Hs Hv Hm).
    eexists. split; reflexivity.
  - intros h obj Hin. rewrite stripe_webhook_invocations in Hin.
    destruct (secret_configured env); [|contradiction]. split; [reflexivity|].
    destruct (verification env req) as [event|e]; [|contradiction].
    destruct (event_type_of event) as [ty|] eqn:Hty; [|contradiction].
    destruct (data_object_of event) as [o|] eqn:Hobj; [|contradiction].
    destruct (recognized ty) as [h'|] eqn:Hr; [|contradiction].
    destruct Hin as [Heq|[]]. injection Heq as -> ->.
    exists event, ty. auto.
Qed.

Lemma webhook_rejects_unauthenticated_witness :
  secret_configured demo_env = true /\
  verification demo_env (unsigned "payment-failed")
    = Raise (StripeError SignatureVerificationError
               "Unable to extract timestamp and signatures from header" None) /\
  exists t,
    stripe_webhook demo_env (unsigned "payment-failed")
      = (t, Ok (text_with "Invalid signature" 400)) /\
    invocations t = [].
Proof.
  split; [reflexivity|]. split; [reflexivity|].
  apply (proj1 (webhook_rejects_unauthenticated demo_env (unsigned "payment-failed"))
           (StripeError SignatureVerificationError
              "Unable to extract timestamp and signatures from header" None)
           "Invalid signature"); reflexivity.
Defined.

(** C2, as the specification words it, fails for an authenticated event
    without a data object: the verified event [{type: charge.refunded}],
    whose type is none of the six, is not acknowledged; the subscript
    [event['data']] raises [KeyError('data')] out of the view. *)
Lemma webhook_dispatch_dataless_counterexample :
  @verification dataless_sdk demo_env (signed "anything")
    = Ok (VDict [("type", VStr "charge.refunded")]) /\
  recognized (VStr "charge.refunded") = None /\
  @stripe_webhook demo_runtime dataless_sdk demo_env (signed "anything") =
    ([SdkCall "Webhook.construct_event" (verification_args demo_env (signed "anything"))],
     Raise (KeyError "'data'")) /\
  snd (@stripe_webhook demo_runtime dataless_sdk demo_env (signed "anything"))
    <> Ok (mkResponse 200 (Json (VDict [("status", VStr "success")]))).
Proof.
  repeat split; try reflexivity. discriminate.
Qed.

(** C2, amended.  An authenticated event that carries a type tag and a data
    object, [event['type']] and [event['data']['object']]: with one of the
    six recognized type tags it has exactly one handler invoked, the
    matching one, exactly once and on the event's data object, and is
    answered 200 with [{status: success}] when that handler returns; with
    any other type tag no handler is invoked and the answer is the same 200
    [{status: success}]. *)
Theorem webhook_dispatches_once {rt : PyRuntime} {sdk : StripeSDK}
    (env : environ) (req : webhook_request) (event ty obj : value) :
  secret_configured env = true ->
  verification env req = Ok event ->
  event_type_of event = Some ty ->
  data_object_of event = Some obj ->
  match recognized ty with
  | Some h =>
      invocations (fst (stripe_webhook env req)) = [(h, obj)] /\
      (snd (handler_body h obj) = Ok tt ->
       snd (stripe_webhook env req) =
         Ok (mkResponse 200 (Json (VDict [("status", VStr "success")]))))
  | None =>
      invocations (fst (stripe_webhook env req)) = [] /\
      snd (stripe_webhook env req) =
        Ok (mkResponse 200 (Json (VDict [("status", VStr "success")])))
  end.
Proof.
  intros Hs Hv Hty Hobj.
  pose proof (stripe_webhook_invocations env req) as Hinv.
  rewrite Hs, Hv, Hty, Hobj in Hinv.
  rewrite (stripe_webhook_verified env req event Hs Hv) in *.
  rewrite (handle_event_shape event ty obj Hty Hobj) in *.
  destruct (recognized ty) as [h|] eqn:Hr; (split; [exact Hinv|]).
  - intros Hret.
    rewrite (dispatch_recognized ty obj h Hr), call_trace.
    cbn [fst snd]. rewrite Hret. reflexivity.
  - rewrite (dispatch_unrecognized ty obj Hr). reflexivity.
Qed.

Lemma webhook_dispatches_once_witness :
  secret_configured demo_env = true /\
  verification demo_env (signed "payment-failed")
    = Ok (demo_event "invoice.payment_failed"
            (VDict [("id", VStr "in_1"); ("customer", VStr "cus_1")])) /\
  invocations (fst (stripe_webhook demo_env (signed "payment-failed")))
    = [(h_payment_failed, VDict [("id", VStr "in_1"); ("customer", VStr "cus_1")])] /\
  snd (stripe_webhook demo_env (signed "payment-failed"))
    = Ok (mkResponse 200 (Json (VDict [("status", VStr "success")]))).
Proof.
  assert (Hv : verification demo_env (signed "payment-failed")
               = Ok (demo_event "invoice.payment_failed"
                       (VDict [("id", VStr "in_1"); ("customer", VStr "cus_1")])))
    by reflexivity.
  split; [reflexivity|]. split; [exact Hv|].
  destruct (webhook_dispatches_once demo_env (signed "payment-failed")
              (demo_event "invoice.payment_failed"
                 (VDict [("id", VStr "in_1"); ("customer", VStr "cus_1")]))
              (VStr "invoice.payment_failed")
              (VDict [("id", VStr "in_1"); ("customer", VStr "cus_1")])
              eq_refl Hv eq_refl eq_refl) as [Hinv Hack].
  split; [exact Hinv | apply Hack; reflexivity].
Defined.

(** C3.  With no webhook secret configured ([STRIPE_WEBHOOK_SECRET] unset
    or empty) every delivery is answered 400 with the text 'Webhook secret
    not configured'; the SDK is never called, so no signature is checked;
    and the answer and the log line both differ from those of any delivery
    rejected for its signature. *)
Theorem webhook_secret_missing {rt : PyRuntime} {sdk : StripeSDK}
    (env : environ) (req : webhook_request) :
  env "STRIPE_WEBHOOK_SECRET" = None \/ env "STRIPE_WEBHOOK_SECRET" = Some "" ->
  stripe_webhook env req =
    ([Log ERROR "Webhook secret not configured"],
     Ok (text_with "Webhook secret not configured" 400)) /\
  sdk_calls (fst (stripe_webhook env req)) = [] /\
  (forall env' req' text um,
      secret_configured env' = true ->
      verification env' req' = Raise (StripeError SignatureVerificationError text um) ->
      snd (stripe_webhook env' req') = Ok (text_with "Invalid signature" 400) /\
      snd (stripe_webhook env req) <> snd (stripe_webhook env' req') /\
      log_lines (fst (stripe_webhook env req))
        <> log_lines (fst (stripe_webhook env' req'))).
Proof.
  intros H.
  assert (Hs : secret_configured env = false).
  { unfold secret_configured. destruct H as [-> | ->]; reflexivity. }
  rewrite (stripe_webhook_unconfigured env req Hs).
  split; [reflexivity|]. split; [reflexivity|].
  intros env' req' text um Hs' Hv'.
  rewrite (stripe_webhook_rejected env' req' _ "Invalid signature" Hs' Hv' eq_refl).
  simpl. repeat split; discriminate.
Qed.

Lemma webhook_secret_missing_witness :
  bare_env "STRIPE_WEBHOOK_SECRET" = None /\
  stripe_webhook bare_env (signed "payment-failed") =
    ([Log ERROR "Webhook secret not configured"],
     Ok (text_with "Webhook secret not configured" 400)).
Proof.
  split; [reflexivity|].
  apply (webhook_secret_missing bare_env (signed "payment-failed")).
  left. reflexivity.
Defined.

(** C4, as the specification words it, fails: for a verified
    [customer.subscription.created] event whose data object has no [id],
    the handler raises [KeyError('id')] and the 500 answer reads
    'Error handling webhook: 'id'', which does not mention the event type. *)
Lemma webhook_handler_error_text_counterexample :
  verification demo_env (signed "created-without-id")
    = Ok (demo_event "customer.subscription.created" (VDict [])) /\
  snd (handler_body h_subscription_created (VDict [])) = Raise (KeyError "'id'") /\
  snd (stripe_webhook demo_env (signed "created-without-id"))
    = Ok (text_with "Error handling webhook: 'id'" 500) /\
  snd (stripe_webhook demo_env (signed "created-without-id"))
    <> Ok (text_with "error handling webhook customer.subscription.created" 500) /\
  str_contains "customer.subscription.created" "Error handling webhook: 'id'" = false.
Proof.
  repeat split; try reflexivity. discriminate.
Qed.

(** C4, amended.  When the handler of a verified event of a recognized type
    raises [e], the exception stays inside the view: the answer is 500 with
    the text 'Error handling webhook: ' followed by [str(e)], and the event
    type appears in the error log line, not in the answer. *)
Theorem webhook_handler_error {rt : PyRuntime} {sdk : StripeSDK}
    (env : environ) (req : webhook_request) (event obj : value)
    (ty : string) (h : handler) (e : exn) :
  secret_configured env = true ->
  verification env req = Ok event ->
  event_type_of event = Some (VStr ty) ->
  data_object_of event = Some obj ->
  recognized (VStr ty) = Some h ->
  snd (handler_body h obj) = Raise e ->
  snd (stripe_webhook env req)
    = Ok (text_with ("Error handling webhook: " ++ exn_str e) 500) /\
  In (ERROR, "Error handling webhook " ++ ty ++ ": " ++ exn_str e)
     (log_lines (fst (stripe_webhook env req))).
Proof.
  intros Hs Hv Hty Hobj Hr He.
  rewrite (stripe_webhook_verified env req event Hs Hv).
  rewrite (handle_event_shape event (VStr ty) obj Hty Hobj).
  rewrite (dispatch_recognized (VStr ty) obj h Hr), call_trace.
  cbn [fst snd]. rewrite He. cbn [after_dispatch fst snd py_str].
  split; [reflexivity|].
  cbn [log_lines]. right.
  change (Invoke h obj :: fst (handler_body h obj))
    with ([Invoke h obj] ++ fst (handler_body h obj))%list.
  rewrite !log_lines_app. apply in_or_app. right. left. reflexivity.
Qed.

Lemma webhook_handler_error_witness :
  secret_configured demo_env = true /\
  snd (handler_body h_subscription_created (VDict [])) = Raise (KeyError "'id'") /\
  snd (stripe_webhook demo_env (signed "created-without-id"))
    = Ok (text_with ("Error handling webhook: " ++ exn_str (KeyError "'id'")) 500) /\
  In (ERROR, "Error handling webhook " ++ "customer.subscription.created" ++ ": "
             ++ exn_str (KeyError "'id'"))
     (log_lines (fst (stripe_webhook demo_env (signed "created-without-id")))).
Proof.
  split; [reflexivity|]. split; [reflexivity|].
  apply (webhook_handler_error demo_env (signed "created-without-id")
           (demo_event "customer.subscription.created" (VDict []))
           (VDict []) "customer.subscription.created" h_subscription_created
           (KeyError "'id'")); reflexivity.
Defined.

(** C5, as the specification words it, fails: the verdict on a delivery is
    the provider's, and a verification that checks the delivery's timestamp
    against its clock gives the same body, signature header and secret two
    verdicts.  The delivery stamped 1000 is a success at clock 1100 and an
    invalid signature at clock 2000. *)
Lemma relay_classification_clock_counterexample :
  classify (@stripe_webhook demo_runtime (clock_sdk 1100) demo_env
              (stamped "payment-failed")) = Success /\
  classify (@stripe_webhook demo_runtime (clock_sdk 2000) demo_env
              (stamped "payment-failed")) = InvalidSignature /\
  snd (@stripe_webhook demo_runtime (clock_sdk 1100) demo_env (stamped "payment-failed"))
    = Ok (mkResponse 200 (Json (VDict [("status", VStr "success")]))) /\
  snd (@stripe_webhook demo_runtime (clock_sdk 2000) demo_env (stamped "payment-failed"))
    = Ok (mkResponse 400 (Text "Invalid signature")).
Proof.
  repeat split; reflexivity.
Qed.

Lemma handler_error_text_class (x : string) :
  String.eqb ("Error handling webhook: " ++ x) "Webhook secret not configured" = false /\
  String.eqb ("Error handling webhook: " ++ x) "Invalid payload" = false /\
  String.eqb ("Error handling webhook: " ++ x) "Invalid signature" = false.
Proof. repeat split; reflexivity. Qed.

(** The class of every delivery is [relay_class] of the secret's presence
    and the verification's verdict. *)
Lemma classify_stripe_webhook {rt : PyRuntime} {sdk : StripeSDK}
    (env : environ) (req : webhook_request) :
  classify (stripe_webhook env req)
    = relay_class (secret_configured env) (verification env req).
Proof.
  unfold relay_class.
  destruct (secret_configured env) eqn:Hs; cbn [negb];
    [|now rewrite (stripe_webhook_unconfigured env req Hs)].
  destruct (verification env req) as [event|e] eqn:Hv.
  - pose proof (stripe_webhook_invocations env req) as Hinv.
    rewrite Hs, Hv in Hinv.
    rewrite (stripe_webhook_verified env req event Hs Hv) in *.
    cbn [fst] in Hinv.
    destruct (event_type_of event) as [ty|] eqn:Hty.
    + destruct (data_object_of event) as [obj|] eqn:Hobj.
      * rewrite (handle_event_shape event ty obj Hty Hobj) in *.
        cbn [fst snd] in *. unfold classify.
        destruct (recognized ty) as [h|] eqn:Hr.
        -- rewrite (dispatch_recognized ty obj h Hr), call_trace in *.
           cbn [fst snd] in *.
           destruct (snd (handler_body h obj)) as [[]|e];
             cbn [after_dispatch fst snd payload_of success_ack jsonify text_with] in *.
           ++ now rewrite Hinv.
           ++ destruct (handler_error_text_class (exn_str e)) as (-> & -> & ->).
              reflexivity.
        -- rewrite (dispatch_unrecognized ty obj Hr) in *.
           cbn [fst snd log after_dispatch payload_of success_ack jsonify] in *.
           now rewrite Hinv.
      * destruct (handle_event_malformed event (or_intror Hobj)) as [e ->].
        reflexivity.
    + destruct (handle_event_malformed event (or_introl Hty)) as [e ->].
      reflexivity.
  - destruct (rejection_message e) as [msg|] eqn:Hm.
    + rewrite (stripe_webhook_rejected env req e msg Hs Hv Hm).
      destruct e as [[] text um| | | | | |]; simpl in Hm; try discriminate;
        injection Hm as <-; reflexivity.
    + rewrite (stripe_webhook_propagates env req e Hs Hv Hm).
      destruct e as [[] text um| | | | | |]; simpl in Hm; try discriminate;
        reflexivity.
Qed.

(** C5, amended.  The class of a delivery is a function of whether a secret
    is configured and of the verdict the provider's verification gives on
    body, signature header and secret, the function [relay_class]; so two
    deliveries with the same body, signature header and secret on which the
    verification gives the same verdict get the same outcome from the
    relay, effects included, whatever else differs between the two worlds.
    And a verified event that carries a type tag and a data object never
    makes the view raise. *)
Theorem relay_classification_pure {rt : PyRuntime} (sdk1 sdk2 : StripeSDK)
    (env1 env2 : environ) (req1 req2 : webhook_request) :
  get_data req1 = get_data req2 ->
  stripe_signature req1 = stripe_signature req2 ->
  env1 "STRIPE_WEBHOOK_SECRET" = env2 "STRIPE_WEBHOOK_SECRET" ->
  @verification sdk1 env1 req1 = @verification sdk2 env2 req2 ->
  @stripe_webhook rt sdk1 env1 req1 = @stripe_webhook rt sdk2 env2 req2 /\
  classify (@stripe_webhook rt sdk1 env1 req1)
    = classify (@stripe_webhook rt sdk2 env2 req2) /\
  classify (@stripe_webhook rt sdk1 env1 req1)
    = relay_class (secret_configured env1) (@verification sdk1 env1 req1) /\
  (forall event ty obj,
      secret_configured env1 = true ->
      @verification sdk1 env1 req1 = Ok event ->
      event_type_of event = Some ty ->
      data_object_of event = Some obj ->
      exists t1 t2 r,
        @stripe_webhook rt sdk1 env1 req1 = (t1, Ok r) /\
        @stripe_webhook rt sdk2 env2 req2 = (t2, Ok r)).
Proof.
  intros Hbody Hsig Hsecret Hverdict.
  assert (Hsame : @stripe_webhook rt sdk1 env1 req1 = @stripe_webhook rt sdk2 env2 req2).
  { unfold stripe_webhook, construct_event. unfold verification in Hverdict.
    rewrite Hbody, Hsig, Hsecret in *. rewrite Hverdict. reflexivity. }
  split; [exact Hsame|]. split; [now rewrite Hsame|].
  split; [apply classify_stripe_webhook|].
  intros event ty obj Hs Hv Hty Hobj.
  rewrite <- Hsame.
  rewrite (@stripe_webhook_verified rt sdk1 env1 req1 event Hs Hv).
  rewrite (handle_event_shape event ty obj Hty Hobj).
  do 3 eexists. split; reflexivity.
Qed.

Lemma relay_classification_pure_witness :
  @verification demo_sdk demo_env (signed "payment-failed")
    = @verification down_sdk other_env (signed "payment-failed") /\
  @stripe_webhook demo_runtime demo_sdk demo_env (signed "payment-failed")
    = @stripe_webhook demo_runtime down_sdk other_env (signed "payment-failed") /\
  classify (@stripe_webhook demo_runtime demo_sdk demo_env (signed "payment-failed"))
    = Success.
Proof.
  split; [reflexivity|].
  destruct (relay_classification_pure demo_sdk down_sdk demo_env other_env
              (signed "payment-failed") (signed "payment-failed")
              eq_refl eq_refl eq_refl eq_refl) as (Hsame & _ & Hclass & _).
  split; [exact Hsame|]. rewrite Hclass. reflexivity.
Defined.

(* ===================================================================== *)
(** ** Create subscription *)
(* ===================================================================== *)

Section CreateSubscriptionFacts.
Context {rt : PyRuntime} {sdk : StripeSDK}.
Variable env : environ.

(** The validation loop on a JSON object: it stops at the first field that
    is not a key. *)
Lemma check_required_dict (fields : list string) (kvs : list (string * value)) :
  check_required fields (VDict kvs) =
    ret (match find (fun f => negb (has_key f kvs)) fields with
         | Some f => Return (missing_field_response f)
         | None => Continue tt
         end).
Proof.
  induction fields as [|f fields IH]; [reflexivity|].
  cbn [check_required contains find]. rewrite bind_ret.
  destruct (has_key f kvs); [exact IH | reflexivity].
Qed.

(** On a string or an array [in] is a substring or an element test. *)
Lemma check_required_sequence (fields : list string) (v : value) :
  (exists s, v = VStr s) \/ (exists l, v = VList l) ->
  check_required fields v =
    ret (match find (fun f => negb (member f v)) fields with
         | Some f => Return (missing_field_response f)
         | None => Continue tt
         end).
Proof.
  intros Hv. induction fields as [|f fields IH]; [reflexivity|].
  destruct Hv as [[s ->]|[l ->]];
    cbn [check_required contains find member]; rewrite bind_ret.
  - destruct (str_contains f s); [apply IH; eauto | reflexivity].
  - destruct (existsb (fun x => py_eq_str x f) l); [apply IH; eauto | reflexivity].
Qed.

Lemma check_required_scalar (v : value) :
  scalar v = true ->
  check_required required_fields v = raise (TypeError (fault_text NotIterable v)).
Proof. destruct v; try discriminate; reflexivity. Qed.

Lemma create_subscription_caught (req : json_request) (t : list effect) (e : exn) :
  create_subscription_try env req = (t, Raise e) ->
  create_subscription env req =
    ((t ++ fst (create_subscription_except e))%list,
     snd (create_subscription_except e)).
Proof.
  intros H. unfold create_subscription, catch. rewrite H.
  destruct (create_subscription_except e). reflexivity.
Qed.

Lemma create_subscription_returned (req : json_request) (t : list effect) (r : response) :
  create_subscription_try env req = (t, Ok r) ->
  create_subscription env req = (t, Ok r).
Proof. intros H. unfold create_subscription, catch. now rewrite H. Qed.

End CreateSubscriptionFacts.

(** C6.  Whatever is raised inside the [try] of create-subscription is
    answered with the status of its category: card error 400, rate limit
    429, invalid request 400, authentication 401, connection 503, any other
    provider error 400; anything that is not a provider error 500 with the
    generic message.  One error line is logged and nothing is re-raised. *)
Theorem create_subscription_error_status {rt : PyRuntime} {sdk : StripeSDK}
    (env : environ) (req : json_request) (t : list effect) (e : exn) :
  create_subscription_try env req = (t, Raise e) ->
  exists line r,
    create_subscription env req = ((t ++ [Log ERROR line])%list, Ok r) /\
    status r = expected_status e /\
    (is_stripe_error e = false -> r = generic_failure).
Proof.
  intros H. rewrite (create_subscription_caught env req t e H).
  destruct e as [[] text um| | | | | |]; simpl;
    do 2 eexists; (split; [reflexivity|]); split;
    solve [reflexivity | discriminate].
Qed.

Lemma create_subscription_error_status_witness :
  snd (create_subscription_try demo_env (order "declined@example.com" "starter" "monthly"))
    = Raise (StripeError CardError "Request req_1: Your card was declined."
               (Some "Your card was declined.")) /\
  exists line r,
    snd (create_subscription demo_env (order "declined@example.com" "starter" "monthly"))
      = Ok r /\
    In (ERROR, line)
       (log_lines (fst (create_subscription demo_env
                          (order "declined@example.com" "starter" "monthly")))) /\
    status r = 400%Z.
Proof.
  split; [reflexivity|].
  assert (Hraise :
            create_subscription_try demo_env
              (order "declined@example.com" "starter" "monthly")
            = (fst (create_subscription_try demo_env
                      (order "declined@example.com" "starter" "monthly")),
               Raise (StripeError CardError "Request req_1: Your card was declined."
                        (Some "Your card was declined.")))) by reflexivity.
  destruct (create_subscription_error_status demo_env
              (order "declined@example.com" "starter" "monthly") _ _ Hraise)
    as (line & r & Hrun & Hstatus & _).
  exists line, r. rewrite Hrun. cbn [fst snd].
  split; [reflexivity|]. split; [|exact Hstatus].
  rewrite log_lines_app. apply in_or_app. right. left. reflexivity.
Defined.

(** C7.  A create-subscription body that is a JSON object lacking [email]
    is answered 400 with [{error: Missing required field: email}]; in
    general the answer names the first of email, name, plan, billing_cycle,
    payment_method_id that the object lacks.  Nothing is logged and the
    provider is not called. *)
Theorem create_subscription_missing_field {rt : PyRuntime} {sdk : StripeSDK}
    (env : environ) (kvs : list (string * value)) :
  (has_key "email" kvs = false ->
   create_subscription env {| get_json := Ok (VDict kvs) |} =
     ([], Ok (jsonify_with (error_body "Missing required field: email") 400))) /\
  (forall field,
      first_missing kvs = Some field ->
      create_subscription env {| get_json := Ok (VDict kvs) |} =
        ([], Ok (jsonify_with (error_body ("Missing required field: " ++ field)) 400)) /\
      sdk_calls (fst (create_subscription env {| get_json := Ok (VDict kvs) |})) = []).
Proof.
  assert (Hgen : forall field,
             first_missing kvs = Some field ->
             create_subscription env {| get_json := Ok (VDict kvs) |} =
               ([], Ok (missing_field_response field))).
  { intros field Hf. apply create_subscription_returned.
    unfold create_subscription_try, lift. cbn [get_json].
    change (([], Ok (VDict kvs)) : M value) with (ret (VDict kvs)).
    rewrite bind_ret, check_required_dict, bind_ret.
    unfold first_missing in Hf. rewrite Hf. reflexivity. }
  split.
  - intros Hemail. apply Hgen. unfold first_missing. cbn [find required_fields].
    rewrite Hemail. reflexivity.
  - intros field Hf. rewrite (Hgen field Hf). split; reflexivity.
Qed.

Lemma create_subscription_missing_field_witness :
  has_key "email" [("name", VStr "Ada"); ("plan", VStr "starter")] = false /\
  create_subscription demo_env
    {| get_json := Ok (VDict [("name", VStr "Ada"); ("plan", VStr "starter")]) |} =
    ([], Ok (jsonify_with (error_body "Missing required field: email") 400)).
Proof.
  split; [reflexivity|].
  apply (proj1 (create_subscription_missing_field demo_env
                  [("name", VStr "Ada"); ("plan", VStr "starter")])).
  reflexivity.
Defined.

(** C8, as the specification words it, fails on the message: for plan
    [starter] and billing cycle [weekly], which the price table does not
    hold, the 400 answer reads 'Invalid plan or billing cycle:
    starter_weekly', not 'Invalid plan or billing cycle'. *)
Lemma create_subscription_invalid_plan_counterexample :
  table_get (PRICE_IDS demo_env) "starter_weekly" = VNone /\
  create_subscription demo_env (order "a@b.c" "starter" "weekly") =
    ([], Ok (jsonify_with
               (error_body "Invalid plan or billing cycle: starter_weekly") 400)) /\
  snd (create_subscription demo_env (order "a@b.c" "starter" "weekly"))
    <> Ok (jsonify_with (error_body "Invalid plan or billing cycle") 400).
Proof.
  repeat split; try reflexivity. discriminate.
Qed.

(** C8, amended.  For a JSON object carrying all five required fields whose
    key [{plan}_{billing_cycle}] has no configured price ID in the price
    table (no such key, or a key whose variable is unset or empty), the
    answer is 400 with the message 'Invalid plan or billing cycle: ' followed
    by that key; nothing is logged and no customer or subscription is
    created with the provider. *)
Theorem create_subscription_invalid_plan {rt : PyRuntime} {sdk : StripeSDK}
    (env : environ) (kvs : list (string * value)) (plan cycle : value) :
  first_missing kvs = None ->
  assoc "plan" kvs = Some plan ->
  assoc "billing_cycle" kvs = Some cycle ->
  truthy (table_get (PRICE_IDS env) (py_str plan ++ "_" ++ py_str cycle)) = false ->
  create_subscription env {| get_json := Ok (VDict kvs) |} =
    ([], Ok (jsonify_with
               (error_body ("Invalid plan or billing cycle: "
                            ++ py_str plan ++ "_" ++ py_str cycle)) 400)) /\
  sdk_calls (fst (create_subscription env {| get_json := Ok (VDict kvs) |})) = [].
Proof.
  intros Hall Hplan Hcycle Hprice.
  assert (Hrun : create_subscription env {| get_json := Ok (VDict kvs) |} =
                 ([], Ok (jsonify_with
                            (error_body ("Invalid plan or billing cycle: "
                                         ++ py_str plan ++ "_" ++ py_str cycle)) 400))).
  { apply create_subscription_returned.
    unfold create_subscription_try, lift. cbn [get_json].
    change (([], Ok (VDict kvs)) : M value) with (ret (VDict kvs)).
    rewrite bind_ret, check_required_dict, bind_ret.
    unfold first_missing in Hall. rewrite Hall.
    rewrite (getitem_dict kvs "plan" plan Hplan), bind_ret.
    rewrite (getitem_dict kvs "billing_cycle" cycle Hcycle), bind_ret.
    rewrite Hprice. reflexivity. }
  rewrite Hrun. split; reflexivity.
Qed.

Lemma create_subscription_invalid_plan_witness :
  first_missing [ ("email", VStr "a@b.c"); ("name", VStr "Ada");
                  ("plan", VStr "starter"); ("billing_cycle", VStr "weekly");
                  ("payment_method_id", VStr "pm_1") ] = None /\
  truthy (table_get (PRICE_IDS demo_env) "starter_weekly") = false /\
  create_subscription demo_env (order "a@b.c" "starter" "weekly") =
    ([], Ok (jsonify_with
               (error_body "Invalid plan or billing cycle: starter_weekly") 400)).
Proof.
  split; [reflexivity|]. split; [reflexivity|].
  apply (create_subscription_invalid_plan demo_env
           [ ("email", VStr "a@b.c"); ("name", VStr "Ada");
             ("plan", VStr "starter"); ("billing_cycle", VStr "weekly");
             ("payment_method_id", VStr "pm_1") ]
           (VStr "starter") (VStr "weekly")); reflexivity.
Defined.

(** C10, as written, fails for bodies that are JSON strings or arrays: on
    them [in] does not raise, and a body such as the string [hello] or the
    empty array gets the field-level 400 naming [email]. *)
Lemma create_subscription_non_object_counterexample :
  create_subscription demo_env {| get_json := Ok (VStr "hello") |} =
    ([], Ok (jsonify_with (error_body "Missing required field: email") 400)) /\
  create_subscription demo_env {| get_json := Ok (VList []) |} =
    ([], Ok (jsonify_with (error_body "Missing required field: email") 400)) /\
  snd (create_subscription demo_env {| get_json := Ok (VStr "hello") |})
    <> Ok generic_failure.
Proof.
  repeat split; try reflexivity. discriminate.
Qed.

(** C10, amended.  When [get_json] itself raises (no usable body), or the
    body decodes to null, a boolean or a number, the membership test raises
    and the generic arm answers 500 with 'An unexpected error occurred.
    Please try again.' and nothing else.  A body that is a JSON string or
    array does not raise there: it gets the field-level 400 for the first
    required field that is not a substring, respectively an element, of it,
    and only when all five are present does the subscript [data['plan']]
    raise and the same generic 500 follow. *)
Theorem create_subscription_non_object {rt : PyRuntime} {sdk : StripeSDK}
    (env : environ) :
  (forall e,
      is_stripe_error e = false ->
      create_subscription env {| get_json := Raise e |} =
        ([Log ERROR ("Unexpected error: " ++ exn_str e)], Ok generic_failure)) /\
  (forall v,
      scalar v = true ->
      create_subscription env {| get_json := Ok v |} =
        ([Log ERROR ("Unexpected error: " ++ fault_text NotIterable v)],
         Ok generic_failure)) /\
  (forall v,
      (exists s, v = VStr s) \/ (exists l, v = VList l) ->
      create_subscription env {| get_json := Ok v |} =
        match first_absent v with
        | Some field =>
            ([], Ok (jsonify_with
                       (error_body ("Missing required field: " ++ field)) 400))
        | None =>
            ([Log ERROR ("Unexpected error: " ++ fault_text BadIndexType v)],
             Ok generic_failure)
        end).
Proof.
  split; [|split].
  - intros e He.
    rewrite (create_subscription_caught env {| get_json := Raise e |} [] e eq_refl).
    destruct e; try discriminate; reflexivity.
  - intros v Hv.
    assert (Htry : create_subscription_try env {| get_json := Ok v |}
                   = ([], Raise (TypeError (fault_text NotIterable v)))).
    { unfold create_subscription_try, lift. cbn [get_json].
      change (([], Ok v) : M value) with (ret v).
      rewrite bind_ret, (check_required_scalar v Hv). reflexivity. }
    rewrite (create_subscription_caught env _ _ _ Htry). reflexivity.
  - intros v Hv. unfold first_absent.
    destruct (find (fun f => negb (member f v)) required_fields) as [field|] eqn:Hf.
    + apply create_subscription_returned.
      unfold create_subscription_try, lift. cbn [get_json].
      change (([], Ok v) : M value) with (ret v).
      rewrite bind_ret, (check_required_sequence required_fields v Hv), bind_ret, Hf.
      reflexivity.
    + assert (Htry : create_subscription_try env {| get_json := Ok v |}
                     = ([], Raise (TypeError (fault_text BadIndexType v)))).
      { unfold create_subscription_try, lift. cbn [get_json].
        change (([], Ok v) : M value) with (ret v).
        rewrite bind_ret, (check_required_sequence required_fields v Hv), bind_ret, Hf.
        destruct Hv as [[s ->]|[l ->]]; reflexivity. }
      rewrite (create_subscription_caught env _ _ _ Htry). reflexivity.
Qed.

Lemma create_subscription_non_object_witness :
  scalar VNone = true /\
  create_subscription demo_env {| get_json := Ok VNone |} =
    ([Log ERROR ("Unexpected error: " ++ fault_text NotIterable VNone)],
     Ok generic_failure).
Proof.
  split; [reflexivity|].
  apply (proj1 (proj2 (create_subscription_non_object demo_env)) VNone).
  reflexivity.
Defined.

(* ===================================================================== *)
(** ** Subscription status *)
(* ===================================================================== *)

(** C9.  When the provider's list for the customer is empty the answer is
    200 with [{status: no_subscription}].  When a subscription exists, the
    plan is read through [subscription.items.data]; on the SDK's dict-based
    objects [subscription.items] is the dict method, the read of [.data] on
    it raises, and the answer is 500 with 'An unexpected error occurred':
    the lookup raises where the source's conditional means [plan] to be
    null. *)
Theorem subscription_status_items_lookup {rt : PyRuntime} {sdk : StripeSDK}
    (customer_id : string) (subscriptions : value) :
  Subscription_list (list_kwargs customer_id) = Ok subscriptions ->
  (sdk_getattr subscriptions "data" = Ok (VList []) ->
   get_subscription_status customer_id =
     ([SdkCall "Subscription.list" (list_kwargs customer_id)],
      Ok (mkResponse 200 (Json (VDict [("status", VStr "no_subscription")]))))) /\
  (forall subscription rest sid st pstart pend trial_end cancel its e,
      sdk_getattr subscriptions "data" = Ok (VList (subscription :: rest)) ->
      sdk_getattr subscription "id" = Ok sid ->
      sdk_getattr subscription "status" = Ok st ->
      sdk_getattr subscription "current_period_start" = Ok pstart ->
      sdk_getattr subscription "current_period_end" = Ok pend ->
      sdk_getattr subscription "trial_end" = Ok trial_end ->
      sdk_getattr subscription "cancel_at_period_end" = Ok cancel ->
      sdk_getattr subscription "items" = Ok its ->
      sdk_getattr its "data" = Raise e ->
      is_stripe_error e = false ->
      get_subscription_status customer_id =
        ([ SdkCall "Subscription.list" (list_kwargs customer_id);
           Log ERROR ("Unexpected error: " ++ exn_str e) ],
         Ok (mkResponse 500
               (Json (VDict [("error", VStr "An unexpected error occurred")]))))).
Proof.
  intros Hlist. split.
  - intros Hdata.
    unfold get_subscription_status, get_subscription_status_try, getattr, lift.
    rewrite Hlist. cbn -[sdk_getattr list_kwargs].
    rewrite Hdata. reflexivity.
  - intros subscription rest sid st pstart pend trial_end cancel its e
      Hdata Hid Hst Hps Hpe Hte Hc Hits Hitd He.
    unfold get_subscription_status, get_subscription_status_try, getattr, lift.
    rewrite Hlist. cbn -[sdk_getattr list_kwargs].
    rewrite Hdata. cbn -[sdk_getattr list_kwargs].
    rewrite Hid, Hst, Hps, Hpe, Hte, Hc, Hits. cbn -[sdk_getattr list_kwargs].
    rewrite Hitd. cbn -[sdk_getattr list_kwargs].
    destruct e; try discriminate; reflexivity.
Qed.

Lemma subscription_status_items_lookup_witness :
  Subscription_list (list_kwargs "cus_bare")
    = Ok (demo_object [("data", VList [demo_bare_subscription])]) /\
  sdk_getattr demo_bare_subscription "items" = Ok (bound_method "items") /\
  sdk_getattr (bound_method "items") "data" = Raise (AttributeError "data") /\
  get_subscription_status "cus_bare" =
    ([ SdkCall "Subscription.list" (list_kwargs "cus_bare");
       Log ERROR "Unexpected error: data" ],
     Ok (mkResponse 500
           (Json (VDict [("error", VStr "An unexpected error occurred")])))) /\
  get_subscription_status "cus_none" =
    ([SdkCall "Subscription.list" (list_kwargs "cus_none")],
     Ok (mkResponse 200 (Json (VDict [("status", VStr "no_subscription")])))).
Proof.
  assert (Hnone : Subscription_list (list_kwargs "cus_none")
                  = Ok (demo_object [("data", VList [])])) by reflexivity.
  assert (Hbare : Subscription_list (list_kwargs "cus_bare")
                  = Ok (demo_object [("data", VList [demo_bare_subscription])]))
    by reflexivity.
  split; [exact Hbare|]. split; [reflexivity|]. split; [reflexivity|]. split.
  - apply (proj2 (@subscription_status_items_lookup demo_runtime demo_sdk "cus_bare"
                    (demo_object [("data", VList [demo_bare_subscription])]) Hbare)
             demo_bare_subscription [] (VStr "sub_2") (VStr "active")
             (VInt 1700000000) (VInt 1702592000) VNone (VBool false)
             (bound_method "items") (AttributeError "data")); reflexivity.
  - apply (proj1 (@subscription_status_items_lookup demo_runtime demo_sdk "cus_none"
                    (demo_object [("data", VList [])]) Hnone)).
    reflexivity.
Defined.

(* ===================================================================== *)
(** ** Further properties of the webhook relay *)
(* ===================================================================== *)

Lemma sdk_calls_append (t u : list effect) :
  sdk_calls (t ++ u) = (sdk_calls t ++ sdk_calls u)%list.
Proof.
  induction t as [|[l m|name a|h a] t IH]; simpl; rewrite ?IH; reflexivity.
Qed.

Lemma dispatch_sdk_quiet {rt : PyRuntime} (ty obj : value) :
  sdk_calls (fst (dispatch ty obj)) = [].
Proof.
  destruct (recognized ty) as [h|] eqn:E.
  - rewrite (dispatch_recognized ty obj h E), call_trace. simpl.
    exact (proj2 (handler_body_quiet h obj)).
  - rewrite (dispatch_unrecognized ty obj E). reflexivity.
Qed.

Lemma handle_event_sdk_quiet {rt : PyRuntime} (event : value) :
  sdk_calls (fst (handle_event event)) = [].
Proof.
  destruct (event_type_of event) as [ty|] eqn:Hty.
  - destruct (data_object_of event) as [obj|] eqn:Hobj.
    + rewrite (handle_event_shape event ty obj Hty Hobj). simpl.
      rewrite sdk_calls_append, dispatch_sdk_quiet.
      destruct (snd (dispatch ty obj)); reflexivity.
    + destruct (handle_event_malformed event (or_intror Hobj)) as [e ->].
      reflexivity.
  - destruct (handle_event_malformed event (or_introl Hty)) as [e ->].
    reflexivity.
Qed.

(** The webhook view calls the SDK exactly once, to verify the delivery,
    when a secret is configured, and not at all otherwise; it never calls
    any other provider API, whatever the event. *)
Theorem webhook_sdk_calls {rt : PyRuntime} {sdk : StripeSDK}
    (env : environ) (req : webhook_request) :
  sdk_calls (fst (stripe_webhook env req)) =
    if secret_configured env
    then [("Webhook.construct_event", verification_args env req)]
    else [].
Proof.
  destruct (secret_configured env) eqn:Hs.
  - destruct (verification env req) as [event|e] eqn:Hv.
    + rewrite (stripe_webhook_verified env req event Hs Hv). simpl.
      now rewrite handle_event_sdk_quiet.
    + destruct (rejection_message e) as [msg|] eqn:Hm.
      * now rewrite (stripe_webhook_rejected env req e msg Hs Hv Hm).
      * now rewrite (stripe_webhook_propagates env req e Hs Hv Hm).
  - now rewrite (stripe_webhook_unconfigured env req Hs).
Qed.

(** An exception leaves the webhook view in exactly two situations, both
    with a secret configured: the SDK's verification raised something other
    than [ValueError] or [SignatureVerificationError], or the verified
    event has no [type] or no [data.object] to subscript.  Whenever an
    exception leaves the view, the verification call is its only effect:
    nothing is logged, no handler runs. *)
Theorem webhook_raises_iff {rt : PyRuntime} {sdk : StripeSDK}
    (env : environ) (req : webhook_request) (e : exn) :
  (snd (stripe_webhook env req) = Raise e <->
   secret_configured env = true /\
   ((verification env req = Raise e /\ rejection_message e = None) \/
    (exists event,
        verification env req = Ok event /\
        (event_type_of event = None \/ data_object_of event = None) /\
        handle_event event = ([], Raise e)))) /\
  (snd (stripe_webhook env req) = Raise e ->
   stripe_webhook env req =
     ([SdkCall "Webhook.construct_event" (verification_args env req)], Raise e)).
Proof.
  assert (Hfwd :
            snd (stripe_webhook env req) = Raise e ->
            secret_configured env = true /\
            ((verification env req = Raise e /\ rejection_message e = None) \/
             (exists event,
                 verification env req = Ok event /\
                 (event_type_of event = None \/ data_object_of event = None) /\
                 handle_event event = ([], Raise e)))).
  { intros H.
    destruct (secret_configured env) eqn:Hs;
      [|rewrite (stripe_webhook_unconfigured env req Hs) in H; discriminate].
    split; [reflexivity|].
    destruct (verification env req) as [event|e'] eqn:Hv.
    - right. exists event. split; [reflexivity|].
      rewrite (stripe_webhook_verified env req event Hs Hv) in H. simpl in H.
      destruct (event_type_of event) as [ty|] eqn:Hty.
      + destruct (data_object_of event) as [obj|] eqn:Hobj.
        * rewrite (handle_event_shape event ty obj Hty Hobj) in H. discriminate.
        * destruct (handle_event_malformed event (or_intror Hobj)) as [e0 He0].
          rewrite He0 in *. simpl in H. injection H as ->. auto.
      + destruct (handle_event_malformed event (or_introl Hty)) as [e0 He0].
        rewrite He0 in *. simpl in H. injection H as ->. auto.
    - left. destruct (rejection_message e') as [msg|] eqn:Hm.
      + rewrite (stripe_webhook_rejected env req e' msg Hs Hv Hm) in H. discriminate.
      + rewrite (stripe_webhook_propagates env req e' Hs Hv Hm) in H.
        simpl in H. injection H as ->. auto. }
  assert (Hrun :
            secret_configured env = true /\
            ((verification env req = Raise e /\ rejection_message e = None) \/
             (exists event,
                 verification env req = Ok event /\
                 (event_type_of event = None \/ data_object_of event = None) /\
                 handle_event event = ([], Raise e))) ->
            stripe_webhook env req =
              ([SdkCall "Webhook.construct_event" (verification_args env req)],
               Raise e)).
  { intros (Hs & [[Hv Hm]|(event & Hv & _ & He)]).
    - exact (stripe_webhook_propagates env req e Hs Hv Hm).
    - rewrite (stripe_webhook_verified env req event Hs Hv), He. reflexivity. }
  split; [split|].
  - exact Hfwd.
  - intros H. rewrite (Hrun H). reflexivity.
  - intros H. exact (Hrun (Hfwd H)).
Qed.

(** A verified event that is a dict without [type] makes the view raise
    [KeyError('type')]; with [type] but without [data], [KeyError('data')];
    with a dict [data] lacking [object], [KeyError('object')].  The
    delivery is then neither logged nor acknowledged, and no handler runs. *)
Theorem webhook_event_missing_key {rt : PyRuntime} {sdk : StripeSDK}
    (env : environ) (req : webhook_request) (kvs : list (string * value)) :
  secret_configured env = true ->
  verification env req = Ok (VDict kvs) ->
  (assoc "type" kvs = None ->
   stripe_webhook env req =
     ([SdkCall "Webhook.construct_event" (verification_args env req)],
      Raise (KeyError "'type'"))) /\
  (forall ty,
      assoc "type" kvs = Some ty ->
      assoc "data" kvs = None ->
      stripe_webhook env req =
        ([SdkCall "Webhook.construct_event" (verification_args env req)],
         Raise (KeyError "'data'"))) /\
  (forall ty d,
      assoc "type" kvs = Some ty ->
      assoc "data" kvs = Some (VDict d) ->
      assoc "object" d = None ->
      stripe_webhook env req =
        ([SdkCall "Webhook.construct_event" (verification_args env req)],
         Raise (KeyError "'object'"))).
Proof.
  intros Hs Hv.
  rewrite (stripe_webhook_verified env req (VDict kvs) Hs Hv).
  unfold handle_event. cbn [getitem].
  split; [|split].
  - intros ->. reflexivity.
  - intros ty -> ->. rewrite bind_ret. reflexivity.
  - intros ty d -> ->. rewrite !bind_ret. cbn [getitem]. intros ->. reflexivity.
Qed.

Lemma webhook_event_missing_key_witness :
  @verification hollow_sdk demo_env (signed "anything") = Ok (VDict []) /\
  @stripe_webhook demo_runtime hollow_sdk demo_env (signed "anything") =
    ([SdkCall "Webhook.construct_event" (verification_args demo_env (signed "anything"))],
     Raise (KeyError "'type'")).
Proof.
  split; [reflexivity|].
  apply (proj1 (@webhook_event_missing_key demo_runtime hollow_sdk demo_env
                  (signed "anything") [] eq_refl eq_refl)).
  reflexivity.
Defined.

Lemma handler_body_on_dict {rt : PyRuntime} (h : handler) (kvs : list (string * value)) :
  match first_missing_key h kvs with
  | Some k => handler_body h (VDict kvs) = ([], Raise (KeyError (quote k)))
  | None => exists line, handler_body h (VDict kvs) = ([Log INFO line], Ok tt)
  end.
Proof.
  unfold first_missing_key, has_key.
  destruct h; cbn [handler_keys find handler_body];
    unfold handle_subscription_created, handle_subscription_updated,
      handle_subscription_deleted, handle_payment_succeeded,
      handle_payment_failed, handle_trial_will_end;
    cbn [getitem];
    repeat match goal with
           | |- context [assoc ?k kvs] =>
               destruct (assoc k kvs); cbn [negb]; rewrite ?bind_ret
           end;
    try reflexivity; eexists; reflexivity.
Qed.

(** A handler given a dict raises [KeyError] for the first of its keys the
    dict lacks, before logging anything; given a dict with all its keys it
    logs exactly one INFO line and returns.  Given anything that is not a
    dict it raises [TypeError]. *)
Theorem handler_returns_iff_keys {rt : PyRuntime} (h : handler) (obj : value) :
  match obj with
  | VDict kvs =>
      match first_missing_key h kvs with
      | Some k => handler_body h obj = ([], Raise (KeyError (quote k)))
      | None => exists line, handler_body h obj = ([Log INFO line], Ok tt)
      end
  | _ => exists text, handler_body h obj = ([], Raise (TypeError text))
  end.
Proof.
  destruct obj as [| | | | | |kvs];
    try (destruct h; eexists; reflexivity).
  apply handler_body_on_dict.
Qed.

(** For a verified event of a recognized type whose data object is a dict,
    the delivery is acknowledged with 200 exactly when the dict has every
    key the handler reads; otherwise the answer is 500 and quotes the first
    missing key. *)
Theorem webhook_ack_iff_handler_keys {rt : PyRuntime} {sdk : StripeSDK}
    (env : environ) (req : webhook_request) (event ty : value)
    (kvs : list (string * value)) (h : handler) :
  secret_configured env = true ->
  verification env req = Ok event ->
  event_type_of event = Some ty ->
  data_object_of event = Some (VDict kvs) ->
  recognized ty = Some h ->
  snd (stripe_webhook env req) =
    match first_missing_key h kvs with
    | None => Ok success_ack
    | Some k => Ok (text_with ("Error handling webhook: " ++ quote k) 500)
    end.
Proof.
  intros Hs Hv Hty Hobj Hr.
  rewrite (stripe_webhook_verified env req event Hs Hv).
  rewrite (handle_event_shape event ty (VDict kvs) Hty Hobj).
  rewrite (dispatch_recognized ty (VDict kvs) h Hr), call_trace.
  cbn [fst snd].
  pose proof (handler_body_on_dict h kvs) as Hh.
  destruct (first_missing_key h kvs) as [k|].
  - rewrite Hh. reflexivity.
  - destruct Hh as [line ->]. reflexivity.
Qed.

Lemma webhook_ack_iff_handler_keys_witness :
  verification demo_env (signed "created-without-id")
    = Ok (demo_event "customer.subscription.created" (VDict [])) /\
  first_missing_key h_subscription_created [] = Some "id" /\
  snd (stripe_webhook demo_env (signed "created-without-id"))
    = Ok (text_with ("Error handling webhook: " ++ quote "id") 500).
Proof.
  assert (Hv : verification demo_env (signed "created-without-id")
               = Ok (demo_event "customer.subscription.created" (VDict [])))
    by reflexivity.
  split; [exact Hv|]. split; [reflexivity|].
  exact (webhook_ack_iff_handler_keys demo_env (signed "created-without-id")
           (demo_event "customer.subscription.created" (VDict []))
           (VStr "customer.subscription.created") [] h_subscription_created
           eq_refl Hv eq_refl eq_refl eq_refl).
Defined.

(** A verified event with an unrecognized type tag leaves exactly three
    effects: the verification call, the INFO line announcing the event and
    the INFO line 'Unhandled event type: ' with the tag. *)
Theorem webhook_unknown_type_logged {rt : PyRuntime} {sdk : StripeSDK}
    (env : environ) (req : webhook_request) (event ty obj : value) :
  secret_configured env = true ->
  verification env req = Ok event ->
  event_type_of event = Some ty ->
  data_object_of event = Some obj ->
  recognized ty = None ->
  stripe_webhook env req =
    ([ SdkCall "Webhook.construct_event" (verification_args env req);
       Log INFO ("Received webhook event: " ++ py_str ty);
       Log INFO ("Unhandled event type: " ++ py_str ty) ],
     Ok success_ack).
Proof.
  intros Hs Hv Hty Hobj Hr.
  rewrite (stripe_webhook_verified env req event Hs Hv).
  rewrite (handle_event_shape event ty obj Hty Hobj).
  rewrite (dispatch_unrecognized ty obj Hr). reflexivity.
Qed.

Lemma webhook_unknown_type_logged_witness :
  verification demo_env (signed "charge-refunded")
    = Ok (demo_event "charge.refunded" (VDict [("id", VStr "ch_1")])) /\
  log_lines (fst (stripe_webhook demo_env (signed "charge-refunded")))
    = [ (INFO, "Received webhook event: charge.refunded");
        (INFO, "Unhandled event type: charge.refunded") ].
Proof.
  assert (Hv : verification demo_env (signed "charge-refunded")
               = Ok (demo_event "charge.refunded" (VDict [("id", VStr "ch_1")])))
    by reflexivity.
  split; [exact Hv|].
  rewrite (webhook_unknown_type_logged demo_env (signed "charge-refunded")
             (demo_event "charge.refunded" (VDict [("id", VStr "ch_1")]))
             (VStr "charge.refunded") (VDict [("id", VStr "ch_1")])
             eq_refl Hv eq_refl eq_refl eq_refl).
  reflexivity.
Defined.

(* ===================================================================== *)
(** ** Further properties of create-subscription *)
(* ===================================================================== *)

Lemma post_bind {A B : Type} (m : M A) (f : A -> M B) (P : A -> Prop) (Q : B -> Prop) :
  post m P -> (forall a, P a -> post (f a) Q) -> post (bind m f) Q.
Proof.
  unfold post. destruct m as [t [a|e]]; simpl; [|trivial].
  intros Ha Hf. specialize (Hf a Ha). destruct (f a) as [t' r]. exact Hf.
Qed.

Lemma post_any {A : Type} (m : M A) : post m (fun _ => True).
Proof. unfold post. destruct (snd m); trivial. Qed.

Lemma post_then {A B : Type} (m : M A) (f : A -> M B) (Q : B -> Prop) :
  (forall a, post (f a) Q) -> post (bind m f) Q.
Proof. intros H. apply (post_bind m f (fun _ => True)); [apply post_any | auto]. Qed.

Lemma quiet_bind {A B : Type} (m : M A) (f : A -> M B) :
  quiet m -> (forall a, quiet (f a)) -> quiet (bind m f).
Proof.
  unfold quiet. destruct m as [t [a|e]]; simpl; [|trivial].
  intros Hm Hf. specialize (Hf a). destruct (f a) as [t' r]. simpl in *.
  now rewrite sdk_calls_append, Hm, Hf.
Qed.

Lemma sdk_calls_bind_quiet {A B : Type} (m : M A) (f : A -> M B) :
  quiet m ->
  sdk_calls (fst (bind m f)) =
    match snd m with
    | Ok a => sdk_calls (fst (f a))
    | Raise _ => []
    end.
Proof.
  unfold quiet. destruct m as [t [a|e]]; simpl; [|trivial].
  intros Hm. destruct (f a) as [t' r]. simpl. now rewrite sdk_calls_append, Hm.
Qed.

Lemma sdk_calls_bind_call {A B : Type} (name : string) (args : value)
    (r : result A) (f : A -> M B) :
  sdk_calls (fst (bind (sdk_call name args r) f)) =
    (name, args) :: match r with
                    | Ok a => sdk_calls (fst (f a))
                    | Raise _ => []
                    end.
Proof.
  unfold sdk_call, bind. destruct r as [a|e]; [|reflexivity].
  destruct (f a) as [t' r']. reflexivity.
Qed.

Lemma sdk_calls_catch_quiet {A : Type} (m : M A) (h : exn -> M A) :
  (forall e, quiet (h e)) -> sdk_calls (fst (catch m h)) = sdk_calls (fst m).
Proof.
  unfold quiet, catch. intros Hh. destruct m as [t [a|e]]; [reflexivity|].
  specialize (Hh e). destruct (h e) as [t' r]. simpl in *.
  now rewrite sdk_calls_append, Hh, app_nil_r.
Qed.

Section QuietFacts.
Context {rt : PyRuntime} {sdk : StripeSDK}.

Lemma quiet_ret {A : Type} (a : A) : quiet (ret a).
Proof. reflexivity. Qed.

Lemma quiet_lift {A : Type} (r : result A) : quiet (lift r).
Proof. reflexivity. Qed.

Lemma quiet_log (l : level) (msg : string) : quiet (log l msg).
Proof. reflexivity. Qed.

Lemma quiet_getitem (v : value) (k : string) : quiet (getitem v k).
Proof. destruct (getitem_cases v k) as [[x ->]|[e ->]]; reflexivity. Qed.

Lemma quiet_getattr (o : value) (name : string) : quiet (getattr o name).
Proof. reflexivity. Qed.

Lemma quiet_contains (v : value) (k : string) : quiet (contains v k).
Proof. destruct v; reflexivity. Qed.

Lemma quiet_get_method (v : value) (k : string) (d : value) : quiet (get_method v k d).
Proof. destruct v; try reflexivity. simpl. destruct (assoc k kvs); reflexivity. Qed.

Lemma quiet_check_required (fields : list string) (data : value) :
  quiet (check_required fields data).
Proof.
  induction fields as [|f fields IH]; [reflexivity|].
  cbn [check_required]. apply quiet_bind; [apply quiet_contains|].
  intros present. destruct present; [exact IH | reflexivity].
Qed.

Lemma quiet_create_subscription_except (e : exn) : quiet (create_subscription_except e).
Proof. destruct e as [[] text um| | | | | |]; reflexivity. Qed.

Lemma post_check_required (fields : list string) (data : value) :
  post (check_required fields data)
    (fun checked => match checked with
                    | Return r => status r = 400%Z
                    | Continue _ => True
                    end).
Proof.
  induction fields as [|f fields IH]; [exact I|].
  cbn [check_required]. apply post_then. intros present.
  destruct present; [exact IH | reflexivity].
Qed.

End QuietFacts.

Create HintDb quiet.
#[local] Hint Resolve quiet_ret quiet_lift quiet_log quiet_getitem quiet_getattr
  quiet_contains quiet_get_method quiet_check_required quiet_bind : quiet.

(** One step of a walk along a chain of binds whose SDK calls are being
    collected. *)
Ltac walk_calls :=
  repeat first
    [ rewrite sdk_calls_bind_call
    | rewrite sdk_calls_bind_quiet by (auto 10 with quiet)
    | match goal with
      | |- context [match snd ?m with Ok _ => _ | Raise _ => _ end] =>
          destruct (snd m)
      | |- context [match ?r with Ok _ => _ | Raise _ => _ end] =>
          destruct r
      | |- context [match ?c with Return _ => _ | Continue _ => _ end] =>
          destruct c
      | |- context [if ?b then _ else _] => destruct b
      end ].

(** Create-subscription never lets an exception out: every request gets a
    response, whose status is one of 200, 400, 401, 429, 500 and 503. *)
Theorem create_subscription_never_raises {rt : PyRuntime} {sdk : StripeSDK}
    (env : environ) (req : json_request) :
  exists t r,
    create_subscription env req = (t, Ok r) /\
    In (status r) [200; 400; 401; 429; 500; 503]%Z.
Proof.
  assert (Htry : post (create_subscription_try env req)
                   (fun r => status r = 200%Z \/ status r = 400%Z)).
  { unfold create_subscription_try.
    apply post_then. intros data.
    apply (post_bind _ _ _ _ (post_check_required required_fields data)).
    intros [r|[]] Hr; [unfold post; simpl; auto|].
    do 2 (apply post_then; intros ?).
    destruct (negb _); [unfold post; simpl; auto|].
    repeat (apply post_then; intros ?).
    unfold post; simpl; auto. }
  unfold create_subscription, catch, post in *.
  destruct (create_subscription_try env req) as [t [r|e]]; simpl in Htry.
  - exists t, r. split; [reflexivity|].
    destruct Htry as [-> | ->]; simpl; auto 10.
  - destruct e as [[] text um| | | | | |]; simpl;
      do 2 eexists; (split; [reflexivity|]); simpl; auto 10.
Qed.

(** Whatever the request and whatever the provider answers,
    create-subscription calls the provider in one of three ways: not at
    all, [Customer.create] alone, or [Customer.create] followed by
    [Subscription.create].  It never creates a subscription before a
    customer, never repeats a call and never calls anything else. *)
Theorem create_subscription_call_order {rt : PyRuntime} {sdk : StripeSDK}
    (env : environ) (req : json_request) :
  sdk_calls (fst (create_subscription env req)) = [] \/
  (exists c, sdk_calls (fst (create_subscription env req)) = [("Customer.create", c)]) \/
  (exists c s,
      sdk_calls (fst (create_subscription env req))
        = [("Customer.create", c); ("Subscription.create", s)]).
Proof.
  unfold create_subscription.
  rewrite (sdk_calls_catch_quiet _ _ quiet_create_subscription_except).
  unfold create_subscription_try.
  walk_calls; cbn [sdk_calls fst ret]; eauto 6.
Qed.

Lemma get_method_dict {rt : PyRuntime} (kvs : list (string * value)) (k : string)
    (d : value) :
  get_method (VDict kvs) k d =
    ret (match assoc k kvs with Some x => x | None => d end).
Proof. simpl. destruct (assoc k kvs); reflexivity. Qed.

Lemma create_subscription_except_shape {rt : PyRuntime} {sdk : StripeSDK} (e : exn) :
  exists line r,
    create_subscription_except e = ([Log ERROR line], Ok r) /\
    status r = expected_status e.
Proof.
  destruct e as [[] text um| | | | | |]; do 2 eexists; split; reflexivity.
Qed.

Section CreateSubscriptionRuns.
Context {rt : PyRuntime} {sdk : StripeSDK}.
Variable env : environ.
Variable kvs : list (string * value).
Variables email name plan cycle pm : value.
Hypothesis Hemail : assoc "email" kvs = Some email.
Hypothesis Hname : assoc "name" kvs = Some name.
Hypothesis Hplan : assoc "plan" kvs = Some plan.
Hypothesis Hcycle : assoc "billing_cycle" kvs = Some cycle.
Hypothesis Hpm : assoc "payment_method_id" kvs = Some pm.

Let price : value := table_get (PRICE_IDS env) (py_str plan ++ "_" ++ py_str cycle).
Let ckw : value := customer_kwargs email name pm pm plan cycle (company_of kvs).

Hypothesis Hprice : truthy price = true.

Lemma all_required_present : first_missing kvs = None.
Proof.
  unfold first_missing, has_key. cbn [find required_fields].
  now rewrite Hemail, Hname, Hplan, Hcycle, Hpm.
Qed.

(** A request that passes validation reaches [Customer.create] with the
    body's fields. *)
Lemma create_subscription_try_reaches_customer :
  exists rest : value -> M response,
    create_subscription_try env {| get_json := Ok (VDict kvs) |} =
      bind (sdk_call "Customer.create" ckw (Customer_create ckw)) rest /\
    forall customer cid,
      sdk_getattr customer "id" = Ok cid ->
      exists rest' : value -> M response,
        rest customer =
          bind (log INFO ("Customer created: " ++ py_str cid ++ " for " ++ py_str email))
               (fun _ => bind (sdk_call "Subscription.create"
                                 (subscription_kwargs cid price plan cycle)
                                 (Subscription_create
                                    (subscription_kwargs cid price plan cycle)))
                              rest') /\
        forall sub sid inv intent secret trial_end st,
          sdk_getattr sub "id" = Ok sid ->
          sdk_getattr sub "latest_invoice" = Ok inv ->
          sdk_getattr inv "payment_intent" = Ok intent ->
          (truthy intent = true -> sdk_getattr intent "client_secret" = Ok secret) ->
          sdk_getattr sub "trial_end" = Ok trial_end ->
          sdk_getattr sub "status" = Ok st ->
          rest' sub =
            ([Log INFO ("Subscription created: " ++ py_str sid
                        ++ " for customer " ++ py_str cid)],
             Ok (jsonify (VDict [ ("subscription_id", sid);
                                  ("customer_id", cid);
                                  ("client_secret",
                                   if truthy intent then secret else VNone);
                                  ("trial_end", trial_end);
                                  ("status", st) ]))).
Proof.
  unfold create_subscription_try, lift. cbn [get_json].
  change (([], Ok (VDict kvs)) : M value) with (ret (VDict kvs)).
  rewrite bind_ret, check_required_dict, bind_ret.
  pose proof all_required_present as Hall. unfold first_missing in Hall.
  rewrite Hall.
  rewrite !(getitem_dict kvs "plan" plan Hplan).
  rewrite !(getitem_dict kvs "billing_cycle" cycle Hcycle).
  rewrite !(getitem_dict kvs "email" email Hemail).
  rewrite !(getitem_dict kvs "name" name Hname).
  rewrite !(getitem_dict kvs "payment_method_id" pm Hpm).
  rewrite get_method_dict.
  repeat (rewrite bind_ret; cbv beta).
  fold price. rewrite Hprice. cbn [negb].
  repeat (rewrite bind_ret; cbv beta).
  fold (company_of kvs). fold ckw.
  eexists. split; [reflexivity|].
  intros customer cid Hcid. cbv beta.
  unfold getattr, lift. rewrite Hcid.
  change (([], Ok cid) : M value) with (ret cid).
  repeat (rewrite bind_ret; cbv beta).
  eexists. split; [reflexivity|].
  intros sub sid inv intent secret trial_end st Hsid Hinv Hintent Hsecret Hte Hst.
  cbv beta. rewrite Hsid, Hinv, Hte, Hst.
  change (([], Ok sid) : M value) with (ret sid).
  rewrite bind_ret. cbv beta.
  cbn [log bind ret app]. rewrite Hintent. cbn [bind ret app].
  destruct (truthy intent) eqn:Ht.
  - rewrite (Hsecret eq_refl). reflexivity.
  - reflexivity.
Qed.

End CreateSubscriptionRuns.

Lemma bind_ok {A B : Type} (t : list effect) (a : A) (f : A -> M B) :
  bind (t, Ok a) f = ((t ++ fst (f a))%list, snd (f a)).
Proof. unfold bind. destruct (f a). reflexivity. Qed.

(** A request that passes validation, for which the provider creates the
    customer and then the subscription, makes exactly those two calls in
    that order: the customer with the body's e-mail, name, payment method
    and metadata (company defaulting to the empty string), the subscription
    for that customer's id with the configured price, a 14-day trial and the
    expanded payment intent.  The answer is 200 with the subscription's
    fields; [client_secret] is null when the invoice has no payment
    intent. *)
Theorem create_subscription_success {rt : PyRuntime} {sdk : StripeSDK}
    (env : environ) (kvs : list (string * value))
    (email name plan cycle pm customer cid sub sid inv intent secret trial_end st : value) :
  assoc "email" kvs = Some email ->
  assoc "name" kvs = Some name ->
  assoc "plan" kvs = Some plan ->
  assoc "billing_cycle" kvs = Some cycle ->
  assoc "payment_method_id" kvs = Some pm ->
  truthy (table_get (PRICE_IDS env) (py_str plan ++ "_" ++ py_str cycle)) = true ->
  Customer_create (customer_kwargs email name pm pm plan cycle (company_of kvs))
    = Ok customer ->
  sdk_getattr customer "id" = Ok cid ->
  Subscription_create
    (subscription_kwargs cid
       (table_get (PRICE_IDS env) (py_str plan ++ "_" ++ py_str cycle)) plan cycle)
    = Ok sub ->
  sdk_getattr sub "id" = Ok sid ->
  sdk_getattr sub "latest_invoice" = Ok inv ->
  sdk_getattr inv "payment_intent" = Ok intent ->
  (truthy intent = true -> sdk_getattr intent "client_secret" = Ok secret) ->
  sdk_getattr sub "trial_end" = Ok trial_end ->
  sdk_getattr sub "status" = Ok st ->
  create_subscription env {| get_json := Ok (VDict kvs) |} =
    ([ SdkCall "Customer.create"
         (customer_kwargs email name pm pm plan cycle (company_of kvs));
       Log INFO ("Customer created: " ++ py_str cid ++ " for " ++ py_str email);
       SdkCall "Subscription.create"
         (VDict [ ("customer", cid);
                  ("items",
                   VList [VDict [("price",
                                  table_get (PRICE_IDS env)
                                    (py_str plan ++ "_" ++ py_str cycle))]]);
                  ("trial_period_days", VInt 14);
                  ("expand", VList [VStr "latest_invoice.payment_intent"]);
                  ("metadata", VDict [("plan", plan); ("billing_cycle", cycle)]) ]);
       Log INFO ("Subscription created: " ++ py_str sid
                 ++ " for customer " ++ py_str cid) ],
     Ok (jsonify (VDict [ ("subscription_id", sid);
                          ("customer_id", cid);
                          ("client_secret", if truthy intent then secret else VNone);
                          ("trial_end", trial_end);
                          ("status", st) ]))).
Proof.
  intros Hemail Hname Hplan Hcycle Hpm Hprice Hcust Hcid Hsub
    Hsid Hinv Hintent Hsecret Hte Hst.
  destruct (create_subscription_try_reaches_customer env kvs email name plan cycle pm
              Hemail Hname Hplan Hcycle Hpm Hprice) as (rest & Htry & Hrest).
  destruct (Hrest customer cid Hcid) as (rest' & Hr & Hr').
  apply create_subscription_returned.
  rewrite Htry, Hcust. unfold sdk_call. rewrite bind_ok, Hr.
  unfold log. rewrite bind_ok, Hsub. unfold sdk_call. rewrite bind_ok.
  rewrite (Hr' sub sid inv intent secret trial_end st Hsid Hinv Hintent Hsecret Hte Hst).
  reflexivity.
Qed.

Lemma create_subscription_success_witness :
  create_subscription demo_env (order "a@b.c" "starter" "monthly") =
    ([ SdkCall "Customer.create"
         (customer_kwargs (VStr "a@b.c") (VStr "Ada") (VStr "pm_1") (VStr "pm_1")
            (VStr "starter") (VStr "monthly") (VStr ""));
       Log INFO "Customer created: cus_1 for a@b.c";
       SdkCall "Subscription.create"
         (VDict [ ("customer", VStr "cus_1");
                  ("items", VList [VDict [("price", VStr "price_sm")]]);
                  ("trial_period_days", VInt 14);
                  ("expand", VList [VStr "latest_invoice.payment_intent"]);
                  ("metadata", VDict [ ("plan", VStr "starter");
                                       ("billing_cycle", VStr "monthly") ]) ]);
       Log INFO "Subscription created: sub_1 for customer cus_1" ],
     Ok (jsonify (VDict [ ("subscription_id", VStr "sub_1");
                          ("customer_id", VStr "cus_1");
                          ("client_secret", VNone);
                          ("trial_end", VInt 1700000000);
                          ("status", VStr "trialing") ]))).
Proof.
  apply (@create_subscription_success demo_runtime demo_sdk demo_env
           [ ("email", VStr "a@b.c"); ("name", VStr "Ada");
             ("plan", VStr "starter"); ("billing_cycle", VStr "monthly");
             ("payment_method_id", VStr "pm_1") ]
           (VStr "a@b.c") (VStr "Ada") (VStr "starter") (VStr "monthly") (VStr "pm_1")
           (demo_object [("id", VStr "cus_1")]) (VStr "cus_1")
           (demo_object
              [ ("id", VStr "sub_1");
                ("latest_invoice", demo_object [("payment_intent", VNone)]);
                ("trial_end", VInt 1700000000);
                ("status", VStr "trialing") ])
           (VStr "sub_1") (demo_object [("payment_intent", VNone)]) VNone VNone
           (VInt 1700000000) (VStr "trialing"));
    try reflexivity.
  intros H. discriminate H.
Defined.

(** When the provider refuses the customer of a validated request, the
    subscription is never attempted: [Customer.create] is the only call,
    one error line is logged, and the answer carries the status of the
    error's category. *)
Theorem create_subscription_customer_refused {rt : PyRuntime} {sdk : StripeSDK}
    (env : environ) (kvs : list (string * value))
    (email name plan cycle pm : value) (e : exn) :
  assoc "email" kvs = Some email ->
  assoc "name" kvs = Some name ->
  assoc "plan" kvs = Some plan ->
  assoc "billing_cycle" kvs = Some cycle ->
  assoc "payment_method_id" kvs = Some pm ->
  truthy (table_get (PRICE_IDS env) (py_str plan ++ "_" ++ py_str cycle)) = true ->
  Customer_create (customer_kwargs email name pm pm plan cycle (company_of kvs))
    = Raise e ->
  exists line r,
    create_subscription env {| get_json := Ok (VDict kvs) |} =
      ([ SdkCall "Customer.create"
           (customer_kwargs email name pm pm plan cycle (company_of kvs));
         Log ERROR line ],
       Ok r) /\
    status r = expected_status e.
Proof.
  intros Hemail Hname Hplan Hcycle Hpm Hprice Hcust.
  destruct (create_subscription_try_reaches_customer env kvs email name plan cycle pm
              Hemail Hname Hplan Hcycle Hpm Hprice) as (rest & Htry & _).
  destruct (create_subscription_except_shape e) as (line & r & Hex & Hstatus).
  exists line, r. split; [|exact Hstatus].
  erewrite create_subscription_caught;
    [|rewrite Htry, Hcust; reflexivity].
  rewrite Hex. reflexivity.
Qed.

Lemma create_subscription_customer_refused_witness :
  exists line r,
    create_subscription demo_env (order "declined@example.com" "starter" "monthly") =
      ([ SdkCall "Customer.create"
           (customer_kwargs (VStr "declined@example.com") (VStr "Ada") (VStr "pm_1")
              (VStr "pm_1") (VStr "starter") (VStr "monthly") (VStr ""));
         Log ERROR line ],
       Ok r) /\
    status r = 400%Z.
Proof.
  assert (Hcust : Customer_create
                    (customer_kwargs (VStr "declined@example.com") (VStr "Ada")
                       (VStr "pm_1") (VStr "pm_1") (VStr "starter") (VStr "monthly")
                       (VStr ""))
                  = Raise (StripeError CardError "Request req_1: Your card was declined."
                             (Some "Your card was declined."))) by reflexivity.
  exact (@create_subscription_customer_refused demo_runtime demo_sdk demo_env
           [ ("email", VStr "declined@example.com"); ("name", VStr "Ada");
             ("plan", VStr "starter"); ("billing_cycle", VStr "monthly");
             ("payment_method_id", VStr "pm_1") ]
           (VStr "declined@example.com") (VStr "Ada") (VStr "starter")
           (VStr "monthly") (VStr "pm_1") _
           eq_refl eq_refl eq_refl eq_refl eq_refl eq_refl Hcust).
Defined.

(** When the provider creates the customer of a validated request but
    refuses the subscription, the view answers with the error's status and
    makes no further call: the customer just created is left in place. *)
Theorem create_subscription_subscription_refused {rt : PyRuntime} {sdk : StripeSDK}
    (env : environ) (kvs : list (string * value))
    (email name plan cycle pm customer cid : value) (e : exn) :
  assoc "email" kvs = Some email ->
  assoc "name" kvs = Some name ->
  assoc "plan" kvs = Some plan ->
  assoc "billing_cycle" kvs = Some cycle ->
  assoc "payment_method_id" kvs = Some pm ->
  truthy (table_get (PRICE_IDS env) (py_str plan ++ "_" ++ py_str cycle)) = true ->
  Customer_create (customer_kwargs email name pm pm plan cycle (company_of kvs))
    = Ok customer ->
  sdk_getattr customer "id" = Ok cid ->
  Subscription_create
    (subscription_kwargs cid
       (table_get (PRICE_IDS env) (py_str plan ++ "_" ++ py_str cycle)) plan cycle)
    = Raise e ->
  exists line r,
    create_subscription env {| get_json := Ok (VDict kvs) |} =
      ([ SdkCall "Customer.create"
           (customer_kwargs email name pm pm plan cycle (company_of kvs));
         Log INFO ("Customer created: " ++ py_str cid ++ " for " ++ py_str email);
         SdkCall "Subscription.create"
           (subscription_kwargs cid
              (table_get (PRICE_IDS env) (py_str plan ++ "_" ++ py_str cycle))
              plan cycle);
         Log ERROR line ],
       Ok r) /\
    status r = expected_status e.
Proof.
  intros Hemail Hname Hplan Hcycle Hpm Hprice Hcust Hcid Hsub.
  destruct (create_subscription_try_reaches_customer env kvs email name plan cycle pm
              Hemail Hname Hplan Hcycle Hpm Hprice) as (rest & Htry & Hrest).
  destruct (Hrest customer cid Hcid) as (rest' & Hr & _).
  destruct (create_subscription_except_shape e) as (line & r & Hex & Hstatus).
  exists line, r. split; [|exact Hstatus].
  erewrite create_subscription_caught;
    [|rewrite Htry, Hcust; unfold sdk_call; rewrite bind_ok, Hr;
      unfold log; rewrite bind_ok, Hsub; reflexivity].
  rewrite Hex. reflexivity.
Qed.

Lemma create_subscription_subscription_refused_witness :
  exists line r,
    sdk_calls (fst (@create_subscription demo_runtime stingy_sdk demo_env
                      (order "a@b.c" "starter" "monthly")))
      = [ ("Customer.create",
           customer_kwargs (VStr "a@b.c") (VStr "Ada") (VStr "pm_1") (VStr "pm_1")
             (VStr "starter") (VStr "monthly") (VStr ""));
          ("Subscription.create",
           subscription_kwargs (VStr "cus_1") (VStr "price_sm")
             (VStr "starter") (VStr "monthly")) ] /\
    In (ERROR, line)
       (log_lines (fst (@create_subscription demo_runtime stingy_sdk demo_env
                          (order "a@b.c" "starter" "monthly")))) /\
    snd (@create_subscription demo_runtime stingy_sdk demo_env
           (order "a@b.c" "starter" "monthly")) = Ok r /\
    status r = 429%Z.
Proof.
  destruct (@create_subscription_subscription_refused demo_runtime stingy_sdk demo_env
              [ ("email", VStr "a@b.c"); ("name", VStr "Ada");
                ("plan", VStr "starter"); ("billing_cycle", VStr "monthly");
                ("payment_method_id", VStr "pm_1") ]
              (VStr "a@b.c") (VStr "Ada") (VStr "starter") (VStr "monthly")
              (VStr "pm_1") (demo_object [("id", VStr "cus_1")]) (VStr "cus_1")
              (StripeError RateLimitError "Too many requests" None)
              eq_refl eq_refl eq_refl eq_refl eq_refl eq_refl eq_refl eq_refl eq_refl)
    as (line & r & Hrun & Hstatus).
  exists line, r.
  change (order "a@b.c" "starter" "monthly")
    with {| get_json := Ok (VDict [ ("email", VStr "a@b.c"); ("name", VStr "Ada");
                                    ("plan", VStr "starter");
                                    ("billing_cycle", VStr "monthly");
                                    ("payment_method_id", VStr "pm_1") ]) |}.
  rewrite Hrun. cbn [fst snd].
  split; [reflexivity|]. split; [|split; [reflexivity | exact Hstatus]].
  cbn [log_lines]. right. left. reflexivity.
Defined.

(** The price table only ever yields a price for the four keys
    starter_monthly, starter_yearly, professional_monthly and
    professional_yearly, and only when the key's environment variable is
    set and not empty; the price is then that variable's value. *)
Theorem price_table_accepts (env : environ) (key : string) :
  (truthy (table_get (PRICE_IDS env) key) = true ->
   exists var s,
     In (key, var) price_env_vars /\ env var = Some s /\ s <> "" /\
     table_get (PRICE_IDS env) key = VStr s) /\
  (forall var s,
      In (key, var) price_env_vars -> env var = Some s -> s <> "" ->
      table_get (PRICE_IDS env) key = VStr s /\
      truthy (table_get (PRICE_IDS env) key) = true).
Proof.
  assert (Hne : forall s, truthy (VStr s) = true <-> s <> "").
  { intros s. simpl. destruct (String.eqb_spec s ""); simpl; split;
      congruence. }
  split.
  - unfold table_get, PRICE_IDS. cbn [assoc].
    repeat match goal with
           | |- context [String.eqb ?a key] =>
               destruct (String.eqb_spec a key) as [<- | _]
           end;
      try discriminate;
      match goal with
      | |- context [env ?v] =>
          destruct (env v) as [s|] eqn:Hv; [|discriminate];
          intros Ht; exists v, s; apply Hne in Ht;
          repeat split; cbn; auto 6
      end.
  - intros var s Hin Hv Hs.
    cbn in Hin.
    repeat match type of Hin with
           | _ \/ _ => destruct Hin as [Hin|Hin]
           end;
      try contradiction; injection Hin as <- <-;
      unfold table_get, PRICE_IDS; cbn [assoc String.eqb Ascii.eqb Bool.eqb];
      rewrite Hv; (split; [reflexivity | now apply Hne]).
Qed.

Lemma price_table_accepts_witness :
  In ("starter_monthly", "STRIPE_STARTER_MONTHLY_PRICE_ID") price_env_vars /\
  demo_env "STRIPE_STARTER_MONTHLY_PRICE_ID" = Some "price_sm" /\
  table_get (PRICE_IDS demo_env) "starter_monthly" = VStr "price_sm".
Proof.
  split; [left; reflexivity|]. split; [reflexivity|].
  apply (proj2 (price_table_accepts demo_env "starter_monthly")
           "STRIPE_STARTER_MONTHLY_PRICE_ID" "price_sm").
  - left. reflexivity.
  - reflexivity.
  - discriminate.
Defined.

(* ===================================================================== *)
(** ** Portal sessions *)
(* ===================================================================== *)

Section PortalFacts.
Context {rt : PyRuntime} {sdk : StripeSDK} {admin : StripeAdmin}.

Lemma quiet_create_portal_session_except (e : exn) :
  quiet (create_portal_session_except e).
Proof. destruct e; reflexivity. Qed.

Lemma create_portal_session_except_shape (e : exn) :
  exists line,
    create_portal_session_except e = ([Log ERROR line], Ok (two_armed_answer e)).
Proof. destruct e; eexists; reflexivity. Qed.

Lemma create_portal_session_caught (req : json_request) (t : list effect) (e : exn) :
  create_portal_session_try req = (t, Raise e) ->
  create_portal_session req =
    ((t ++ fst (create_portal_session_except e))%list,
     snd (create_portal_session_except e)).
Proof.
  intros H. unfold create_portal_session, catch. rewrite H.
  destruct (create_portal_session_except e). reflexivity.
Qed.

Lemma create_portal_session_returned (req : json_request) (t : list effect)
    (r : response) :
  create_portal_session_try req = (t, Ok r) ->
  create_portal_session req = (t, Ok r).
Proof. intros H. unfold create_portal_session, catch. now rewrite H. Qed.

(** A body with a customer id reaches the provider with that id and the
    return URL. *)
Lemma create_portal_session_try_reaches_provider
    (kvs : list (string * value)) (customer : value) :
  assoc "customer_id" kvs = Some customer ->
  exists rest : value -> M response,
    create_portal_session_try {| get_json := Ok (VDict kvs) |} =
      bind (sdk_call "billing_portal.Session.create"
              (portal_kwargs customer (return_url_of kvs))
              (Portal_Session_create (portal_kwargs customer (return_url_of kvs))))
           rest /\
    forall session url,
      sdk_getattr session "url" = Ok url ->
      rest session =
        ([Log INFO ("Portal session created for customer: " ++ py_str customer)],
         Ok (jsonify (VDict [("url", url)]))).
Proof.
  intros Hc.
  unfold create_portal_session_try, lift. cbn [get_json].
  change (([], Ok (VDict kvs)) : M value) with (ret (VDict kvs)).
  rewrite bind_ret. cbn [contains]. rewrite bind_ret.
  unfold has_key. rewrite Hc. cbn [negb].
  rewrite !(getitem_dict kvs "customer_id" customer Hc), get_method_dict.
  repeat (rewrite bind_ret; cbv beta).
  fold (return_url_of kvs).
  eexists. split; [reflexivity|].
  intros session url Hu. cbv beta. rewrite bind_ret, Hu. reflexivity.
Qed.

End PortalFacts.

(** A create-portal-session body that is a JSON object without
    [customer_id] is answered 400 with [{error: Missing customer_id}];
    nothing is logged and the provider is not called. *)
Theorem portal_missing_customer {rt : PyRuntime} {sdk : StripeSDK} {admin : StripeAdmin}
    (kvs : list (string * value)) :
  has_key "customer_id" kvs = false ->
  create_portal_session {| get_json := Ok (VDict kvs) |} =
    ([], Ok (jsonify_with (error_body "Missing customer_id") 400)).
Proof.
  intros H. apply create_portal_session_returned.
  unfold create_portal_session_try, lift. cbn [get_json].
  change (([], Ok (VDict kvs)) : M value) with (ret (VDict kvs)).
  rewrite bind_ret. cbn [contains]. rewrite bind_ret, H. reflexivity.
Qed.

Lemma portal_missing_customer_witness :
  create_portal_session {| get_json := Ok (VDict [("return_url", VStr "https://x/")]) |} =
    ([], Ok (jsonify_with (error_body "Missing customer_id") 400)).
Proof.
  apply (@portal_missing_customer demo_runtime demo_sdk demo_admin
           [("return_url", VStr "https://x/")]).
  reflexivity.
Defined.

(** A body with a customer id opens a portal session for that customer
    with the body's [return_url], or the project's page when the body has
    none; when the provider returns a session the answer is 200 with the
    session's [url] alone. *)
Theorem portal_success {rt : PyRuntime} {sdk : StripeSDK} {admin : StripeAdmin}
    (kvs : list (string * value)) (customer session url : value) :
  assoc "customer_id" kvs = Some customer ->
  Portal_Session_create (portal_kwargs customer (return_url_of kvs)) = Ok session ->
  sdk_getattr session "url" = Ok url ->
  create_portal_session {| get_json := Ok (VDict kvs) |} =
    ([ SdkCall "billing_portal.Session.create"
         (VDict [("customer", customer); ("return_url", return_url_of kvs)]);
       Log INFO ("Portal session created for customer: " ++ py_str customer) ],
     Ok (jsonify (VDict [("url", url)]))) /\
  (assoc "return_url" kvs = None ->
   return_url_of kvs = VStr "https://lcherouri.github.io/reviewmaestro-saas/").
Proof.
  intros Hc Hs Hu. split.
  - apply create_portal_session_returned.
    destruct (create_portal_session_try_reaches_provider kvs customer Hc)
      as (rest & Htry & Hrest).
    rewrite Htry, Hs. unfold sdk_call. rewrite bind_ok, (Hrest session url Hu).
    reflexivity.
  - intros H. unfold return_url_of. rewrite H. reflexivity.
Qed.

Lemma portal_success_witness :
  create_portal_session (portal_request "cus_1") =
    ([ SdkCall "billing_portal.Session.create"
         (VDict [ ("customer", VStr "cus_1");
                  ("return_url",
                   VStr "https://lcherouri.github.io/reviewmaestro-saas/") ]);
       Log INFO "Portal session created for customer: cus_1" ],
     Ok (jsonify (VDict [("url", VStr "https://billing.example/session/1")]))).
Proof.
  apply (proj1 (@portal_success demo_runtime demo_sdk demo_admin
                  [("customer_id", VStr "cus_1")] (VStr "cus_1")
                  (demo_object [("url", VStr "https://billing.example/session/1")])
                  (VStr "https://billing.example/session/1")
                  eq_refl eq_refl eq_refl)).
Defined.

(** When the provider refuses the portal session, every provider error,
    whatever its category, is answered 400 with 'Stripe error: ' followed by
    the error's text, and anything else 500 with a fixed message; the
    refused call is the only one made. *)
Theorem portal_provider_error {rt : PyRuntime} {sdk : StripeSDK} {admin : StripeAdmin}
    (kvs : list (string * value)) (customer : value) (e : exn) :
  assoc "customer_id" kvs = Some customer ->
  Portal_Session_create (portal_kwargs customer (return_url_of kvs)) = Raise e ->
  exists line,
    create_portal_session {| get_json := Ok (VDict kvs) |} =
      ([ SdkCall "billing_portal.Session.create"
           (portal_kwargs customer (return_url_of kvs));
         Log ERROR line ],
       Ok (if is_stripe_error e
           then jsonify_with (error_body ("Stripe error: " ++ exn_str e)) 400
           else jsonify_with (error_body "An unexpected error occurred") 500)).
Proof.
  intros Hc Hs.
  destruct (create_portal_session_except_shape e) as (line & Hex).
  destruct (create_portal_session_try_reaches_provider kvs customer Hc)
    as (rest & Htry & _).
  exists line.
  erewrite create_portal_session_caught; [|rewrite Htry, Hs; reflexivity].
  rewrite Hex. reflexivity.
Qed.

Lemma portal_provider_error_witness :
  exists line,
    create_portal_session (portal_request "cus_gone") =
      ([ SdkCall "billing_portal.Session.create"
           (portal_kwargs (VStr "cus_gone")
              (VStr "https://lcherouri.github.io/reviewmaestro-saas/"));
         Log ERROR line ],
       Ok (jsonify_with
             (error_body "Stripe error: No such customer: 'cus_gone'") 400)).
Proof.
  exact (@portal_provider_error demo_runtime demo_sdk demo_admin
           [("customer_id", VStr "cus_gone")] (VStr "cus_gone")
           (StripeError InvalidRequestError "No such customer: 'cus_gone'" None)
           eq_refl eq_refl).
Defined.

(** Create-portal-session never lets an exception out: every request gets
    a response with status 200, 400 or 500, and the provider is called at
    most once, for a portal session. *)
Theorem portal_never_raises {rt : PyRuntime} {sdk : StripeSDK} {admin : StripeAdmin}
    (req : json_request) :
  (exists t r,
      create_portal_session req = (t, Ok r) /\
      In (status r) [200; 400; 500]%Z) /\
  (sdk_calls (fst (create_portal_session req)) = [] \/
   exists kw,
     sdk_calls (fst (create_portal_session req))
       = [("billing_portal.Session.create", kw)]).
Proof.
  split.
  - assert (Htry : post (create_portal_session_try req)
                     (fun r => status r = 200%Z \/ status r = 400%Z)).
    { unfold create_portal_session_try.
      do 2 (apply post_then; intros ?).
      destruct (negb _); [unfold post; simpl; auto|].
      repeat (apply post_then; intros ?).
      unfold post; simpl; auto. }
    unfold create_portal_session, catch, post in *.
    destruct (create_portal_session_try req) as [t [r|e]]; simpl in Htry.
    + exists t, r. split; [reflexivity|].
      destruct Htry as [-> | ->]; simpl; auto 10.
    + destruct e; simpl; do 2 eexists; (split; [reflexivity|]); simpl; auto 10.
  - unfold create_portal_session.
    rewrite (sdk_calls_catch_quiet _ _ quiet_create_portal_session_except).
    unfold create_portal_session_try.
    walk_calls; cbn [sdk_calls fst ret]; eauto 6.
Qed.

(* ===================================================================== *)
(** ** Further properties of the subscription status view *)
(* ===================================================================== *)

Section StatusFacts.
Context {rt : PyRuntime} {sdk : StripeSDK}.

Lemma quiet_first_item (v : value) : quiet (first_item v).
Proof. destruct v as [| | | |[|c s]|[|x l]|]; reflexivity. Qed.

Lemma quiet_get_subscription_status_except (e : exn) :
  quiet (get_subscription_status_except e).
Proof. destruct e; reflexivity. Qed.

Lemma get_subscription_status_except_shape (e : exn) :
  exists line,
    get_subscription_status_except e = ([Log ERROR line], Ok (two_armed_answer e)).
Proof. destruct e; eexists; reflexivity. Qed.

End StatusFacts.

#[local] Hint Resolve quiet_first_item : quiet.

(** The status view never lets an exception out and always makes exactly
    one provider call: the list of the customer's subscriptions, of every
    status, limited to ten.  Its answer has status 200, 400 or 500. *)
Theorem subscription_status_never_raises {rt : PyRuntime} {sdk : StripeSDK}
    (customer_id : string) :
  sdk_calls (fst (get_subscription_status customer_id)) =
    [("Subscription.list",
      VDict [("customer", VStr customer_id); ("status", VStr "all"); ("limit", VInt 10)])] /\
  exists t r,
    get_subscription_status customer_id = (t, Ok r) /\
    In (status r) [200; 400; 500]%Z.
Proof.
  split.
  - unfold get_subscription_status.
    rewrite (sdk_calls_catch_quiet _ _ quiet_get_subscription_status_except).
    unfold get_subscription_status_try. cbv zeta.
    rewrite sdk_calls_bind_call. fold (list_kwargs customer_id). f_equal.
    destruct (Subscription_list (list_kwargs customer_id)) as [subs|e]; [|reflexivity].
    walk_calls; reflexivity.
  - assert (Htry : post (get_subscription_status_try customer_id)
                     (fun r => status r = 200%Z)).
    { unfold get_subscription_status_try. cbv zeta.
      do 2 (apply post_then; intros ?).
      destruct (negb _); [reflexivity|].
      repeat (apply post_then; intros ?).
      reflexivity. }
    unfold get_subscription_status, catch, post in *.
    destruct (get_subscription_status_try customer_id) as [t [r|e]]; simpl in Htry.
    + exists t, r. split; [reflexivity|]. rewrite Htry. simpl. auto.
    + destruct e; simpl; do 2 eexists; (split; [reflexivity|]); simpl; auto 10.
Qed.

(** When the provider cannot list the subscriptions, a provider error of
    any category is answered 400 with 'Stripe error: ' and the error's
    text, anything else 500 with 'An unexpected error occurred'. *)
Theorem subscription_status_list_error {rt : PyRuntime} {sdk : StripeSDK}
    (customer_id : string) (e : exn) :
  Subscription_list (list_kwargs customer_id) = Raise e ->
  exists line,
    get_subscription_status customer_id =
      ([SdkCall "Subscription.list" (list_kwargs customer_id); Log ERROR line],
       Ok (if is_stripe_error e
           then jsonify_with (error_body ("Stripe error: " ++ exn_str e)) 400
           else jsonify_with (error_body "An unexpected error occurred") 500)).
Proof.
  intros Hlist.
  destruct (get_subscription_status_except_shape e) as (line & Hex).
  exists line.
  unfold get_subscription_status, get_subscription_status_try. cbv zeta.
  rewrite Hlist. unfold sdk_call. cbn [bind catch]. rewrite Hex. reflexivity.
Qed.

Lemma subscription_status_list_error_witness :
  exists line,
    @get_subscription_status demo_runtime down_sdk "cus_1" =
      ([SdkCall "Subscription.list" (list_kwargs "cus_1"); Log ERROR line],
       Ok (jsonify_with (error_body "Stripe error: down") 400)).
Proof.
  exact (@subscription_status_list_error demo_runtime down_sdk "cus_1"
           (StripeError APIConnectionError "down" None) eq_refl).
Defined.

(* ===================================================================== *)
(** ** Public configuration *)
(* ===================================================================== *)

Lemma rstrip_decompose (c : ascii) (s : string) :
  exists n, s = rstrip c s ++ str_mul (String c EmptyString) n.
Proof.
  induction s as [|a rest [n IH]]; [exists 0; reflexivity|].
  cbn [rstrip]. destruct (rstrip c rest) as [|b r] eqn:E.
  - destruct (Ascii.eqb_spec a c) as [->|Hne].
    + exists (S n). cbn. now rewrite IH at 1.
    + exists n. cbn. now rewrite IH at 1.
  - exists n. cbn. now rewrite IH at 1.
Qed.

Lemma append_single_nonempty (t : string) (c : ascii) :
  t ++ String c EmptyString <> EmptyString.
Proof. destruct t; discriminate. Qed.

Lemma rstrip_no_trailing (c : ascii) (s t : string) :
  rstrip c s <> t ++ String c EmptyString.
Proof.
  revert t. induction s as [|a rest IH]; intros t H.
  - symmetry in H. exact (append_single_nonempty t c H).
  - cbn [rstrip] in H. destruct (rstrip c rest) as [|b r] eqn:E.
    + destruct (Ascii.eqb_spec a c) as [->|Hne].
      * symmetry in H. exact (append_single_nonempty t c H).
      * destruct t as [|x t']; cbn in H.
        -- injection H as ->. contradiction.
        -- injection H as _ H. symmetry in H.
           exact (append_single_nonempty t' c H).
    + destruct t as [|x t']; cbn in H; [discriminate|].
      injection H as _ H. exact (IH t' H).
Qed.

(** The [api_url] of the public configuration is the request's host URL
    without its trailing slashes: the host URL is [api_url] followed by
    slashes only, and [api_url] does not end in a slash.  The publishable
    key is passed through, null when unset. *)
Theorem get_config_api_url (env : environ) (host_url : string) :
  exists u n,
    get_config env host_url =
      mkResponse 200
        (Json (VDict [ ("stripe_publishable_key",
                        of_optional (env "STRIPE_PUBLISHABLE_KEY"));
                       ("api_url", VStr u) ])) /\
    host_url = u ++ str_mul "/" n /\
    forall t, u <> t ++ "/".
Proof.
  destruct (rstrip_decompose slash host_url) as [n Hn].
  exists (rstrip slash host_url), n. split; [reflexivity|]. split.
  - exact Hn.
  - intros t. exact (rstrip_no_trailing slash host_url t).
Qed.

(* ===================================================================== *)
(** ** Start-up of the server *)
(* ===================================================================== *)

Lemma log_each_trace (vars : list string) :
  log_each vars = (map (fun v => Log ERROR ("  " ++ v)) vars, Ok tt).
Proof.
  induction vars as [|v vars IH]; [reflexivity|].
  cbn [log_each map]. unfold log. rewrite bind_ok, IH. reflexivity.
Qed.

Lemma missing_vars_spec (env : environ) (v : string) :
  In v (missing_vars env) <->
  (v = "STRIPE_SECRET_KEY" \/ v = "STRIPE_PUBLISHABLE_KEY") /\
  (env v = None \/ env v = Some "").
Proof.
  unfold missing_vars. rewrite filter_In. cbn [required_env_vars In].
  assert (Hfalsy : negb (truthy (of_optional (env v))) = true <->
                   env v = None \/ env v = Some "").
  { destruct (env v) as [s|]; simpl;
      [destruct (String.eqb_spec s "") as [->|Hn]; simpl|];
      split; intros H; auto; try discriminate;
      destruct H as [H|H]; try discriminate;
      injection H as ->; contradiction. }
  rewrite Hfalsy. intuition (subst; auto).
Qed.

(** With a required key unset or empty the server does not start: it logs
    the list of missing variables, a prompt and one line per missing
    variable, in the order STRIPE_SECRET_KEY, STRIPE_PUBLISHABLE_KEY, and
    exits with code 1 without calling the provider. *)
Theorem app_main_missing_keys {rt : PyRuntime} {admin : StripeAdmin} {bi : PyBuiltins}
    (env : environ) :
  missing_vars env <> [] ->
  app_main env =
    (Log ERROR ("Missing required environment variables: "
                ++ repr_names (missing_vars env))
       :: Log ERROR "Please set the following environment variables:"
       :: map (fun v => Log ERROR ("  " ++ v)) (missing_vars env),
     Ok (Exit 1)) /\
  sdk_calls (fst (app_main env)) = [] /\
  (forall v,
      In v (missing_vars env) <->
      (v = "STRIPE_SECRET_KEY" \/ v = "STRIPE_PUBLISHABLE_KEY") /\
      (env v = None \/ env v = Some "")).
Proof.
  intros Hne.
  assert (Hrun : app_main env =
                 (Log ERROR ("Missing required environment variables: "
                             ++ repr_names (missing_vars env))
                    :: Log ERROR "Please set the following environment variables:"
                    :: map (fun v => Log ERROR ("  " ++ v)) (missing_vars env),
                  Ok (Exit 1))).
  { unfold app_main. destruct (missing_vars env) as [|v vs]; [contradiction|].
    unfold log. rewrite !bind_ok, log_each_trace. cbn [fst snd bind ret app].
    now rewrite app_nil_r. }
  split; [exact Hrun|]. split; [|apply missing_vars_spec].
  rewrite Hrun. cbn [fst sdk_calls].
  clear Hrun Hne. induction (missing_vars env) as [|v vs IH]; [reflexivity | exact IH].
Qed.

Lemma app_main_missing_keys_witness :
  missing_vars half_env = ["STRIPE_PUBLISHABLE_KEY"] /\
  app_main half_env =
    ([ Log ERROR "Missing required environment variables: ['STRIPE_PUBLISHABLE_KEY']";
       Log ERROR "Please set the following environment variables:";
       Log ERROR "  STRIPE_PUBLISHABLE_KEY" ],
     Ok (Exit 1)).
Proof.
  split; [reflexivity|].
  apply (proj1 (@app_main_missing_keys demo_runtime demo_admin demo_builtins half_env
                  ltac:(discriminate))).
Defined.

(** The server reaches [app.run] exactly when both required keys are set
    and not empty, the provider returned the account, and the port was
    read; it then listens on 0.0.0.0, on that port, with debug on exactly
    when FLASK_ENV is 'development'. *)
Theorem app_main_serves_iff {rt : PyRuntime} {admin : StripeAdmin} {bi : PyBuiltins}
    (env : environ) (host : string) (port : Z) (debug : bool) :
  snd (app_main env) = Ok (Serve host port debug) <->
  missing_vars env = [] /\
  (exists account, Account_retrieve = Ok account) /\
  read_port env = Ok port /\
  host = "0.0.0.0" /\
  debug = py_eq_str (of_optional (env "FLASK_ENV")) "development".
Proof.
  unfold app_main.
  destruct (missing_vars env) as [|v vs].
  - destruct Account_retrieve as [account|e].
    + unfold sdk_call, log, lift. cbn [catch bind ret app negb].
      destruct (read_port env) as [p|e]; cbn [bind ret app snd].
      * split.
        -- intros H. injection H as <- <- <-. eauto 8.
        -- intros (_ & _ & Hp & -> & ->). injection Hp as ->. reflexivity.
      * split; [discriminate|]. intros (_ & _ & Hp & _). discriminate.
    + split.
      * destruct e as [[] text um| | | | | |]; discriminate.
      * intros (_ & [account H] & _). discriminate.
  - unfold log. rewrite !bind_ok, log_each_trace. cbn [fst snd bind ret].
    split; [discriminate|]. intros (H & _). discriminate.
Qed.

(** When the provider does not return the account the server logs one
    error line and exits with code 1: 'Invalid Stripe API key' for an
    authentication error, otherwise the error's text after 'Error
    validating Stripe configuration: '. *)
Theorem app_main_key_rejected {rt : PyRuntime} {admin : StripeAdmin} {bi : PyBuiltins}
    (env : environ) (e : exn) :
  missing_vars env = [] ->
  Account_retrieve = Raise e ->
  app_main env =
    ([SdkCall "Account.retrieve" (VDict []); Log ERROR (validation_failure_line e)],
     Ok (Exit 1)).
Proof.
  intros Hm He. unfold app_main. rewrite Hm, He.
  destruct e as [[] text um| | | | | |]; reflexivity.
Qed.

Lemma app_main_key_rejected_witness :
  @app_main demo_runtime locked_admin demo_builtins live_env =
    ([SdkCall "Account.retrieve" (VDict []); Log ERROR "Invalid Stripe API key"],
     Ok (Exit 1)).
Proof.
  exact (@app_main_key_rejected demo_runtime locked_admin demo_builtins live_env
           (StripeError AuthenticationError "Invalid API Key provided" None)
           eq_refl eq_refl).
Defined.

(** Once the keys are present and the account was returned: without PORT
    the server listens on 5000; with a PORT that [int] rejects, the
    exception is not caught and start-up dies with it after the
    connectivity check. *)
Theorem app_main_port {rt : PyRuntime} {admin : StripeAdmin} {bi : PyBuiltins}
    (env : environ) (account : value) :
  missing_vars env = [] ->
  Account_retrieve = Ok account ->
  (env "PORT" = None ->
   snd (app_main env) =
     Ok (Serve "0.0.0.0" 5000
           (py_eq_str (of_optional (env "FLASK_ENV")) "development"))) /\
  (forall s e,
      env "PORT" = Some s ->
      py_int s = Raise e ->
      app_main env =
        ([ SdkCall "Account.retrieve" (VDict []);
           Log INFO "Stripe configuration validated successfully" ],
         Raise e)).
Proof.
  intros Hm Ha. unfold app_main, read_port. rewrite Hm, Ha. split.
  - intros ->. reflexivity.
  - intros s e -> ->. reflexivity.
Qed.

Lemma app_main_port_witness :
  app_main badport_env =
    ([ SdkCall "Account.retrieve" (VDict []);
       Log INFO "Stripe configuration validated successfully" ],
     Raise (ValueError "invalid literal for int() with base 10: 'http'")).
Proof.
  apply (proj2 (@app_main_port demo_runtime demo_admin demo_builtins badport_env
                  demo_account eq_refl eq_refl)
           "http" (ValueError "invalid literal for int() with base 10: 'http'"));
    reflexivity.
Defined.

Lemma app_main_serves_iff_witness :
  snd (app_main live_env) = Ok (Serve "0.0.0.0" 8080 true).
Proof.
  apply (proj2 (@app_main_serves_iff demo_runtime demo_admin demo_builtins live_env
                  "0.0.0.0" 8080%Z true)).
  split; [reflexivity|]. split; [exists demo_account; reflexivity|].
  repeat split; reflexivity.
Defined.

(* ===================================================================== *)
(** ** The provisioning script *)
(* ===================================================================== *)

Lemma sbind_ok {A B : Type} (t : list output) (a : A) (f : A -> script B) :
  sbind (t, Ok a) f = ((t ++ fst (f a))%list, snd (f a)).
Proof. unfold sbind. destruct (f a). reflexivity. Qed.

Lemma api_calls_append (t u : list output) :
  api_calls (t ++ u) = (api_calls t ++ api_calls u)%list.
Proof. induction t as [|[line|name a] t IH]; simpl; rewrite ?IH; reflexivity. Qed.

Lemma printed_append (t u : list output) :
  printed (t ++ u) = (printed t ++ printed u)%list.
Proof. induction t as [|[line|name a] t IH]; simpl; rewrite ?IH; reflexivity. Qed.

Section ScriptFacts.
Context {rt : PyRuntime} {sdk : StripeSDK} {admin : StripeAdmin} {bi : PyBuiltins}.

Lemma create_products_and_prices_except_shape (e : exn) :
  exists line,
    create_products_and_prices_except e = ([Print line], Ok VNone).
Proof. destruct e; eexists; reflexivity. Qed.

End ScriptFacts.

(** Walk the provisioning by cases on every SDK answer and attribute read. *)
Ltac script_cases :=
  repeat (cbn [sbind scatch sret app fst snd];
          lazymatch goal with
          | |- context [create_products_and_prices_except ?e] =>
              let line := fresh "line" in
              destruct (create_products_and_prices_except_shape e) as [line ->]
          | |- context [match ?r with Ok _ => _ | Raise _ => _ end] =>
              destruct r
          end).

Lemma create_products_cases {rt : PyRuntime} {sdk : StripeSDK} {admin : StripeAdmin} :
  exists t v n,
    create_products_and_prices = (t, Ok v) /\
    map fst (api_calls t) = firstn n setup_call_names /\
    (v = VNone \/
     (n = 6 /\
      exists kvs,
        v = VDict kvs /\
        forall env, map fst kvs = map fst (PRICE_IDS env))).
Proof.
  unfold create_products_and_prices, create_products_and_prices_try,
    create_price, attr, slift, api, print.
  script_cases;
    do 2 eexists;
    first
      [ exists 6; split; [reflexivity|]; split; [reflexivity|];
        right; split; [reflexivity|]; eexists; split; reflexivity
      | exists 0; split; [reflexivity|]; split; [reflexivity|]; left; reflexivity
      | exists 1; split; [reflexivity|]; split; [reflexivity|]; left; reflexivity
      | exists 2; split; [reflexivity|]; split; [reflexivity|]; left; reflexivity
      | exists 3; split; [reflexivity|]; split; [reflexivity|]; left; reflexivity
      | exists 4; split; [reflexivity|]; split; [reflexivity|]; left; reflexivity
      | exists 5; split; [reflexivity|]; split; [reflexivity|]; left; reflexivity
      | exists 6; split; [reflexivity|]; split; [reflexivity|]; left; reflexivity ].
Qed.

(** The provisioning never lets an exception out.  Its SDK calls are an
    initial part of: two products, then four prices; it returns either
    [None] or, only after all six calls, a dict with exactly the keys
    starter_monthly, starter_yearly, professional_monthly and
    professional_yearly, which are the keys of the server's price table. *)
Theorem create_products_outcome {rt : PyRuntime} {sdk : StripeSDK} {admin : StripeAdmin} :
  exists t v n,
    create_products_and_prices = (t, Ok v) /\
    map fst (api_calls t) = firstn n setup_call_names /\
    (v = VNone \/
     (n = 6 /\
      exists kvs,
        v = VDict kvs /\
        forall env, map fst kvs = map fst (PRICE_IDS env))).
Proof. exact create_products_cases. Qed.

Section ProvisioningRun.
Context {rt : PyRuntime} {sdk : StripeSDK} {admin : StripeAdmin}.
Variables starter professional sp pp : value.
Variables sm sy pm py smid syid pmid pyid : value.
Hypothesis Hstarter : Product_create starter_product_kwargs = Ok starter.
Hypothesis Hsp : sdk_getattr starter "id" = Ok sp.
Hypothesis Hprofessional : Product_create professional_product_kwargs = Ok professional.
Hypothesis Hpp : sdk_getattr professional "id" = Ok pp.
Hypothesis Hsm :
  Price_create (price_kwargs sp 1900 "month" "Starter Monthly" "starter" "monthly") = Ok sm.
Hypothesis Hsmid : sdk_getattr sm "id" = Ok smid.
Hypothesis Hsy :
  Price_create (price_kwargs sp 15600 "year" "Starter Yearly" "starter" "yearly") = Ok sy.
Hypothesis Hsyid : sdk_getattr sy "id" = Ok syid.
Hypothesis Hpm :
  Price_create
    (price_kwargs pp 9900 "month" "Professional Monthly" "professional" "monthly") = Ok pm.
Hypothesis Hpmid : sdk_getattr pm "id" = Ok pmid.
Hypothesis Hpy :
  Price_create
    (price_kwargs pp 82800 "year" "Professional Yearly" "professional" "yearly") = Ok py.
Hypothesis Hpyid : sdk_getattr py "id" = Ok pyid.

(** The whole run when every call succeeds: its calls, what it prints and
    what it returns. *)
Lemma create_products_run :
  exists t,
    create_products_and_prices =
      (t, Ok (VDict [ ("starter_monthly", smid);
                      ("starter_yearly", syid);
                      ("professional_monthly", pmid);
                      ("professional_yearly", pyid) ])) /\
    api_calls t =
      [ ("Product.create", starter_product_kwargs);
        ("Product.create", professional_product_kwargs);
        ("Price.create",
         price_kwargs sp 1900 "month" "Starter Monthly" "starter" "monthly");
        ("Price.create",
         price_kwargs sp 15600 "year" "Starter Yearly" "starter" "yearly");
        ("Price.create",
         price_kwargs pp 9900 "month" "Professional Monthly" "professional" "monthly");
        ("Price.create",
         price_kwargs pp 82800 "year" "Professional Yearly" "professional" "yearly") ] /\
    filter (String.prefix "STRIPE_") (printed t) =
      [ "STRIPE_STARTER_MONTHLY_PRICE_ID=" ++ py_str smid;
        "STRIPE_STARTER_YEARLY_PRICE_ID=" ++ py_str syid;
        "STRIPE_PROFESSIONAL_MONTHLY_PRICE_ID=" ++ py_str pmid;
        "STRIPE_PROFESSIONAL_YEARLY_PRICE_ID=" ++ py_str pyid ].
Proof.
  unfold create_products_and_prices, create_products_and_prices_try,
    create_price, attr, slift, api, print.
  rewrite Hstarter, Hprofessional.
  repeat (cbn [sbind scatch sret app fst snd];
          rewrite ?Hsp, ?Hpp, ?Hsm, ?Hsy, ?Hpm, ?Hpy, ?Hsmid, ?Hsyid, ?Hpmid, ?Hpyid).
  eexists. split; [reflexivity|]. split; reflexivity.
Qed.

End ProvisioningRun.

(** When the provider creates both products and all four prices, the
    provisioning makes six calls in this order: the Starter product, the
    Professional product, then the prices 1900/month and 15600/year on the
    Starter product's id and 9900/month and 82800/year on the Professional
    product's id, all in usd; and it returns the four price ids under
    starter_monthly, starter_yearly, professional_monthly and
    professional_yearly. *)
Theorem create_products_success {rt : PyRuntime} {sdk : StripeSDK} {admin : StripeAdmin}
    (starter professional sp pp sm sy pm py smid syid pmid pyid : value) :
  Product_create starter_product_kwargs = Ok starter ->
  sdk_getattr starter "id" = Ok sp ->
  Product_create professional_product_kwargs = Ok professional ->
  sdk_getattr professional "id" = Ok pp ->
  Price_create (price_kwargs sp 1900 "month" "Starter Monthly" "starter" "monthly")
    = Ok sm ->
  sdk_getattr sm "id" = Ok smid ->
  Price_create (price_kwargs sp 15600 "year" "Starter Yearly" "starter" "yearly")
    = Ok sy ->
  sdk_getattr sy "id" = Ok syid ->
  Price_create
    (price_kwargs pp 9900 "month" "Professional Monthly" "professional" "monthly")
    = Ok pm ->
  sdk_getattr pm "id" = Ok pmid ->
  Price_create
    (price_kwargs pp 82800 "year" "Professional Yearly" "professional" "yearly")
    = Ok py ->
  sdk_getattr py "id" = Ok pyid ->
  snd create_products_and_prices =
    Ok (VDict [ ("starter_monthly", smid);
                ("starter_yearly", syid);
                ("professional_monthly", pmid);
                ("professional_yearly", pyid) ]) /\
  api_calls (fst create_products_and_prices) =
    [ ("Product.create", starter_product_kwargs);
      ("Product.create", professional_product_kwargs);
      ("Price.create",
       VDict [ ("product", sp); ("unit_amount", VInt 1900); ("currency", VStr "usd");
               ("recurring", VDict [("interval", VStr "month")]);
               ("nickname", VStr "Starter Monthly");
               ("metadata", VDict [("plan", VStr "starter");
                                   ("billing", VStr "monthly")]) ]);
      ("Price.create",
       VDict [ ("product", sp); ("unit_amount", VInt 15600); ("currency", VStr "usd");
               ("recurring", VDict [("interval", VStr "year")]);
               ("nickname", VStr "Starter Yearly");
               ("metadata", VDict [("plan", VStr "starter");
                                   ("billing", VStr "yearly")]) ]);
      ("Price.create",
       VDict [ ("product", pp); ("unit_amount", VInt 9900); ("currency", VStr "usd");
               ("recurring", VDict [("interval", VStr "month")]);
               ("nickname", VStr "Professional Monthly");
               ("metadata", VDict [("plan", VStr "professional");
                                   ("billing", VStr "monthly")]) ]);
      ("Price.create",
       VDict [ ("product", pp); ("unit_amount", VInt 82800); ("currency", VStr "usd");
               ("recurring", VDict [("interval", VStr "year")]);
               ("nickname", VStr "Professional Yearly");
               ("metadata", VDict [("plan", VStr "professional");
                                   ("billing", VStr "yearly")]) ]) ].
Proof.
  intros H1 H2 H3 H4 H5 H6 H7 H8 H9 H10 H11 H12.
  destruct (create_products_run starter professional sp pp sm sy pm py
              smid syid pmid pyid H1 H2 H3 H4 H5 H6 H7 H8 H9 H10 H11 H12)
    as (t & Hrun & Hcalls & _).
  rewrite Hrun. cbn [fst snd]. rewrite Hcalls. split; reflexivity.
Qed.

Lemma create_products_success_witness :
  snd create_products_and_prices =
    Ok (VDict [ ("starter_monthly", VStr "price_starter_monthly");
                ("starter_yearly", VStr "price_starter_yearly");
                ("professional_monthly", VStr "price_professional_monthly");
                ("professional_yearly", VStr "price_professional_yearly") ]).
Proof.
  apply (proj1 (@create_products_success demo_runtime demo_sdk demo_admin
                  (demo_object [("id", VStr "prod_starter")])
                  (demo_object [("id", VStr "prod_professional")])
                  (VStr "prod_starter") (VStr "prod_professional")
                  (demo_object [("id", VStr "price_starter_monthly")])
                  (demo_object [("id", VStr "price_starter_yearly")])
                  (demo_object [("id", VStr "price_professional_monthly")])
                  (demo_object [("id", VStr "price_professional_yearly")])
                  (VStr "price_starter_monthly") (VStr "price_starter_yearly")
                  (VStr "price_professional_monthly") (VStr "price_professional_yearly")
                  eq_refl eq_refl eq_refl eq_refl eq_refl eq_refl
                  eq_refl eq_refl eq_refl eq_refl eq_refl eq_refl)).
Defined.

(** The script's output configures the server: when provisioning succeeds
    with price ids that are strings, the only lines it prints that start
    with STRIPE_ are the four assignments of those ids to the variables the
    server's price table reads, and in any environment that sets the four
    variables as printed the server's price table equals the dict the
    script returned. *)
Theorem setup_output_configures_price_table
    {rt : PyRuntime} {sdk : StripeSDK} {admin : StripeAdmin}
    (starter professional sp pp sm sy pm py : value) (s1 s2 s3 s4 : string)
    (env : environ) :
  Product_create starter_product_kwargs = Ok starter ->
  sdk_getattr starter "id" = Ok sp ->
  Product_create professional_product_kwargs = Ok professional ->
  sdk_getattr professional "id" = Ok pp ->
  Price_create (price_kwargs sp 1900 "month" "Starter Monthly" "starter" "monthly")
    = Ok sm ->
  sdk_getattr sm "id" = Ok (VStr s1) ->
  Price_create (price_kwargs sp 15600 "year" "Starter Yearly" "starter" "yearly")
    = Ok sy ->
  sdk_getattr sy "id" = Ok (VStr s2) ->
  Price_create
    (price_kwargs pp 9900 "month" "Professional Monthly" "professional" "monthly")
    = Ok pm ->
  sdk_getattr pm "id" = Ok (VStr s3) ->
  Price_create
    (price_kwargs pp 82800 "year" "Professional Yearly" "professional" "yearly")
    = Ok py ->
  sdk_getattr py "id" = Ok (VStr s4) ->
  env "STRIPE_STARTER_MONTHLY_PRICE_ID" = Some s1 ->
  env "STRIPE_STARTER_YEARLY_PRICE_ID" = Some s2 ->
  env "STRIPE_PROFESSIONAL_MONTHLY_PRICE_ID" = Some s3 ->
  env "STRIPE_PROFESSIONAL_YEARLY_PRICE_ID" = Some s4 ->
  filter (String.prefix "STRIPE_") (printed (fst create_products_and_prices)) =
    [ "STRIPE_STARTER_MONTHLY_PRICE_ID=" ++ s1;
      "STRIPE_STARTER_YEARLY_PRICE_ID=" ++ s2;
      "STRIPE_PROFESSIONAL_MONTHLY_PRICE_ID=" ++ s3;
      "STRIPE_PROFESSIONAL_YEARLY_PRICE_ID=" ++ s4 ] /\
  snd create_products_and_prices = Ok (VDict (PRICE_IDS env)).
Proof.
  intros H1 H2 H3 H4 H5 H6 H7 H8 H9 H10 H11 H12 E1 E2 E3 E4.
  destruct (create_products_run starter professional sp pp sm sy pm py
              (VStr s1) (VStr s2) (VStr s3) (VStr s4)
              H1 H2 H3 H4 H5 H6 H7 H8 H9 H10 H11 H12)
    as (t & Hrun & _ & Hprinted).
  rewrite Hrun. cbn [fst snd]. split; [exact Hprinted|].
  unfold PRICE_IDS. rewrite E1, E2, E3, E4. reflexivity.
Qed.

Lemma setup_output_configures_price_table_witness :
  snd create_products_and_prices = Ok (VDict (PRICE_IDS provisioned_env)).
Proof.
  apply (proj2 (@setup_output_configures_price_table demo_runtime demo_sdk demo_admin
                  (demo_object [("id", VStr "prod_starter")])
                  (demo_object [("id", VStr "prod_professional")])
                  (VStr "prod_starter") (VStr "prod_professional")
                  (demo_object [("id", VStr "price_starter_monthly")])
                  (demo_object [("id", VStr "price_starter_yearly")])
                  (demo_object [("id", VStr "price_professional_monthly")])
                  (demo_object [("id", VStr "price_professional_yearly")])
                  "price_starter_monthly" "price_starter_yearly"
                  "price_professional_monthly" "price_professional_yearly"
                  provisioned_env
                  eq_refl eq_refl eq_refl eq_refl eq_refl eq_refl
                  eq_refl eq_refl eq_refl eq_refl eq_refl eq_refl
                  eq_refl eq_refl eq_refl eq_refl)).
Defined.

(** When the first price is refused after both products were created, the
    provisioning stops there: the three remaining prices are never
    attempted, the two products are left in place, the error is printed
    and [None] is returned. *)
Theorem create_products_price_refused
    {rt : PyRuntime} {sdk : StripeSDK} {admin : StripeAdmin}
    (starter professional sp pp : value) (e : exn) :
  Product_create starter_product_kwargs = Ok starter ->
  sdk_getattr starter "id" = Ok sp ->
  Product_create professional_product_kwargs = Ok professional ->
  sdk_getattr professional "id" = Ok pp ->
  Price_create (price_kwargs sp 1900 "month" "Starter Monthly" "starter" "monthly")
    = Raise e ->
  snd create_products_and_prices = Ok VNone /\
  api_calls (fst create_products_and_prices) =
    [ ("Product.create", starter_product_kwargs);
      ("Product.create", professional_product_kwargs);
      ("Price.create",
       price_kwargs sp 1900 "month" "Starter Monthly" "starter" "monthly") ] /\
  exists line,
    last (printed (fst create_products_and_prices)) "" = line /\
    (line = "❌ Stripe error: " ++ exn_str e \/
     line = "❌ Unexpected error: " ++ exn_str e).
Proof.
  intros H1 H2 H3 H4 H5.
  unfold create_products_and_prices, create_products_and_prices_try,
    create_price, attr, slift, api, print.
  rewrite H1, H3.
  repeat (cbn [sbind scatch sret app fst snd]; rewrite ?H2, ?H4, ?H5).
  destruct e as [k text um| | | | | |];
    cbn [create_products_and_prices_except sbind scatch sret app fst snd print];
    (split; [reflexivity|]); (split; [reflexivity|]);
    eexists; (split; [reflexivity|]); auto.
Qed.

Lemma create_products_price_refused_witness :
  snd (@create_products_and_prices demo_runtime demo_sdk priceless_admin) = Ok VNone /\
  length (api_calls (fst (@create_products_and_prices demo_runtime demo_sdk
                            priceless_admin))) = 3.
Proof.
  destruct (@create_products_price_refused demo_runtime demo_sdk priceless_admin
              (demo_object [("id", VStr "prod_starter")])
              (demo_object [("id", VStr "prod_professional")])
              (VStr "prod_starter") (VStr "prod_professional")
              (StripeError InvalidRequestError "Invalid currency: usd" None)
              eq_refl eq_refl eq_refl eq_refl eq_refl) as (Hnone & Hcalls & _).
  split; [exact Hnone|]. rewrite Hcalls. reflexivity.
Defined.

(* ===================================================================== *)
(** ** The script's connectivity check and entry point *)
(* ===================================================================== *)

Section VerifyFacts.
Context {rt : PyRuntime} {sdk : StripeSDK} {admin : StripeAdmin} {bi : PyBuiltins}.

Lemma verify_handler_shape (e : exn) :
  (match e with
   | StripeError AuthenticationError _ _ =>
       sbind (print "❌ Invalid Stripe API key. Please check your STRIPE_SECRET_KEY.")
             (fun _ => sret false)
   | _ =>
       sbind (print ("❌ Error connecting to Stripe: " ++ exn_str e))
             (fun _ => sret false)
   end) = ([Print (connection_failure_line e)], Ok false).
Proof. destruct e as [[] text um| | | | | |]; reflexivity. Qed.

(** The check always returns, after exactly one call. *)
Lemma verify_stripe_connection_cases :
  exists t b,
    verify_stripe_connection = (t, Ok b) /\
    api_calls t = [("Account.retrieve", VDict [])] /\
    (b = true -> exists account, Account_retrieve = Ok account).
Proof.
  unfold verify_stripe_connection, attr, slift, api, print, scatch.
  destruct Account_retrieve as [account|e].
  - cbn [sbind sret app fst snd].
    repeat lazymatch goal with
           | |- context [match sdk_getattr ?o ?n with Ok _ => _ | Raise _ => _ end] =>
               destruct (sdk_getattr o n); cbn [sbind sret app fst snd]
           | |- context [if truthy ?v then _ else _] =>
               destruct (truthy v); cbn [sbind sret app fst snd]
           | |- context [upper_method ?v] =>
               destruct v; cbn [upper_method slift sbind sret app fst snd]
           end;
      try rewrite verify_handler_shape;
      do 2 eexists; (split; [reflexivity|]); split; try reflexivity; eauto.
  - cbn [sbind]. rewrite verify_handler_shape.
    do 2 eexists. split; [reflexivity|]. split; [reflexivity|]. discriminate.
Qed.

End VerifyFacts.

(** The connectivity check never raises and makes exactly one call,
    [Account.retrieve].  It answers [True] only if the provider returned
    the account; when the call fails it prints one line, naming the API key
    for an authentication error and the error's text otherwise, and
    answers [False]. *)
Theorem verify_stripe_connection_outcome
    {rt : PyRuntime} {sdk : StripeSDK} {admin : StripeAdmin} {bi : PyBuiltins} :
  (exists t b,
      verify_stripe_connection = (t, Ok b) /\
      api_calls t = [("Account.retrieve", VDict [])] /\
      (b = true -> exists account, Account_retrieve = Ok account)) /\
  (forall e,
      Account_retrieve = Raise e ->
      verify_stripe_connection =
        ([Api "Account.retrieve" (VDict []); Print (connection_failure_line e)],
         Ok false)).
Proof.
  split; [exact verify_stripe_connection_cases|].
  intros e He.
  unfold verify_stripe_connection, api, scatch. rewrite He.
  cbn [sbind]. rewrite verify_handler_shape. reflexivity.
Qed.

Lemma verify_stripe_connection_outcome_witness :
  @verify_stripe_connection demo_runtime demo_sdk locked_admin demo_builtins =
    ([ Api "Account.retrieve" (VDict []);
       Print "❌ Invalid Stripe API key. Please check your STRIPE_SECRET_KEY." ],
     Ok false).
Proof.
  exact (proj2 (@verify_stripe_connection_outcome demo_runtime demo_sdk locked_admin
                  demo_builtins)
           (StripeError AuthenticationError "Invalid API Key provided" None) eq_refl).
Defined.

(** For an account the provider returned, the check prints the display
    name, or the account id when the display name is empty or null, then
    e-mail, country and the upper-cased default currency, and answers
    [True]. *)
Theorem verify_stripe_connection_success
    {rt : PyRuntime} {sdk : StripeSDK} {admin : StripeAdmin} {bi : PyBuiltins}
    (account display_name account_id email country : value) (currency : string) :
  Account_retrieve = Ok account ->
  sdk_getattr account "display_name" = Ok display_name ->
  (truthy display_name = false -> sdk_getattr account "id" = Ok account_id) ->
  sdk_getattr account "email" = Ok email ->
  sdk_getattr account "country" = Ok country ->
  sdk_getattr account "default_currency" = Ok (VStr currency) ->
  verify_stripe_connection =
    ([ Api "Account.retrieve" (VDict []);
       Print ("✅ Connected to Stripe account: "
              ++ py_str (if truthy display_name then display_name else account_id));
       Print ("📧 Account email: " ++ py_str email);
       Print ("🌍 Country: " ++ py_str country);
       Print ("💰 Currency: " ++ py_upper currency) ],
     Ok true).
Proof.
  intros Ha Hd Hi He Hc Hcur.
  unfold verify_stripe_connection, attr, slift, api, print, scatch.
  rewrite Ha. cbn [sbind sret app fst snd]. rewrite Hd.
  destruct (truthy display_name) eqn:Ht; cbn [sbind sret app fst snd];
    rewrite ?(Hi eq_refl); cbn [sbind sret app fst snd];
    rewrite He; cbn [sbind sret app fst snd];
    rewrite Hc; cbn [sbind sret app fst snd];
    rewrite Hcur; reflexivity.
Qed.

Lemma verify_stripe_connection_success_witness :
  verify_stripe_connection =
    ([ Api "Account.retrieve" (VDict []);
       Print "✅ Connected to Stripe account: acct_1";
       Print "📧 Account email: owner@example.com";
       Print "🌍 Country: US";
       Print "💰 Currency: USD" ],
     Ok true).
Proof.
  apply (@verify_stripe_connection_success demo_runtime demo_sdk demo_admin
           demo_builtins demo_account VNone (VStr "acct_1")
           (VStr "owner@example.com") (VStr "US") "usd");
    reflexivity.
Defined.

(** An account whose default currency is not a string (null, for one) is
    reported as a connection failure: after printing the account (its
    display name, or its id when the display name is empty or null),
    e-mail and country, the [upper] call raises, the error is printed and
    the check answers [False]. *)
Theorem verify_stripe_connection_without_currency
    {rt : PyRuntime} {sdk : StripeSDK} {admin : StripeAdmin} {bi : PyBuiltins}
    (account display_name account_id email country currency : value) :
  Account_retrieve = Ok account ->
  sdk_getattr account "display_name" = Ok display_name ->
  (truthy display_name = false -> sdk_getattr account "id" = Ok account_id) ->
  sdk_getattr account "email" = Ok email ->
  sdk_getattr account "country" = Ok country ->
  sdk_getattr account "default_currency" = Ok currency ->
  (forall s, currency <> VStr s) ->
  verify_stripe_connection =
    ([ Api "Account.retrieve" (VDict []);
       Print ("✅ Connected to Stripe account: "
              ++ py_str (if truthy display_name then display_name else account_id));
       Print ("📧 Account email: " ++ py_str email);
       Print ("🌍 Country: " ++ py_str country);
       Print ("❌ Error connecting to Stripe: "
              ++ fault_text (NoAttribute "upper") currency) ],
     Ok false).
Proof.
  intros Ha Hd Hi He Hc Hcur Hns.
  unfold verify_stripe_connection, attr, slift, api, print, scatch.
  rewrite Ha. cbn [sbind sret app fst snd]. rewrite Hd.
  destruct (truthy display_name) eqn:Ht; cbn [sbind sret app fst snd];
    rewrite ?(Hi eq_refl); cbn [sbind sret app fst snd];
    rewrite He; cbn [sbind sret app fst snd];
    rewrite Hc; cbn [sbind sret app fst snd];
    rewrite Hcur;
    (destruct currency; try reflexivity; exfalso; exact (Hns _ eq_refl)).
Qed.

Lemma verify_stripe_connection_without_currency_witness :
  @verify_stripe_connection demo_runtime demo_sdk cashless_admin demo_builtins =
    ([ Api "Account.retrieve" (VDict []);
       Print "✅ Connected to Stripe account: Maestro";
       Print "📧 Account email: owner@example.com";
       Print "🌍 Country: US";
       Print "❌ Error connecting to Stripe: 'NoneType' object has no attribute 'upper'" ],
     Ok false) /\
  @verify_stripe_connection demo_runtime demo_sdk nameless_admin demo_builtins =
    ([ Api "Account.retrieve" (VDict []);
       Print "✅ Connected to Stripe account: acct_3";
       Print "📧 Account email: owner@example.com";
       Print "🌍 Country: US";
       Print "❌ Error connecting to Stripe: 'NoneType' object has no attribute 'upper'" ],
     Ok false).
Proof.
  split.
  - apply (@verify_stripe_connection_without_currency demo_runtime demo_sdk
             cashless_admin demo_builtins demo_cashless_account (VStr "Maestro")
             VNone (VStr "owner@example.com") (VStr "US") VNone);
      try reflexivity; intros; discriminate.
  - apply (@verify_stripe_connection_without_currency demo_runtime demo_sdk
             nameless_admin demo_builtins demo_nameless_account VNone
             (VStr "acct_3") (VStr "owner@example.com") (VStr "US") VNone);
      try reflexivity; intros; discriminate.
Defined.

(** Without STRIPE_SECRET_KEY, unset or empty, the script prints its
    banner and two lines of advice and exits with code 1 without calling
    the provider. *)
Theorem setup_main_without_key
    {rt : PyRuntime} {sdk : StripeSDK} {admin : StripeAdmin} {bi : PyBuiltins}
    (env : environ) :
  env "STRIPE_SECRET_KEY" = None \/ env "STRIPE_SECRET_KEY" = Some "" ->
  setup_main env =
    ([ Print "🔑 ReviewMaestro Stripe Setup";
       Print "============================================================";
       Print "❌ STRIPE_SECRET_KEY environment variable not set!";
       Print "Please set your Stripe secret key and try again." ],
     Ok (Exited 1)) /\
  api_calls (fst (setup_main env)) = [].
Proof.
  intros H. unfold setup_main, print.
  assert (Hf : truthy (of_optional (env "STRIPE_SECRET_KEY")) = false)
    by (destruct H as [-> | ->]; reflexivity).
  rewrite Hf. split; reflexivity.
Qed.

Lemma setup_main_without_key_witness :
  api_calls (fst (setup_main bare_env)) = [] /\
  snd (setup_main bare_env) = Ok (Exited 1).
Proof.
  destruct (@setup_main_without_key demo_runtime demo_sdk demo_admin demo_builtins
              bare_env (or_introl eq_refl)) as [Hrun Hcalls].
  split; [exact Hcalls|]. rewrite Hrun. reflexivity.
Defined.

(** The script never raises and ends either normally or with exit code 1.
    It ends normally exactly when the secret key is set, the connectivity
    check answered [True] and the provisioning returned the dict of price
    ids; and when the check answers [False] nothing is provisioned: the
    account lookup is the only call. *)
Theorem setup_main_completes_iff
    {rt : PyRuntime} {sdk : StripeSDK} {admin : StripeAdmin} {bi : PyBuiltins}
    (env : environ) :
  (exists t o, setup_main env = (t, Ok o) /\ (o = Completed \/ o = Exited 1)) /\
  (snd (setup_main env) = Ok Completed <->
   truthy (of_optional (env "STRIPE_SECRET_KEY")) = true /\
   snd verify_stripe_connection = Ok true /\
   exists kvs, snd create_products_and_prices = Ok (VDict kvs)) /\
  (truthy (of_optional (env "STRIPE_SECRET_KEY")) = true ->
   snd verify_stripe_connection = Ok false ->
   api_calls (fst (setup_main env)) = [("Account.retrieve", VDict [])] /\
   snd (setup_main env) = Ok (Exited 1)).
Proof.
  unfold setup_main, print.
  destruct (truthy (of_optional (env "STRIPE_SECRET_KEY"))) eqn:Hk; cbn [negb].
  - destruct verify_stripe_connection_cases as (tv & b & Hv & Hcalls & _).
    rewrite Hv. cbn [sbind sret app fst snd].
    destruct b; cbn [negb sbind sret app fst snd].
    + destruct create_products_cases
        as (tc & v & n & Hc & _ & [-> | (_ & kvs & -> & Hkeys)]);
        rewrite Hc; cbn [sbind sret app fst snd truthy].
      * split; [eauto|]. split; [|intros _ H; discriminate H].
        split; [discriminate|]. intros (_ & _ & kvs & H). discriminate H.
      * destruct kvs as [|kv kvs]; [specialize (Hkeys bare_env); discriminate|].
        cbn [sbind sret app fst snd].
        split; [eauto|]. split; [|intros _ H; discriminate H].
        split; [eauto 6|reflexivity].
    + split; [eauto|]. split.
      * split; [discriminate|]. intros (_ & H & _). discriminate H.
      * intros _ _. cbn [api_calls]. rewrite ?api_calls_append, Hcalls.
        split; reflexivity.
  - split; [cbn; eauto|]. split; [|intros H; discriminate H].
    split; [discriminate|]. intros (H & _). discriminate H.
Qed.

Lemma setup_main_completes_iff_witness :
  snd (setup_main live_env) = Ok Completed.
Proof.
  apply (proj1 (proj2 (@setup_main_completes_iff demo_runtime demo_sdk demo_admin
                         demo_builtins live_env))).
  split; [reflexivity|]. split; [reflexivity|].
  eexists. reflexivity.
Defined.

Lemma webhook_raises_iff_witness :
  snd (@stripe_webhook demo_runtime hollow_sdk demo_env (signed "anything"))
    = Raise (KeyError "'type'") /\
  @stripe_webhook demo_runtime hollow_sdk demo_env (signed "anything") =
    ([SdkCall "Webhook.construct_event" (verification_args demo_env (signed "anything"))],
     Raise (KeyError "'type'")).
Proof.
  destruct (@webhook_raises_iff demo_runtime hollow_sdk demo_env (signed "anything")
              (KeyError "'type'")) as [[_ Hback] Hrun].
  assert (H : snd (@stripe_webhook demo_runtime hollow_sdk demo_env (signed "anything"))
              = Raise (KeyError "'type'")).
  { apply Hback. split; [reflexivity|]. right. exists (VDict []).
    split; [reflexivity|]. split; [left; reflexivity | reflexivity]. }
  split; [exact H | exact (Hrun H)].
Defined.
